(** * Structural extraction and structured-output recovery: a shallow embedding

    The development embeds the parts of [backend/parsers/ast_parser.py] and
    [backend/converters/code_converter.py] that the specification's testable
    properties speak about, and settles each property on the embedding.

    Conventions.
    - A Python [str] is a [string] that holds its UTF-8 encoding.  Python's
      Unicode-aware predicates ([str.isspace], [\s], [\w], [str.lower]) are
      given on the ASCII range: a white space or a letter outside ASCII is
      an ordinary character to the embedding.
    - A Python [int] is a [Z]; list indices and slices follow Python's rules
      for negative and out-of-range values.
    - A computation that can raise is a value of [result]; [try ... except]
      is [try_except].  [print] writes to a log of [event]s where the log is
      what tells the strategies of the recovery parser apart, and is left
      out elsewhere.
    - Python's recursion limit and memory exhaustion are not modelled. *)

From Stdlib Require Import String Ascii List ZArith Bool Arith Lia.
From Stdlib Require Import Numbers.DecimalString.
Import ListNotations.

Local Open Scope string_scope.
Local Open Scope list_scope.
Local Open Scope Z_scope.

Set Implicit Arguments.
Set Warnings "-register-all".

(* ===================================================================== *)
(** * Python exceptions *)
(* ===================================================================== *)

(** The subclasses of [Exception] that the embedded code can meet. *)
Inductive exn : Type :=
| IndexError
| TypeError
| AttributeError
| ValueError
| SyntaxError
| OSError
| UnicodeDecodeError
| RecursionError
| JSONDecodeError.

Inductive result (A : Type) : Type :=
| Ok (a : A)
| Raise (e : exn).

Arguments Ok {A} a.
Arguments Raise {A} e.

Definition bind {A B : Type} (m : result A) (f : A -> result B) : result B :=
  match m with
  | Ok a => f a
  | Raise e => Raise e
  end.

(** [try: m  except: h] with a bare [except] or [except Exception]. *)
Definition try_except {A : Type} (m : result A) (h : exn -> result A) : result A :=
  match m with
  | Ok a => Ok a
  | Raise e => h e
  end.

Declare Scope py_scope.
Delimit Scope py_scope with py.
Notation "x <- m ;; k" := (bind m (fun x => k))
  (at level 61, m at next level, right associativity) : py_scope.
Notation "' p <- m ;; k" := (bind m (fun x => let p := x in k))
  (at level 61, p pattern, m at next level, right associativity) : py_scope.

(* ===================================================================== *)
(** * Python strings and lists *)
(* ===================================================================== *)

Module PyStr.

(** [str.isspace] on one character. *)
Definition isspace (c : ascii) : bool :=
  let n := nat_of_ascii c in
  (((9 <=? n) && (n <=? 13)) || ((28 <=? n) && (n <=? 32)))%nat.

Definition isupper (c : ascii) : bool :=
  let n := nat_of_ascii c in ((65 <=? n) && (n <=? 90))%nat.

Definition islower (c : ascii) : bool :=
  let n := nat_of_ascii c in ((97 <=? n) && (n <=? 122))%nat.

Definition isdigit (c : ascii) : bool :=
  let n := nat_of_ascii c in ((48 <=? n) && (n <=? 57))%nat.

(** The class [\w]. *)
Definition isword (c : ascii) : bool :=
  isupper c || islower c || isdigit c || Ascii.eqb c "_"%char.

Definition lower_char (c : ascii) : ascii :=
  if isupper c then ascii_of_nat (nat_of_ascii c + 32) else c.

(** [s.lower()] *)
Fixpoint lower (s : string) : string :=
  match s with
  | EmptyString => EmptyString
  | String c s' => String (lower_char c) (lower s')
  end.

Definition upper_char (c : ascii) : ascii :=
  if islower c then ascii_of_nat (nat_of_ascii c - 32) else c.

(** [s.capitalize()] *)
Definition capitalize (s : string) : string :=
  match s with
  | EmptyString => EmptyString
  | String c s' => String (upper_char c) (lower s')
  end.

(** [p] is a prefix of [s]. *)
Fixpoint prefix (p s : string) : bool :=
  match p, s with
  | EmptyString, _ => true
  | String a p', String b s' => Ascii.eqb a b && prefix p' s'
  | String _ _, EmptyString => false
  end.

(** [s.startswith(p)] *)
Definition startswith (s p : string) : bool := prefix p s.

(** [s[n:]] for [0 <= n]. *)
Fixpoint drop (n : nat) (s : string) : string :=
  match n, s with
  | O, _ => s
  | S _, EmptyString => EmptyString
  | S n', String _ s' => drop n' s'
  end.

(** [s[:n]] for [0 <= n]. *)
Fixpoint take (n : nat) (s : string) : string :=
  match n, s with
  | O, _ => EmptyString
  | S _, EmptyString => EmptyString
  | S n', String c s' => String c (take n' s')
  end.

(** [s.endswith(p)] *)
Definition endswith (s p : string) : bool :=
  (String.length p <=? String.length s)%nat
  && String.eqb (drop (String.length s - String.length p) s) p.

(** [s.endswith((p1, ..., pn))] *)
Definition endswith_any (s : string) (ps : list string) : bool :=
  existsb (endswith s) ps.

(** [s in [x1, ..., xn]] *)
Definition str_in_list (s : string) (xs : list string) : bool :=
  existsb (String.eqb s) xs.

(** [sub in s] *)
Fixpoint str_in (sub s : string) : bool :=
  prefix sub s ||
  match s with
  | EmptyString => false
  | String _ s' => str_in sub s'
  end.

(** [s.count(c)] for a one-character [c]. *)
Fixpoint count (s : string) (c : ascii) : Z :=
  match s with
  | EmptyString => 0
  | String d s' => (if Ascii.eqb d c then 1 else 0) + count s' c
  end.

Fixpoint lstrip (s : string) : string :=
  match s with
  | EmptyString => EmptyString
  | String c s' => if isspace c then lstrip s' else s
  end.

Fixpoint rstrip (s : string) : string :=
  match s with
  | EmptyString => EmptyString
  | String c s' =>
      match rstrip s' with
      | EmptyString => if isspace c then EmptyString else String c EmptyString
      | t => String c t
      end
  end.

(** [s.strip()] *)
Definition strip (s : string) : string := rstrip (lstrip s).

(** [s.split(c)] for a one-character separator. *)
Fixpoint split (c : ascii) (s : string) : list string :=
  match s with
  | EmptyString => [EmptyString]
  | String d s' =>
      if Ascii.eqb d c then EmptyString :: split c s'
      else match split c s' with
           | [] => [String d EmptyString]
           | w :: ws => String d w :: ws
           end
  end.

(** The line feed, as a character and as a text. *)
Definition nl_char : ascii := "010"%char.
Definition nl : string := String nl_char EmptyString.

(** [s.split(c, 1)] when [c] occurs in [s]: the text before the first [c]
    and the text after it. *)
Fixpoint split_once (c : ascii) (s : string) : string * string :=
  match s with
  | EmptyString => (EmptyString, EmptyString)
  | String d s' =>
      if Ascii.eqb d c then (EmptyString, s')
      else let (a, b) := split_once c s' in (String d a, b)
  end.

(** [sep.join(xs)] *)
Fixpoint join (sep : string) (xs : list string) : string :=
  match xs with
  | [] => EmptyString
  | [x] => x
  | x :: rest => x ++ sep ++ join sep rest
  end.

(** [s.replace(old, new)] for a non-empty [old]: occurrences are replaced
    from the left and do not overlap. *)
Fixpoint replace_fuel (fuel : nat) (old new s : string) : string :=
  match fuel with
  | O => s
  | S fuel' =>
      if prefix old s then
        new ++ replace_fuel fuel' old new (drop (String.length old) s)
      else match s with
           | EmptyString => EmptyString
           | String c s' => String c (replace_fuel fuel' old new s')
           end
  end.

Definition replace (s old new : string) : string :=
  replace_fuel (S (String.length s)) old new s.

(** [s.find(c)] for a one-character [c]: the least index, or [-1]. *)
Fixpoint find_from (i : Z) (c : ascii) (s : string) : Z :=
  match s with
  | EmptyString => -1
  | String d s' => if Ascii.eqb d c then i else find_from (i + 1) c s'
  end.

Definition find (s : string) (c : ascii) : Z := find_from 0 c s.

(** [s.rfind(c)]: the greatest index, or [-1]. *)
Fixpoint rfind_from (i : Z) (c : ascii) (s : string) : Z :=
  match s with
  | EmptyString => -1
  | String d s' =>
      let r := rfind_from (i + 1) c s' in
      if 0 <=? r then r else if Ascii.eqb d c then i else -1
  end.

Definition rfind (s : string) (c : ascii) : Z := rfind_from 0 c s.

(** Python's clamping of a slice bound to [0 .. n]. *)
Definition clamp (n x : Z) : Z :=
  if x <? 0 then Z.max 0 (x + n) else Z.min x n.

(** [s[lo:hi]] *)
Definition slice (s : string) (lo hi : Z) : string :=
  let n := Z.of_nat (String.length s) in
  let a := clamp n lo in
  let b := clamp n hi in
  take (Z.to_nat (b - a)) (drop (Z.to_nat a) s).

(** [str(n)] for a natural number. *)
Definition str_of_nat (n : nat) : string :=
  NilZero.string_of_uint (Nat.to_uint n).

End PyStr.

Module PyList.

(** [len(l)] *)
Definition len {A : Type} (l : list A) : Z := Z.of_nat (List.length l).

(** [l[i]]: a negative index counts from the end; out of range raises. *)
Definition index {A : Type} (l : list A) (i : Z) : result A :=
  let j := if i <? 0 then i + len l else i in
  if (0 <=? j) && (j <? len l) then
    match nth_error l (Z.to_nat j) with
    | Some x => Ok x
    | None => Raise IndexError
    end
  else Raise IndexError.

(** [l[lo:hi]] *)
Definition slice {A : Type} (l : list A) (lo hi : Z) : list A :=
  let a := PyStr.clamp (len l) lo in
  let b := PyStr.clamp (len l) hi in
  firstn (Z.to_nat (b - a)) (skipn (Z.to_nat a) l).

(** The number of iterations of [range(lo, hi)]. *)
Definition range_len (lo hi : Z) : nat := Z.to_nat (hi - lo).

End PyList.

(* ===================================================================== *)
(** * [json.loads] *)
(* ===================================================================== *)

(** Python's [json] module belongs to the standard library.  The decoder
    below follows [json.decoder] and [json.scanner] on a [str]: the same
    grammar, the same strictness (no control character inside a string, no
    trailing comma, nothing but white space after the value), [NaN] and
    the infinities accepted.  A number is kept as its lexeme, since no
    property below depends on its value.  The interpreter's recursion
    limit on deeply nested values is not modelled: [RecursionError] stands
    for a scanner that runs out of its counter, which does not happen. *)
Module Json.

Import PyStr.

Inductive json : Type :=
| JNull
| JBool (b : bool)
| JNumber (lexeme : string)
| JString (s : string)
| JArray (items : list json)
| JObject (pairs : list (string * json)).

(** A [dict] with string keys: keys are unique, in insertion order. *)
Definition dict : Type := list (string * json).

(** [d[k] = v] *)
Fixpoint dict_set (k : string) (v : json) (d : dict) : dict :=
  match d with
  | [] => [(k, v)]
  | (k', v') :: rest =>
      if String.eqb k k' then (k, v) :: rest else (k', v') :: dict_set k v rest
  end.

(** [dict(pairs)] *)
Definition dict_of_pairs (pairs : list (string * json)) : dict :=
  fold_left (fun d kv => dict_set (fst kv) (snd kv) d) pairs [].

(** [d.get(k, default)] *)
Fixpoint dict_get (k : string) (default : json) (d : dict) : json :=
  match d with
  | [] => default
  | (k', v) :: rest => if String.eqb k k' then v else dict_get k default rest
  end.

(** The white space of [json.decoder.WHITESPACE]: space, tab, LF, CR. *)
Definition is_ws (c : ascii) : bool :=
  Ascii.eqb c " "%char || Ascii.eqb c "009"%char
  || Ascii.eqb c "010"%char || Ascii.eqb c "013"%char.

Fixpoint skip_ws (s : string) : string :=
  match s with
  | String c s' => if is_ws c then skip_ws s' else s
  | EmptyString => EmptyString
  end.

Definition hex_value (c : ascii) : option N :=
  let n := N_of_ascii c in
  if ((48 <=? n) && (n <=? 57))%N then Some (n - 48)%N
  else if ((65 <=? n) && (n <=? 70))%N then Some (n - 55)%N
  else if ((97 <=? n) && (n <=? 102))%N then Some (n - 87)%N
  else None.

(** Four hexadecimal digits, as after [\u]. *)
Definition hex4 (s : string) : option (N * string) :=
  match s with
  | String a (String b (String c (String d rest))) =>
      match hex_value a, hex_value b, hex_value c, hex_value d with
      | Some x, Some y, Some z, Some w =>
          Some ((((x * 16 + y) * 16 + z) * 16 + w)%N, rest)
      | _, _, _, _ => None
      end
  | _ => None
  end.

Definition byte (n : N) : ascii := ascii_of_N n.

(** The UTF-8 encoding of a code point; a [str] is kept as its UTF-8
    bytes, a lone surrogate is encoded like any three-byte code point. *)
Definition utf8 (cp : N) : string :=
  (if cp <? 128 then String (byte cp) EmptyString
   else if cp <? 2048 then
     String (byte (192 + cp / 64)) (String (byte (128 + cp mod 64)) EmptyString)
   else if cp <? 65536 then
     String (byte (224 + cp / 4096))
       (String (byte (128 + (cp / 64) mod 64))
          (String (byte (128 + cp mod 64)) EmptyString))
   else
     String (byte (240 + cp / 262144))
       (String (byte (128 + (cp / 4096) mod 64))
          (String (byte (128 + (cp / 64) mod 64))
             (String (byte (128 + cp mod 64)) EmptyString))))%N.

(** The escape after a backslash, [json.decoder.BACKSLASH]. *)
Definition simple_escape (c : ascii) : option ascii :=
  if Ascii.eqb c "034"%char then Some "034"%char
  else if Ascii.eqb c "\"%char then Some "\"%char
  else if Ascii.eqb c "/"%char then Some "/"%char
  else if Ascii.eqb c "b"%char then Some "008"%char
  else if Ascii.eqb c "f"%char then Some "012"%char
  else if Ascii.eqb c "n"%char then Some "010"%char
  else if Ascii.eqb c "r"%char then Some "013"%char
  else if Ascii.eqb c "t"%char then Some "009"%char
  else None.

(** [scanstring(s, end, strict=True)], entered after the opening quote:
    the decoded string and the text after the closing quote. *)
Fixpoint scanstring (fuel : nat) (s : string) : result (string * string) :=
  match fuel with
  | O => Raise RecursionError
  | S fuel' =>
      match s with
      | EmptyString => Raise JSONDecodeError
      | String c s' =>
          if Ascii.eqb c "034"%char then Ok (EmptyString, s')
          else if Ascii.eqb c "\"%char then
            match s' with
            | EmptyString => Raise JSONDecodeError
            | String e s'' =>
                if Ascii.eqb e "u"%char then
                  match hex4 s'' with
                  | None => Raise JSONDecodeError
                  | Some (uni, rest) =>
                      let joined :=
                        if ((55296 <=? uni) && (uni <=? 56319))%N then
                          match rest with
                          | String b1 (String b2 rest2) =>
                              if Ascii.eqb b1 "\"%char && Ascii.eqb b2 "u"%char then
                                match hex4 rest2 with
                                | None => Raise JSONDecodeError
                                | Some (uni2, rest3) =>
                                    if ((56320 <=? uni2) && (uni2 <=? 57343))%N then
                                      Ok ((65536 + ((uni - 55296) * 1024 + (uni2 - 56320)))%N,
                                          rest3)
                                    else Ok (uni, rest)
                                end
                              else Ok (uni, rest)
                          | _ => Ok (uni, rest)
                          end
                        else Ok (uni, rest) in
                      match joined with
                      | Raise e => Raise e
                      | Ok (cp, rest') =>
                          match scanstring fuel' rest' with
                          | Ok (t, r) => Ok ((utf8 cp ++ t)%string, r)
                          | Raise e => Raise e
                          end
                      end
                  end
                else
                  match simple_escape e with
                  | None => Raise JSONDecodeError
                  | Some d =>
                      match scanstring fuel' s'' with
                      | Ok (t, r) => Ok (String d t, r)
                      | Raise e => Raise e
                      end
                  end
            end
          else if (N_of_ascii c <? 32)%N then Raise JSONDecodeError
          else
            match scanstring fuel' s' with
            | Ok (t, r) => Ok (String c t, r)
            | Raise e => Raise e
            end
      end
  end.

Fixpoint span_digits (s : string) : string * string :=
  match s with
  | String c s' =>
      if isdigit c then let (d, r) := span_digits s' in (String c d, r)
      else (EmptyString, s)
  | EmptyString => (EmptyString, EmptyString)
  end.

(** [NUMBER_RE.match]: an optional minus sign, then [0] or a digit string
    without leading zero; an optional fraction (a dot and digits); an
    optional exponent ([e] or [E], an optional sign, digits). *)
Definition match_number (s : string) : option (string * string) :=
  let (sign, s1) :=
    match s with
    | String c s' => if Ascii.eqb c "-"%char then ("-", s') else (EmptyString, s)
    | EmptyString => (EmptyString, s)
    end in
  match s1 with
  | String c s2 =>
      if isdigit c then
        let (int_digits, s3) :=
          if Ascii.eqb c "0"%char then (EmptyString, s2) else span_digits s2 in
        let (frac, s4) :=
          match s3 with
          | String d s3' =>
              if Ascii.eqb d "."%char then
                match span_digits s3' with
                | (EmptyString, _) => (EmptyString, s3)
                | (ds, r) => (String d ds, r)
                end
              else (EmptyString, s3)
          | EmptyString => (EmptyString, s3)
          end in
        let (exp, s5) :=
          match s4 with
          | String e s4' =>
              if Ascii.eqb e "e"%char || Ascii.eqb e "E"%char then
                let (esign, s4'') :=
                  match s4' with
                  | String g r =>
                      if Ascii.eqb g "-"%char || Ascii.eqb g "+"%char
                      then (String g EmptyString, r) else (EmptyString, s4')
                  | EmptyString => (EmptyString, s4')
                  end in
                match span_digits s4'' with
                | (EmptyString, _) => (EmptyString, s4)
                | (ds, r) => ((String e esign ++ ds)%string, r)
                end
              else (EmptyString, s4)
          | EmptyString => (EmptyString, s4)
          end in
        Some ((sign ++ String c int_digits ++ frac ++ exp)%string, s5)
      else None
  | EmptyString => None
  end.

(** [int(lexeme)] raises [ValueError] on an integer lexeme of more than
    4300 digits ([sys.int_info.default_max_str_digits]); a lexeme with a
    fraction or an exponent is a [float] and has no such limit. *)
Definition too_many_digits (lexeme : string) : bool :=
  negb (str_in "." lexeme || str_in "e" lexeme || str_in "E" lexeme)
  && (4300 <? String.length (if PyStr.prefix "-" lexeme then drop 1 lexeme else lexeme))%nat.

(** [s[idx:idx + len(w)] == w], returning the rest of the text. *)
Definition literal (w s : string) : option string :=
  if PyStr.prefix w s then Some (drop (String.length w) s) else None.

(** [scan_once], [JSONObject] and [JSONArray].  [object_pairs] is the
    [while True] loop of [JSONObject], entered after the opening quote of
    a key; [array_items] is the loop of [JSONArray], entered at a value. *)
Fixpoint scan_once (fuel : nat) (s : string) : result (json * string) :=
  match fuel with
  | O => Raise RecursionError
  | S fuel' =>
      match s with
      | EmptyString => Raise JSONDecodeError
      | String c s' =>
          if Ascii.eqb c "034"%char then
            match scanstring (S (String.length s')) s' with
            | Ok (t, r) => Ok (JString t, r)
            | Raise e => Raise e
            end
          else if Ascii.eqb c "{"%char then
            let s1 := skip_ws s' in
            match s1 with
            | String d s2 =>
                if Ascii.eqb d "}"%char then Ok (JObject [], s2)
                else if Ascii.eqb d "034"%char then
                  match object_pairs fuel' s2 [] with
                  | Ok (pairs, r) => Ok (JObject (dict_of_pairs pairs), r)
                  | Raise e => Raise e
                  end
                else Raise JSONDecodeError
            | EmptyString => Raise JSONDecodeError
            end
          else if Ascii.eqb c "["%char then
            let s1 := skip_ws s' in
            match s1 with
            | String d s2 =>
                if Ascii.eqb d "]"%char then Ok (JArray [], s2)
                else
                  match array_items fuel' s1 [] with
                  | Ok (items, r) => Ok (JArray items, r)
                  | Raise e => Raise e
                  end
            | EmptyString => Raise JSONDecodeError
            end
          else
            match literal "null" s, literal "true" s, literal "false" s with
            | Some r, _, _ => Ok (JNull, r)
            | _, Some r, _ => Ok (JBool true, r)
            | _, _, Some r => Ok (JBool false, r)
            | None, None, None =>
                match match_number s with
                | Some (lexeme, r) =>
                    if too_many_digits lexeme then Raise ValueError
                    else Ok (JNumber lexeme, r)
                | None =>
                    match literal "NaN" s, literal "Infinity" s, literal "-Infinity" s with
                    | Some r, _, _ => Ok (JNumber "NaN", r)
                    | _, Some r, _ => Ok (JNumber "Infinity", r)
                    | _, _, Some r => Ok (JNumber "-Infinity", r)
                    | None, None, None => Raise JSONDecodeError
                    end
                end
            end
      end
  end

with object_pairs (fuel : nat) (s : string) (acc : list (string * json))
    : result (list (string * json) * string) :=
  match fuel with
  | O => Raise RecursionError
  | S fuel' =>
      match scanstring (S (String.length s)) s with
      | Raise e => Raise e
      | Ok (key, s1) =>
          match skip_ws s1 with
          | String c s2 =>
              if Ascii.eqb c ":"%char then
                match scan_once fuel' (skip_ws s2) with
                | Raise e => Raise e
                | Ok (value, s3) =>
                    let acc := (acc ++ [(key, value)])%list in
                    match skip_ws s3 with
                    | String d s4 =>
                        if Ascii.eqb d "}"%char then Ok (acc, s4)
                        else if Ascii.eqb d ","%char then
                          match skip_ws s4 with
                          | String q s5 =>
                              if Ascii.eqb q "034"%char then object_pairs fuel' s5 acc
                              else Raise JSONDecodeError
                          | EmptyString => Raise JSONDecodeError
                          end
                        else Raise JSONDecodeError
                    | EmptyString => Raise JSONDecodeError
                    end
                end
              else Raise JSONDecodeError
          | EmptyString => Raise JSONDecodeError
          end
      end
  end

with array_items (fuel : nat) (s : string) (acc : list json)
    : result (list json * string) :=
  match fuel with
  | O => Raise RecursionError
  | S fuel' =>
      match scan_once fuel' s with
      | Raise e => Raise e
      | Ok (value, s1) =>
          let acc := (acc ++ [value])%list in
          match skip_ws s1 with
          | String d s2 =>
              if Ascii.eqb d "]"%char then Ok (acc, s2)
              else if Ascii.eqb d ","%char then array_items fuel' (skip_ws s2) acc
              else Raise JSONDecodeError
          | EmptyString => Raise JSONDecodeError
          end
      end
  end.

(** [json.loads(s)]: white space, one value, white space, end of text.
    The scanner recurses on a counter; it is given more than twice the
    length of the text, which no run uses up. *)
Definition loads (s : string) : result json :=
  match scan_once (2 * String.length s + 2) (skip_ws s) with
  | Raise e => Raise e
  | Ok (v, rest) =>
      match skip_ws rest with
      | EmptyString => Ok v
      | String _ _ => Raise JSONDecodeError
      end
  end.

End Json.

(* ===================================================================== *)
(** * Regular expressions *)
(* ===================================================================== *)

(** The fragment of Python's [re] that the converter uses, with the
    module's backtracking semantics: alternatives are tried from the left,
    a greedy repetition tries one more iteration before it tries to go on,
    a lazy one the other way round, and the first way that lets the whole
    pattern match is the match. *)
Module Regex.

Import PyStr.

Inductive regex : Type :=
| Eps
| Chr (p : ascii -> bool)
| Seq (a b : regex)
| Alt (a b : regex)
| Star (a : regex)
| LazyStar (a : regex)
| Group (n : nat) (a : regex).

(** A literal character and a literal string. *)
Definition Char (c : ascii) : regex := Chr (Ascii.eqb c).

Fixpoint Lit (s : string) : regex :=
  match s with
  | EmptyString => Eps
  | String c s' => Seq (Char c) (Lit s')
  end.

(** [a?] and [a+], greedy. *)
Definition Opt (a : regex) : regex := Alt a Eps.
Definition Plus (a : regex) : regex := Seq a (Star a).

(** A group is known by the lengths of the text still to read where it
    starts and where it ends. *)
Definition captures : Type := list (nat * (nat * nat)).

(** What a match in progress returns: the text left and the groups. *)
Definition outcome : Type := option (string * captures).
Definition continuation : Type := string -> captures -> outcome.

(** A greedy repetition of [step] with at most [n] iterations, each of
    which must consume a character: one more iteration first, the rest of
    the pattern otherwise. *)
Fixpoint greedy_loop (step : string -> captures -> continuation -> outcome)
    (k : continuation) (n : nat) (s : string) (caps : captures) : outcome :=
  match n with
  | O => k s caps
  | S n' =>
      match
        step s caps
          (fun s' caps' =>
             if (String.length s' <? String.length s)%nat
             then greedy_loop step k n' s' caps' else None)
      with
      | Some x => Some x
      | None => k s caps
      end
  end.

(** A lazy repetition: the rest of the pattern first, one more iteration
    otherwise. *)
Fixpoint lazy_loop (step : string -> captures -> continuation -> outcome)
    (k : continuation) (n : nat) (s : string) (caps : captures) : outcome :=
  match n with
  | O => k s caps
  | S n' =>
      match k s caps with
      | Some x => Some x
      | None =>
          step s caps
            (fun s' caps' =>
               if (String.length s' <? String.length s)%nat
               then lazy_loop step k n' s' caps' else None)
      end
  end.

(** The matcher, in continuation-passing style: [k] is what remains of the
    pattern, given the text still to read and the groups closed so far.
    A repetition on [s] makes at most [length s] iterations. *)
Fixpoint rmatch (r : regex) (s : string) (caps : captures) (k : continuation)
    {struct r} : outcome :=
  match r with
  | Eps => k s caps
  | Chr p =>
      match s with
      | String c s' => if p c then k s' caps else None
      | EmptyString => None
      end
  | Seq a b => rmatch a s caps (fun s' caps' => rmatch b s' caps' k)
  | Alt a b =>
      match rmatch a s caps k with
      | Some x => Some x
      | None => rmatch b s caps k
      end
  | Star a => greedy_loop (rmatch a) k (String.length s) s caps
  | LazyStar a => lazy_loop (rmatch a) k (String.length s) s caps
  | Group n a =>
      rmatch a s caps
        (fun s' caps' => k s' ((n, (String.length s, String.length s')) :: caps'))
  end.

(** [pattern.match] at the head of [s]: the text after the match and the
    groups. *)
Definition final : continuation := fun s caps => Some (s, caps).

Definition match_here (r : regex) (s : string) : outcome :=
  rmatch r s [] final.

(** A match found in [text]: where it starts and ends, and its groups,
    all as indices into [text]. *)
Record found : Type := {
  m_start : nat;
  m_end : nat;
  m_groups : list (nat * (nat * nat))
}.

Definition locate (total : nat) (suffix_len : nat) : nat := (total - suffix_len)%nat.

Definition found_at (total : nat) (s : string) (hit : string * captures) : found :=
  {| m_start := locate total (String.length s);
     m_end := locate total (String.length (fst hit));
     m_groups :=
       map (fun g => (fst g, (locate total (fst (snd g)), locate total (snd (snd g)))))
           (snd hit) |}.

(** [re.search(pattern, text)], scanning the suffix [s] of a text of
    [total] characters: the leftmost start at which the pattern matches. *)
Fixpoint search_in (r : regex) (total : nat) (s : string) : option found :=
  match match_here r s with
  | Some hit => Some (found_at total s hit)
  | None =>
      match s with
      | EmptyString => None
      | String _ s' => search_in r total s'
      end
  end.

Definition search (r : regex) (text : string) : option found :=
  search_in r (String.length text) text.

(** [match.start(n)], [match.end(n)] and [match.group(n)]. *)
Definition group_span (n : nat) (m : found) : option (nat * nat) :=
  match List.find (fun g => Nat.eqb (fst g) n) (m_groups m) with
  | Some g => Some (snd g)
  | None => None
  end.

Definition group (n : nat) (text : string) (m : found) : string :=
  match group_span n m with
  | Some (a, b) => take (b - a) (drop a text)
  | None => EmptyString
  end.

(** [re.findall(pattern, text)] for a pattern with exactly one group: the
    group's text in each match, the matches taken from the left without
    overlap.  After an empty match the scan moves on by one character. *)
Fixpoint findall_in (fuel : nat) (r : regex) (text s : string) : list string :=
  match fuel with
  | O => []
  | S fuel' =>
      match search_in r (String.length text) s with
      | None => []
      | Some m =>
          let rest := drop (m_end m) text in
          let rest' :=
            if Nat.eqb (m_end m) (m_start m) then drop 1 rest else rest in
          if Nat.eqb (m_end m) (m_start m) && Nat.eqb (String.length rest) 0
          then [group 1 text m]
          else group 1 text m :: findall_in fuel' r text rest'
      end
  end.

Definition findall (r : regex) (text : string) : list string :=
  findall_in (S (String.length text)) r text text.

(** [re.sub(pattern, repl, text)] for a pattern that cannot match the empty
    string; [repl] builds the replacement from the match. *)
Fixpoint sub_in (fuel : nat) (r : regex) (repl : string -> found -> string)
    (s : string) : string :=
  match fuel with
  | O => s
  | S fuel' =>
      match match_here r s with
      | Some hit =>
          let m := found_at (String.length s) s hit in
          if Nat.eqb (m_end m) 0 then
            match s with
            | EmptyString => EmptyString
            | String c s' => String c (sub_in fuel' r repl s')
            end
          else (repl s m ++ sub_in fuel' r repl (fst hit))%string
      | None =>
          match s with
          | EmptyString => EmptyString
          | String c s' => String c (sub_in fuel' r repl s')
          end
      end
  end.

Definition sub (r : regex) (repl : string -> found -> string) (text : string) : string :=
  sub_in (S (String.length text)) r repl text.

(** Character classes. *)
Definition any_char : regex := Chr (fun _ => true).
Definition dot : regex := Chr (fun c => negb (Ascii.eqb c "010"%char)).
Definition space : regex := Chr isspace.
Definition word : regex := Chr isword.
Definition not_char (c : ascii) : regex := Chr (fun d => negb (Ascii.eqb d c)).
Definition one_of (cs : string) : regex :=
  Chr (fun d => str_in (String d EmptyString) cs).

(** ** Vocabulary for reasoning about matches *)

(** [t] is what is left of [s] after some prefix. *)
Definition is_suffix (t s : string) : Prop := exists pre, s = (pre ++ t)%string.


End Regex.

(* ===================================================================== *)
(** * [ASTParser] *)
(* ===================================================================== *)

Module ASTParser.

Import PyStr.

(** ** Discovery filter and language detection *)

(** The [skip_patterns] list of [parse_project]. *)
Definition skip_patterns : list string :=
  [ "node_modules"; ".git"; ".svn"; ".hg"; ".bzr";
    "__pycache__"; ".pytest_cache"; ".mypy_cache";
    "target"; "build"; "dist"; "out"; "bin";
    ".DS_Store"; "Thumbs.db"; ".idea"; ".vscode";
    "*.log"; "*.tmp"; "*.temp"; "*.bak"; "*.backup";
    "*.min.js"; "*.min.css"; "*.map";
    "*.png"; "*.jpg"; "*.jpeg"; "*.gif"; "*.bmp"; "*.ico";
    "*.mp3"; "*.mp4"; "*.avi"; "*.mov"; "*.wmv";
    "*.zip"; "*.tar"; "*.gz"; "*.rar"; "*.7z";
    "*.pdf"; "*.doc"; "*.docx"; "*.xls"; "*.xlsx";
    "*.ppt"; "*.pptx"; "*.odt"; "*.ods"; "*.odp" ].

(** [_should_skip_file(file_path, skip_patterns)], on [file_str =
    str(file_path)].  The [for] loop returns at the first pattern that
    hits. *)
Fixpoint _should_skip_file (file_str : string) (skip_patterns : list string) : bool :=
  match skip_patterns with
  | [] => false
  | pattern :: rest =>
      if startswith pattern "*." then
        let ext := drop 1 pattern in
        if endswith file_str ext then true
        else _should_skip_file file_str rest
      else if startswith pattern "*" then
        if str_in (drop 1 pattern) file_str then true
        else _should_skip_file file_str rest
      else
        if str_in pattern file_str then true
        else _should_skip_file file_str rest
  end.

(** The guard of the two discovery loops of [parse_project]:
    [file_path.is_file() and not self._should_skip_file(...)]. *)
Definition discovery_keeps (is_file : bool) (file_str : string) : bool :=
  is_file && negb (_should_skip_file file_str skip_patterns).

(** [_detect_language_from_file(file_path, default_language)] *)
Definition _detect_language_from_file (file_path default_language : string) : string :=
  let file_path_lower := lower file_path in
  if endswith_any file_path_lower [".py"; ".pyw"; ".pyi"; ".pyx"; ".pxd"; ".pxi"] then "python"
  else if endswith_any file_path_lower [".java"; ".jav"] then "java"
  else if endswith_any file_path_lower [".js"; ".jsx"; ".mjs"; ".cjs"] then "javascript"
  else if endswith_any file_path_lower [".ts"; ".tsx"; ".mts"; ".cts"] then "typescript"
  else if endswith_any file_path_lower [".cbl"; ".cob"; ".cpy"; ".cobol"] then "cobol"
  else if endswith_any file_path_lower
            [".cpp"; ".cc"; ".cxx"; ".c++"; ".h"; ".hpp"; ".hxx"; ".hh"; ".h++"] then "cpp"
  else if endswith_any file_path_lower [".c"; ".h"] then "c"
  else if endswith file_path_lower ".go" then "go"
  else if endswith file_path_lower ".rs" then "rust"
  else if endswith_any file_path_lower [".php"; ".php3"; ".php4"; ".php5"; ".phtml"] then "php"
  else if endswith_any file_path_lower [".rb"; ".rbw"] then "ruby"
  else if endswith file_path_lower ".sql" then "sql"
  else if endswith_any file_path_lower [".html"; ".htm"; ".xhtml"] then "html"
  else if endswith_any file_path_lower [".css"; ".scss"; ".sass"; ".less"] then "css"
  else if endswith_any file_path_lower [".xml"; ".xsd"; ".xsl"] then "xml"
  else if endswith file_path_lower ".json" then "json"
  else if endswith_any file_path_lower [".yml"; ".yaml"] then "yaml"
  else if endswith file_path_lower ".toml" then "toml"
  else if endswith_any file_path_lower [".ini"; ".cfg"; ".conf"] then "ini"
  else if endswith_any file_path_lower [".md"; ".markdown"] then "markdown"
  else if str_in_list file_path_lower ["dockerfile"; ".dockerfile"] then "dockerfile"
  else if str_in_list file_path_lower ["makefile"; ".mk"; ".make"] then "makefile"
  else if str_in_list file_path_lower ["cmakelists.txt"; ".cmake"] then "cmake"
  else if str_in_list file_path_lower
            ["package.json"; "package-lock.json"; "yarn.lock"; "pnpm-lock.yaml"] then "npm"
  else if str_in_list file_path_lower
            ["requirements.txt"; "setup.py"; "pyproject.toml"; "pipfile"; "poetry.lock"] then "pip"
  else if str_in_list file_path_lower ["cargo.toml"; "cargo.lock"] then "cargo"
  else if str_in_list file_path_lower ["go.mod"; "go.sum"] then "go_mod"
  else if str_in_list file_path_lower ["composer.json"; "composer.lock"] then "composer"
  else if str_in_list file_path_lower ["gemfile"; "gemfile.lock"] then "gemfile"
  else if str_in_list file_path_lower ["pubspec.yaml"; "pubspec.lock"] then "pubspec"
  else if endswith file_path_lower ".cabal" then "cabal"
  else if str_in_list file_path_lower ["stack.yaml"] then "stack"
  else if str_in_list file_path_lower ["mix.exs"; "mix.lock"] then "mix"
  else if str_in_list file_path_lower ["rebar.config"] then "rebar"
  else if str_in_list file_path_lower ["project.clj"] then "leiningen"
  else if str_in_list file_path_lower ["build.sbt"; "project/build.properties"] then "sbt"
  else if str_in_list file_path_lower ["gradlew"; "gradlew.bat"] then "gradle_wrapper"
  else if str_in_list file_path_lower ["mvnw"; "mvnw.cmd"] then "maven_wrapper"
  else if str_in_list file_path_lower
            ["pom.xml"; "build.gradle"; "gradle.properties"; "settings.gradle"] then "gradle"
  else if str_in_list file_path_lower ["maven"] then "maven"
  else default_language.

(** The suffixes and the names that the tests above look for. *)
Definition detected_extensions : list string :=
  [ ".py"; ".pyw"; ".pyi"; ".pyx"; ".pxd"; ".pxi"; ".java"; ".jav";
    ".js"; ".jsx"; ".mjs"; ".cjs"; ".ts"; ".tsx"; ".mts"; ".cts";
    ".cbl"; ".cob"; ".cpy"; ".cobol";
    ".cpp"; ".cc"; ".cxx"; ".c++"; ".h"; ".hpp"; ".hxx"; ".hh"; ".h++";
    ".c"; ".go"; ".rs"; ".php"; ".php3"; ".php4"; ".php5"; ".phtml";
    ".rb"; ".rbw"; ".sql"; ".html"; ".htm"; ".xhtml";
    ".css"; ".scss"; ".sass"; ".less"; ".xml"; ".xsd"; ".xsl"; ".json";
    ".yml"; ".yaml"; ".toml"; ".ini"; ".cfg"; ".conf"; ".md"; ".markdown";
    ".cabal" ].

Definition detected_filenames : list string :=
  [ "dockerfile"; ".dockerfile"; "makefile"; ".mk"; ".make";
    "cmakelists.txt"; ".cmake";
    "package.json"; "package-lock.json"; "yarn.lock"; "pnpm-lock.yaml";
    "requirements.txt"; "setup.py"; "pyproject.toml"; "pipfile"; "poetry.lock";
    "cargo.toml"; "cargo.lock"; "go.mod"; "go.sum";
    "composer.json"; "composer.lock"; "gemfile"; "gemfile.lock";
    "pubspec.yaml"; "pubspec.lock"; "stack.yaml"; "mix.exs"; "mix.lock";
    "rebar.config"; "project.clj"; "build.sbt"; "project/build.properties";
    "gradlew"; "gradlew.bat"; "mvnw"; "mvnw.cmd";
    "pom.xml"; "build.gradle"; "gradle.properties"; "settings.gradle"; "maven" ].

(** ** Block-span primitives *)

Import PyList.
Local Open Scope py_scope.

(** [line.count('{') - line.count('}')] *)
Definition brace_delta (line : string) : Z :=
  count line "{"%char - count line "}"%char.

(** First loop of [_extract_code_block] ("Find the opening brace"):
    [for i in range(start_idx, len(lines))], entered at index [i] with [n]
    iterations left.  Returns [(brace_count, end_idx)]. *)
Fixpoint find_opening_brace (lines : list string) (n : nat) (i : Z)
    (brace_count end_idx : Z) : result (Z * Z) :=
  match n with
  | O => Ok (brace_count, end_idx)
  | S n' =>
      line <- index lines i ;;
      let brace_count := brace_count + brace_delta line in
      if 0 <? brace_count then Ok (brace_count, i + 1)
      else find_opening_brace lines n' (i + 1) brace_count end_idx
  end.

(** Second loop of [_extract_code_block] ("Find the closing brace"):
    [for i in range(end_idx, len(lines))]. *)
Fixpoint find_closing_brace (lines : list string) (n : nat) (i : Z)
    (brace_count end_idx : Z) : result (Z * Z) :=
  match n with
  | O => Ok (brace_count, end_idx)
  | S n' =>
      line <- index lines i ;;
      let brace_count := brace_count + brace_delta line in
      if brace_count <=? 0 then Ok (brace_count, i + 1)
      else find_closing_brace lines n' (i + 1) brace_count end_idx
  end.

(** The [except:] clause shared by the span primitives:
    [lines[start_line - 1]] if [start_line <= len(lines)], else the empty
    string. *)
Definition span_fallback (lines : list string) (start_line : Z) : result string :=
  if start_line <=? len lines then index lines (start_line - 1)
  else Ok EmptyString.

(** [_extract_code_block(lines, start_line, content)] *)
Definition _extract_code_block (lines : list string) (start_line : Z)
    (content : string) : result string :=
  try_except
    (let start_idx := start_line - 1 in
     let brace_count := 0 in
     let end_idx := start_idx in
     '(brace_count, end_idx) <-
        find_opening_brace lines (range_len start_idx (len lines)) start_idx
          brace_count end_idx ;;
     '(brace_count, end_idx) <-
        find_closing_brace lines (range_len end_idx (len lines)) end_idx
          brace_count end_idx ;;
     Ok (join nl (slice lines start_idx end_idx)))
    (fun _ => span_fallback lines start_line).

(** [line.count('(') - line.count(')')] *)
Definition paren_delta (line : string) : Z :=
  count line "("%char - count line ")"%char.

(** The single loop of [_extract_cmake_command]. *)
Fixpoint find_closing_paren (lines : list string) (n : nat) (i : Z)
    (paren_count end_idx : Z) : result Z :=
  match n with
  | O => Ok end_idx
  | S n' =>
      line <- index lines i ;;
      let paren_count := paren_count + paren_delta line in
      if paren_count <=? 0 then Ok (i + 1)
      else find_closing_paren lines n' (i + 1) paren_count end_idx
  end.

(** [_extract_cmake_command(lines, start_line, content)], the sibling of
    [_extract_code_block] that counts parentheses. *)
Definition _extract_cmake_command (lines : list string) (start_line : Z)
    (content : string) : result string :=
  try_except
    (let start_idx := start_line - 1 in
     let end_idx := start_idx in
     end_idx <-
        find_closing_paren lines (range_len start_idx (len lines)) start_idx 0 end_idx ;;
     Ok (join nl (slice lines start_idx end_idx)))
    (fun _ => span_fallback lines start_line).

(** [line.strip().endswith(';')] *)
Definition ends_statement (line : string) : bool :=
  endswith (strip line) ";".

(** The loop of [_extract_variable_declaration]:
    [for i in range(start_idx + 1, min(start_idx + 5, len(lines)))]. *)
Fixpoint append_following (lines : list string) (n : nat) (i : Z)
    (line : string) : result string :=
  match n with
  | O => Ok line
  | S n' =>
      next <- index lines i ;;
      let line := (line ++ nl ++ next)%string in
      if ends_statement next then Ok line
      else append_following lines n' (i + 1) line
  end.

(** [_extract_variable_declaration(lines, start_line, content)] *)
Definition _extract_variable_declaration (lines : list string) (start_line : Z)
    (content : string) : result string :=
  try_except
    (let start_idx := start_line - 1 in
     line <- index lines start_idx ;;
     if ends_statement line then Ok line
     else
       append_following lines
         (range_len (start_idx + 1) (Z.min (start_idx + 5) (len lines)))
         (start_idx + 1) line)
    (fun _ => span_fallback lines start_line).

(** ** Vocabulary of the specification for the span primitives *)

(** The running total of opens minus closes after the first [j] lines of
    [ls], the lines from the declaration line on. *)
Fixpoint running (ls : list string) (j : nat) : Z :=
  match j, ls with
  | S j', l :: rest => brace_delta l + running rest j'
  | _, _ => 0
  end.




(** ** Structural records *)

Import Json.

(** An entry of the [functions], [classes] or [variables] list: the
    fields every extractor writes, and the ones that depend on the
    language. *)
Record Member : Type := {
  name : string;
  line : Z;
  fields : list (string * string);
  full_code : string
}.

(** A node of [ast_tree]. *)
Inductive attr : Type :=
| AStr (s : string)
| AInt (n : Z)
| AJson (j : json).

Inductive node : Type :=
| Node (node_type : string) (attrs : list (string * attr)) (children : list node).

Record Members : Type := {
  found_imports : list string;
  found_functions : list Member;
  found_classes : list Member;
  found_variables : list Member;
  found_tree : node
}.

(** The dictionary an extractor returns. *)
Record StructuralRecord : Type := {
  file_path : string;
  language : string;
  imports : list string;
  functions : list Member;
  classes : list Member;
  variables : list Member;
  ast_tree : node;
  full_source_code : string
}.

(** What the extractors rest on and the embedding leaves open: CPython's
    parser, the walks over its tree, the line classification loops of the
    heuristic extractors other than the YAML one (none of which assigns to
    [content]), and the file system.  Any of them may raise. *)
Class Collaborators : Type := {
  py_tree : Type;
  python_grammar : string -> result py_tree;
  python_members : string -> py_tree -> result Members;
  classify_lines : string -> list string -> string -> result Members;
  getsize : string -> result Z;
  read_text : string -> result string
}.

Section Extractors.

Context {collaborators : Collaborators}.

(** The [return {...}] statement shared by the extractors. *)
Definition record_of (file_path language : string) (m : Members)
    (content : string) : StructuralRecord :=
  {| file_path := file_path;
     language := language;
     imports := found_imports m;
     functions := found_functions m;
     classes := found_classes m;
     variables := found_variables m;
     ast_tree := found_tree m;
     full_source_code := content |}.

(** [try: ... return {...}  except Exception as e: print(...); return None] *)
Definition guarded (body : result StructuralRecord)
    : result (option StructuralRecord) :=
  try_except (r <- body ;; Ok (Some r)) (fun _ => Ok None).

(** [ast.parse(content)]: a text with a null character is refused before
    the grammar is consulted. *)
Definition ast_parse (source : string) : result py_tree :=
  if str_in (String "000"%char EmptyString) source then Raise ValueError
  else python_grammar source.

(** The [try] block of [_parse_python_file]. *)
Definition python_block (file_path content : string) : result StructuralRecord :=
  tree <- ast_parse content ;;
  m <- python_members content tree ;;
  Ok (record_of file_path "python" m content).

Definition _parse_python_file (file_path content : string) :=
  guarded (python_block file_path content).

(** The [try] block of a heuristic extractor: split the text into lines,
    classify them, return the record. *)
Definition heuristic_block (language file_path content : string)
    : result StructuralRecord :=
  let lines := split nl_char content in
  m <- classify_lines language lines content ;;
  Ok (record_of file_path language m content).

Definition _parse_java_file (file_path content : string) :=
  guarded (heuristic_block "java" file_path content).
Definition _parse_javascript_file (file_path content : string) :=
  guarded (heuristic_block "javascript" file_path content).
Definition _parse_typescript_file (file_path content : string) :=
  guarded (heuristic_block "typescript" file_path content).
Definition _parse_cobol_file (file_path content : string) :=
  guarded (heuristic_block "cobol" file_path content).
Definition _parse_cpp_file (file_path content : string) :=
  guarded (heuristic_block "cpp" file_path content).
Definition _parse_go_file (file_path content : string) :=
  guarded (heuristic_block "go" file_path content).
Definition _parse_rust_file (file_path content : string) :=
  guarded (heuristic_block "rust" file_path content).
Definition _parse_php_file (file_path content : string) :=
  guarded (heuristic_block "php" file_path content).
Definition _parse_ruby_file (file_path content : string) :=
  guarded (heuristic_block "ruby" file_path content).
Definition _parse_sql_file (file_path content : string) :=
  guarded (heuristic_block "sql" file_path content).
Definition _parse_html_file (file_path content : string) :=
  guarded (heuristic_block "html" file_path content).
Definition _parse_css_file (file_path content : string) :=
  guarded (heuristic_block "css" file_path content).
Definition _parse_xml_file (file_path content : string) :=
  guarded (heuristic_block "xml" file_path content).
Definition _parse_toml_file (file_path content : string) :=
  guarded (heuristic_block "toml" file_path content).
Definition _parse_ini_file (file_path content : string) :=
  guarded (heuristic_block "ini" file_path content).
Definition _parse_markdown_file (file_path content : string) :=
  guarded (heuristic_block "markdown" file_path content).
Definition _parse_dockerfile (file_path content : string) :=
  guarded (heuristic_block "dockerfile" file_path content).
Definition _parse_makefile (file_path content : string) :=
  guarded (heuristic_block "makefile" file_path content).
Definition _parse_cmake_file (file_path content : string) :=
  guarded (heuristic_block "cmake" file_path content).

(** The inner [try] of [_parse_json_file]: [except json.JSONDecodeError]
    keeps the text, any other exception goes to the outer handler. *)
Definition json_root (content : string) : result node :=
  match loads content with
  | Ok json_data => Ok (Node "JSONRoot" [("data", AJson json_data)] [])
  | Raise JSONDecodeError => Ok (Node "TextContent" [("content", AStr content)] [])
  | Raise e => Raise e
  end.

Definition json_block (file_path content : string) : result StructuralRecord :=
  child <- json_root content ;;
  Ok (record_of file_path "json"
        {| found_imports := []; found_functions := []; found_classes := [];
           found_variables := []; found_tree := Node "JSONFile" [] [child] |}
        content).

Definition _parse_json_file (file_path content : string) :=
  guarded (json_block file_path content).

(** The loop of [_parse_yaml_file], the one heuristic extractor that is
    embedded in full: a line with a colon that is not a comment is a key
    and a value. *)
Fixpoint yaml_entries (i : nat) (lines : list string) : list Member * list node :=
  match lines with
  | [] => ([], [])
  | line :: rest =>
      let line := strip line in
      let (vs, ns) := yaml_entries (S i) rest in
      if str_in ":" line && negb (startswith line "#") then
        let key_value := split_once ":"%char line in
        let key := strip (fst key_value) in
        let value := strip (snd key_value) in
        ({| name := key;
            line := Z.of_nat i;
            fields := [("type", "yaml_key")];
            full_code := line |} :: vs,
         Node "YAMLKeyValue"
           [("key", AStr key); ("value", AStr value);
            ("line", AInt (Z.of_nat i)); ("full_code", AStr line)] [] :: ns)
      else (vs, ns)
  end.

Definition yaml_block (file_path content : string) : result StructuralRecord :=
  let lines := split nl_char content in
  let (variables, children) := yaml_entries 1 lines in
  Ok (record_of file_path "yaml"
        {| found_imports := []; found_functions := [];
           found_classes := []; found_variables := variables;
           found_tree := Node "YAMLFile" [] children |}
        content).

Definition _parse_yaml_file (file_path content : string) :=
  guarded (yaml_block file_path content).

(** The loop of [_parse_generic_file]: [for i, line in enumerate(lines, 1)]. *)
Fixpoint generic_statements (i : nat) (lines : list string)
    : list Member * list node :=
  match lines with
  | [] => ([], [])
  | line :: rest =>
      let line := strip line in
      let (fs, ns) := generic_statements (S i) rest in
      if negb (String.eqb line EmptyString) then
        ({| name := ("line_" ++ str_of_nat i)%string;
            line := Z.of_nat i;
            fields := [("type", "statement")];
            full_code := line |} :: fs,
         Node "Statement" [("line", AInt (Z.of_nat i)); ("content", AStr line)] [] :: ns)
      else (fs, ns)
  end.

Definition generic_block (file_path content language : string)
    : result StructuralRecord :=
  let lines := split nl_char content in
  let (functions, children) := generic_statements 1 lines in
  Ok (record_of file_path language
        {| found_imports := []; found_functions := functions;
           found_classes := []; found_variables := [];
           found_tree := Node (capitalize language ++ "File")%string [] children |}
        content).

Definition _parse_generic_file (file_path content language : string) :=
  guarded (generic_block file_path content language).

(** The [if actual_language == ...] chain of [parse_file]. *)
Definition extract (actual_language file_path content : string)
    : result (option StructuralRecord) :=
  let lang_is := String.eqb actual_language in
  if lang_is "python" then _parse_python_file file_path content
  else if lang_is "java" then _parse_java_file file_path content
  else if lang_is "javascript" then _parse_javascript_file file_path content
  else if lang_is "typescript" then _parse_typescript_file file_path content
  else if lang_is "cobol" then _parse_cobol_file file_path content
  else if lang_is "cpp" || lang_is "c" then _parse_cpp_file file_path content
  else if lang_is "go" then _parse_go_file file_path content
  else if lang_is "rust" then _parse_rust_file file_path content
  else if lang_is "php" then _parse_php_file file_path content
  else if lang_is "ruby" then _parse_ruby_file file_path content
  else if lang_is "sql" then _parse_sql_file file_path content
  else if lang_is "html" then _parse_html_file file_path content
  else if lang_is "css" then _parse_css_file file_path content
  else if lang_is "xml" then _parse_xml_file file_path content
  else if lang_is "json" then _parse_json_file file_path content
  else if lang_is "yaml" then _parse_yaml_file file_path content
  else if lang_is "toml" then _parse_toml_file file_path content
  else if lang_is "ini" then _parse_ini_file file_path content
  else if lang_is "markdown" then _parse_markdown_file file_path content
  else if lang_is "dockerfile" then _parse_dockerfile file_path content
  else if lang_is "makefile" then _parse_makefile file_path content
  else if lang_is "cmake" then _parse_cmake_file file_path content
  else _parse_generic_file file_path content actual_language.

(** The [try] block that [extract] runs for a language. *)
Definition try_block (actual_language file_path content : string)
    : result StructuralRecord :=
  let lang_is := String.eqb actual_language in
  if lang_is "python" then python_block file_path content
  else if lang_is "java" then heuristic_block "java" file_path content
  else if lang_is "javascript" then heuristic_block "javascript" file_path content
  else if lang_is "typescript" then heuristic_block "typescript" file_path content
  else if lang_is "cobol" then heuristic_block "cobol" file_path content
  else if lang_is "cpp" || lang_is "c" then heuristic_block "cpp" file_path content
  else if lang_is "go" then heuristic_block "go" file_path content
  else if lang_is "rust" then heuristic_block "rust" file_path content
  else if lang_is "php" then heuristic_block "php" file_path content
  else if lang_is "ruby" then heuristic_block "ruby" file_path content
  else if lang_is "sql" then heuristic_block "sql" file_path content
  else if lang_is "html" then heuristic_block "html" file_path content
  else if lang_is "css" then heuristic_block "css" file_path content
  else if lang_is "xml" then heuristic_block "xml" file_path content
  else if lang_is "json" then json_block file_path content
  else if lang_is "yaml" then yaml_block file_path content
  else if lang_is "toml" then heuristic_block "toml" file_path content
  else if lang_is "ini" then heuristic_block "ini" file_path content
  else if lang_is "markdown" then heuristic_block "markdown" file_path content
  else if lang_is "dockerfile" then heuristic_block "dockerfile" file_path content
  else if lang_is "makefile" then heuristic_block "makefile" file_path content
  else if lang_is "cmake" then heuristic_block "cmake" file_path content
  else generic_block file_path content actual_language.

(** The claim of the specification about a failing extractor: a record
    comes back, with the verbatim text and, on a failure of the [try]
    block, with empty lists. *)
Definition degrades_to_empty_record (actual_language file_path content : string)
    : Prop :=
  exists r : StructuralRecord,
    extract actual_language file_path content = Ok (Some r)
    /\ full_source_code r = content
    /\ (forall e, try_block actual_language file_path content = Raise e ->
          imports r = [] /\ functions r = [] /\ classes r = [] /\ variables r = []).

Definition MAX_FILE_SIZE_MB : Z := 10.

(** [parse_file(file_path, language)] *)
Definition parse_file (file_path language : string)
    : result (option StructuralRecord) :=
  try_except
    (file_size <- getsize file_path ;;
     let max_size_bytes := MAX_FILE_SIZE_MB * 1024 * 1024 in
     if max_size_bytes <? file_size then Ok None
     else
       content <- read_text file_path ;;
       let actual_language := _detect_language_from_file file_path language in
       extract actual_language file_path content)
    (fun _ => Ok None).

End Extractors.

(** Collaborators for examples: a grammar that accepts every text,
    extractors that find nothing, an empty file system. *)
Definition no_members : Members :=
  {| found_imports := []; found_functions := []; found_classes := [];
     found_variables := []; found_tree := Node "Module" [] [] |}.

(** A text that [ast.parse] refuses. *)
Definition nul_text : string := ("x = 1" ++ String "000"%char EmptyString)%string.

Definition plain_collaborators : Collaborators :=
  {| py_tree := unit;
     python_grammar := fun _ => Ok tt;
     python_members := fun _ _ => Ok no_members;
     classify_lines := fun _ _ _ => Ok no_members;
     getsize := fun _ => Ok 0;
     read_text := fun _ => Ok EmptyString |}.

(** ** The span primitives of the other extractors *)

Local Open Scope py_scope.

(** The loop [for i in range(lo, len(lines)): line = lines[i]; if
    stop(line): end_idx = i + 1; break], entered at index [i] with [n]
    iterations left: the value of [end_idx] after the loop. *)
Fixpoint end_at_first (stop : string -> bool) (lines : list string) (n : nat)
    (i end_idx : Z) : result Z :=
  match n with
  | O => Ok end_idx
  | S n' =>
      line <- index lines i ;;
      if stop line then Ok (i + 1)
      else end_at_first stop lines n' (i + 1) end_idx
  end.

(** The loop [for i in range(lo, len(lines)): line = lines[i].strip(); if
    boundary(line): break; end_idx = i + 1]. *)
Fixpoint end_before_first (boundary : string -> bool) (lines : list string)
    (n : nat) (i end_idx : Z) : result Z :=
  match n with
  | O => Ok end_idx
  | S n' =>
      line <- index lines i ;;
      let line := strip line in
      if boundary line then Ok end_idx
      else end_before_first boundary lines n' (i + 1) (i + 1)
  end.

(** The test of [_extract_cobol_block] on a stripped line. *)
Definition cobol_boundary (line : string) : bool :=
  negb (String.eqb line EmptyString)
  && (startswith line "DIVISION" || startswith line "SECTION"
      || startswith line "PROCEDURE" || startswith line "DATA").

(** [_extract_cobol_block(lines, start_line, content)] *)
Definition _extract_cobol_block (lines : list string) (start_line : Z)
    (content : string) : result string :=
  try_except
    (let start_idx := start_line - 1 in
     let end_idx := start_idx in
     end_idx <-
        end_before_first cobol_boundary lines
          (range_len (start_idx + 1) (len lines)) (start_idx + 1) end_idx ;;
     Ok (join nl (slice lines start_idx end_idx)))
    (fun _ => span_fallback lines start_line).

(** The pattern of a level number: two digits and white space. *)
Definition level_number_pattern : Regex.regex :=
  Regex.Seq (Regex.Chr isdigit)
    (Regex.Seq (Regex.Chr isdigit) (Regex.Plus Regex.space)).

(** [re.match(pattern, s)] as a truth value. *)
Definition re_match (pattern : Regex.regex) (s : string) : bool :=
  match Regex.match_here pattern s with
  | Some _ => true
  | None => false
  end.

(** The loop of [_extract_cobol_data_item]:
    [for i in range(start_idx + 1, min(start_idx + 3, len(lines)))]. *)
Fixpoint append_data_lines (lines : list string) (n : nat) (i : Z)
    (line : string) : result string :=
  match n with
  | O => Ok line
  | S n' =>
      next <- index lines i ;;
      let next_line := strip next in
      if startswith next_line "." || re_match level_number_pattern next_line
      then Ok line
      else append_data_lines lines n' (i + 1) (line ++ nl ++ next_line)%string
  end.

(** [_extract_cobol_data_item(lines, start_line, content)] *)
Definition _extract_cobol_data_item (lines : list string) (start_line : Z)
    (content : string) : result string :=
  try_except
    (let start_idx := start_line - 1 in
     line <- index lines start_idx ;;
     append_data_lines lines
       (range_len (start_idx + 1) (Z.min (start_idx + 3) (len lines)))
       (start_idx + 1) line)
    (fun _ => span_fallback lines start_line).

(** The loop of [_extract_sql_statement]: a line that ends with a
    semicolon ends the statement; a line that is neither blank nor a
    comment moves [end_idx] past itself. *)
Fixpoint sql_statement_end (lines : list string) (n : nat) (i end_idx : Z)
    : result Z :=
  match n with
  | O => Ok end_idx
  | S n' =>
      line <- index lines i ;;
      if endswith (strip line) ";" then Ok (i + 1)
      else if negb (String.eqb (strip line) EmptyString)
              && negb (startswith (strip line) "--")
      then sql_statement_end lines n' (i + 1) (i + 1)
      else sql_statement_end lines n' (i + 1) end_idx
  end.

(** [_extract_sql_statement(lines, start_line, content)] *)
Definition _extract_sql_statement (lines : list string) (start_line : Z)
    (content : string) : result string :=
  try_except
    (let start_idx := start_line - 1 in
     let end_idx := start_idx in
     end_idx <-
        sql_statement_end lines (range_len start_idx (len lines)) start_idx end_idx ;;
     Ok (join nl (slice lines start_idx end_idx)))
    (fun _ => span_fallback lines start_line).

(** [_extract_html_tag(lines, start_line, content, tag_name)] *)
Definition _extract_html_tag (lines : list string) (start_line : Z)
    (content tag_name : string) : result string :=
  try_except
    (let start_idx := start_line - 1 in
     let end_idx := start_idx in
     let closing_tag := ("</" ++ tag_name ++ ">")%string in
     end_idx <-
        end_at_first (fun line => str_in closing_tag line) lines
          (range_len start_idx (len lines)) start_idx end_idx ;;
     Ok (join nl (slice lines start_idx end_idx)))
    (fun _ => span_fallback lines start_line).

(** [_extract_css_rule(lines, start_line, content)]: the two loops of
    [_extract_code_block], written out again in the source. *)
Definition _extract_css_rule (lines : list string) (start_line : Z)
    (content : string) : result string :=
  try_except
    (let start_idx := start_line - 1 in
     let end_idx := start_idx in
     let brace_count := 0 in
     '(brace_count, end_idx) <-
        find_opening_brace lines (range_len start_idx (len lines)) start_idx
          brace_count end_idx ;;
     '(brace_count, end_idx) <-
        find_closing_brace lines (range_len end_idx (len lines)) end_idx
          brace_count end_idx ;;
     Ok (join nl (slice lines start_idx end_idx)))
    (fun _ => span_fallback lines start_line).

(** [_extract_xml_element(lines, start_line, content)] *)
Definition _extract_xml_element (lines : list string) (start_line : Z)
    (content : string) : result string :=
  try_except
    (let start_idx := start_line - 1 in
     let end_idx := start_idx in
     end_idx <-
        end_at_first (fun line => startswith (strip line) "</") lines
          (range_len start_idx (len lines)) start_idx end_idx ;;
     Ok (join nl (slice lines start_idx end_idx)))
    (fun _ => span_fallback lines start_line).

(** The test of [_extract_toml_section] and [_extract_ini_section] on a
    stripped line: it is a section header. *)
Definition section_header (line : string) : bool :=
  startswith line "[" && endswith line "]".

(** [_extract_toml_section(lines, start_line, content)] *)
Definition _extract_toml_section (lines : list string) (start_line : Z)
    (content : string) : result string :=
  try_except
    (let start_idx := start_line - 1 in
     let end_idx := start_idx in
     end_idx <-
        end_before_first section_header lines
          (range_len (start_idx + 1) (len lines)) (start_idx + 1) end_idx ;;
     Ok (join nl (slice lines start_idx end_idx)))
    (fun _ => span_fallback lines start_line).

(** [_extract_ini_section(lines, start_line, content)] *)
Definition _extract_ini_section (lines : list string) (start_line : Z)
    (content : string) : result string :=
  try_except
    (let start_idx := start_line - 1 in
     let end_idx := start_idx in
     end_idx <-
        end_before_first section_header lines
          (range_len (start_idx + 1) (len lines)) (start_idx + 1) end_idx ;;
     Ok (join nl (slice lines start_idx end_idx)))
    (fun _ => span_fallback lines start_line).

(** [_extract_markdown_code_block(lines, start_line, content)]: the
    closing fence is looked for from the line after [start_line], on the
    lines as they are. *)
Definition _extract_markdown_code_block (lines : list string) (start_line : Z)
    (content : string) : result string :=
  try_except
    (let start_idx := start_line - 1 in
     let end_idx := start_idx in
     end_idx <-
        end_at_first (fun line => startswith line "```") lines
          (range_len (start_idx + 1) (len lines)) (start_idx + 1) end_idx ;;
     Ok (join nl (slice lines start_idx end_idx)))
    (fun _ => span_fallback lines start_line).

(** The test of [_extract_makefile_target] on a stripped line. *)
Definition makefile_boundary (line : string) : bool :=
  negb (String.eqb line EmptyString)
  && negb (startswith line (String "009"%char EmptyString))
  && str_in ":" line.

(** [_extract_makefile_target(lines, start_line, content)] *)
Definition _extract_makefile_target (lines : list string) (start_line : Z)
    (content : string) : result string :=
  try_except
    (let start_idx := start_line - 1 in
     let end_idx := start_idx in
     end_idx <-
        end_before_first makefile_boundary lines
          (range_len (start_idx + 1) (len lines)) (start_idx + 1) end_idx ;;
     Ok (join nl (slice lines start_idx end_idx)))
    (fun _ => span_fallback lines start_line).

(** [_extract_modifiers(line)] *)
Definition _extract_modifiers (line : string) : list string :=
  let modifiers := [] in
  let modifiers := if str_in "public" line then modifiers ++ ["public"] else modifiers in
  let modifiers := if str_in "private" line then modifiers ++ ["private"] else modifiers in
  let modifiers := if str_in "protected" line then modifiers ++ ["protected"] else modifiers in
  let modifiers := if str_in "static" line then modifiers ++ ["static"] else modifiers in
  let modifiers := if str_in "final" line then modifiers ++ ["final"] else modifiers in
  let modifiers := if str_in "abstract" line then modifiers ++ ["abstract"] else modifiers in
  modifiers.

(** ** Vocabulary for the properties of the span primitives *)



(** The words that [_extract_modifiers] looks for, in its order. *)
Definition modifier_words : list string :=
  ["public"; "private"; "protected"; "static"; "final"; "abstract"].

(** ** The source text of a node of Python's tree *)

(** What the source extraction reads of a node of [ast]: [lineno] and
    [end_lineno] where the node has them (integers, as the parser sets
    them), the line numbers of the nodes of its [decorator_list] where it
    has one, and [str(node)]. *)
Record PyNode : Type := {
  lineno : option Z;
  end_lineno : option Z;
  decorator_list : option (list Z);
  node_str : string
}.

(** Reading an attribute that the node may lack. *)
Definition attribute {A : Type} (a : option A) : result A :=
  match a with
  | Some x => Ok x
  | None => Raise AttributeError
  end.

(** [_extract_node_source(content, node)] *)
Definition _extract_node_source (content : string) (node : PyNode) : string :=
  match
    (match lineno node, end_lineno node with
     | Some lineno, Some end_lineno =>
         let lines := split nl_char content in
         let start_line := lineno - 1 in
         let end_line := end_lineno in
         Ok (join nl (slice lines start_line end_line))
     | _, _ => Ok (node_str node)
     end)
  with
  | Ok s => s
  | Raise _ => node_str node
  end.

(** [_get_full_function_code(content, node)] *)
Definition _get_full_function_code (content : string) (node : PyNode) : string :=
  match
    (let lines := split nl_char content in
     lineno <- attribute (lineno node) ;;
     let start_line := lineno - 1 in
     end_lineno <- attribute (end_lineno node) ;;
     let end_line := end_lineno in
     let start_line :=
       match decorator_list node with
       | Some (first_decorator :: _) =>
           let decorator_start := first_decorator - 1 in
           Z.min start_line decorator_start
       | _ => start_line
       end in
     Ok (join nl (slice lines start_line end_line)))
  with
  | Ok s => s
  | Raise _ => node_str node
  end.

(** [_get_full_class_code(content, node)] *)
Definition _get_full_class_code (content : string) (node : PyNode) : string :=
  match
    (let lines := split nl_char content in
     lineno <- attribute (lineno node) ;;
     let start_line := lineno - 1 in
     end_lineno <- attribute (end_lineno node) ;;
     let end_line := end_lineno in
     let start_line :=
       match decorator_list node with
       | Some (first_decorator :: _) =>
           let decorator_start := first_decorator - 1 in
           Z.min start_line decorator_start
       | _ => start_line
       end in
     Ok (join nl (slice lines start_line end_line)))
  with
  | Ok s => s
  | Raise _ => node_str node
  end.

End ASTParser.

(* ===================================================================== *)
(** * [CodeConverter]: the recovery parser *)
(* ===================================================================== *)

Module CodeConverter.

Import PyStr Json Regex.
Local Open Scope string_scope.

Definition dq : string := String "034"%char EmptyString.
Definition bs : string := String "\"%char EmptyString.
Definition tab : string := String "009"%char EmptyString.
Definition dq_char : ascii := "034"%char.
Definition bs_char : ascii := "\"%char.

(** ** Output with a log *)

(** The [print] calls that mark a branch of the recovery parser; the ones
    that only echo lengths and previews are left out. *)
Inductive event : Type :=
| ParsedDirect          (* Successfully parsed JSON with keys: ... *)
| DirectDecodeError     (* JSON decode error: ... *)
| ParsedFixed           (* Successfully parsed fixed JSON *)
| FixedStillInvalid     (* Fixed JSON still has errors: ... *)
| TryingManual          (* JSON parsing failed, trying manual extraction... *)
| ManuallyExtracted     (* Manually extracted content with length: ... *)
| NoCodeContent         (* No code content found in response *)
| ManualError           (* Error in manual extraction: ... *)
| UnescapedNewlines     (* Unescaped newlines in content *)
| NoContentWarning      (* Warning: No content found in conversion *)
| GeneratedFrameworkPath (* Generated framework path: ... *)
| CouldNotExtract       (* Could not extract valid data from response *)
| ParseFailed.          (* Failed to parse single file conversion: ... *)

(** A computation that prints and may raise. *)
Definition io (A : Type) : Type := (list event * result A)%type.

Definition ret {A : Type} (a : A) : io A := ([], Ok a).
Definition print (e : event) : io unit := ([e], Ok tt).
Definition lift {A : Type} (r : result A) : io A := ([], r).

Definition io_bind {A B : Type} (m : io A) (f : A -> io B) : io B :=
  match m with
  | (l, Ok a) => let (l', r) := f a in ((l ++ l')%list, r)
  | (l, Raise e) => (l, Raise e)
  end.

(** [try: m  except Exception: h] *)
Definition io_try {A : Type} (m : io A) (h : exn -> io A) : io A :=
  match m with
  | (l, Ok a) => (l, Ok a)
  | (l, Raise e) => let (l', r) := h e in ((l ++ l')%list, r)
  end.

(** [try: m  except json.JSONDecodeError: h]; any other exception goes on. *)
Definition io_try_decode {A : Type} (m : io A) (h : io A) : io A :=
  match m with
  | (l, Raise JSONDecodeError) => let (l', r) := h in ((l ++ l')%list, r)
  | other => other
  end.

Declare Scope io_scope.
Delimit Scope io_scope with io.
Notation "x <- m ;; k" := (io_bind m (fun x => k))
  (at level 61, m at next level, right associativity) : io_scope.
Notation "m ;; k" := (io_bind m (fun _ => k))
  (at level 61, right associativity) : io_scope.

(** ** Target languages *)

(** The characters that mean something in a pattern of [re]. *)
Definition is_meta (c : ascii) : bool :=
  str_in (String c EmptyString) ".^$*+?{}[]\|()".

Fixpoint regex_plain (s : string) : bool :=
  match s with
  | EmptyString => true
  | String c s' => negb (is_meta c) && regex_plain s'
  end.

(** [_extract_content_manually] splices the target language into a
    pattern.  The embedding covers the names that are plain text to [re],
    which includes every language of [supported_conversions]; a name with
    a metacharacter would be read as a pattern of its own. *)
Record language : Type := {
  lang_name :> string;
  lang_plain : regex_plain lang_name = true
}.

(** ** Helpers on paths and names *)

(** [os.path.basename(p)] (POSIX) *)
Definition basename (p : string) : string :=
  PyStr.slice p (rfind p "/"%char + 1) (Z.of_nat (String.length p)).

(** The loop of [genericpath._splitext] that skips leading dots. *)
Fixpoint splitext_scan (n : nat) (p : string) (filenameIndex dotIndex : Z)
    : string * string :=
  match n with
  | O => (p, EmptyString)
  | S n' =>
      if negb (String.eqb (PyStr.slice p filenameIndex (filenameIndex + 1)) ".")
      then (PyStr.slice p 0 dotIndex,
            PyStr.slice p dotIndex (Z.of_nat (String.length p)))
      else splitext_scan n' p (filenameIndex + 1) dotIndex
  end.

(** [os.path.splitext(p)] (POSIX) *)
Definition splitext (p : string) : string * string :=
  let sepIndex := rfind p "/"%char in
  let dotIndex := rfind p "."%char in
  if (sepIndex <? dotIndex)%Z then
    splitext_scan (Z.to_nat (dotIndex - (sepIndex + 1))) p (sepIndex + 1) dotIndex
  else (p, EmptyString).

(** [_get_file_extension(language)] *)
Definition _get_file_extension (language : string) : string :=
  let l := lower language in
  if String.eqb l "python" then "py"
  else if String.eqb l "java" then "java"
  else if String.eqb l "javascript" then "js"
  else if String.eqb l "typescript" then "ts"
  else if String.eqb l "go" then "go"
  else if String.eqb l "rust" then "rs"
  else if String.eqb l "cpp" then "cpp"
  else if String.eqb l "c" then "c"
  else "txt".

(** [_get_framework_directory_structure(target_language, target_framework,
    original_path)] *)
Definition _get_framework_directory_structure
    (target_language target_framework original_path : string) : string :=
  if String.eqb target_framework EmptyString || String.eqb target_framework "none"
  then original_path
  else
    let filename := basename original_path in
    let name_without_ext := fst (splitext filename) in
    let fw_is := String.eqb target_framework in
    if String.eqb target_language "java" then
      if fw_is "spring" || fw_is "spring_boot" || fw_is "jakarta_ee" then
        "src/main/java/com/example/" ++ lower name_without_ext ++ "/" ++ filename
      else "src/" ++ filename
    else if String.eqb target_language "python" then
      if fw_is "django" then "django_app/" ++ filename
      else if fw_is "flask" then "flask_app/" ++ filename
      else if fw_is "fastapi" then "fastapi_app/" ++ filename
      else "src/" ++ filename
    else if String.eqb target_language "javascript" then
      if fw_is "react" || fw_is "vue" then "src/components/" ++ filename
      else if fw_is "angular" then "src/app/" ++ filename
      else "src/" ++ filename
    else if String.eqb target_language "typescript" then
      if fw_is "react" || fw_is "vue" then "src/components/" ++ filename
      else if fw_is "angular" then "src/app/" ++ filename
      else "src/" ++ filename
    else if String.eqb target_language "php" then
      if fw_is "laravel" then "app/" ++ filename
      else "src/" ++ filename
    else if String.eqb target_language "ruby" then
      if fw_is "rails" then "app/" ++ filename
      else "src/" ++ filename
    else "src/" ++ filename.

(** ** JSON repair *)

(** The body of a quoted value: characters other than the quote, then any
    number of (a backslash, one character, characters other than the
    quote).  [one] is the meaning of the dot: any character under
    [re.DOTALL], any character but a line feed without. *)
Definition quoted_body (one : regex) : regex :=
  Seq (Star (not_char dq_char))
      (Star (Seq (Char bs_char) (Seq one (Star (not_char dq_char))))).

(** The pattern that finds the content field: the key in quotes, a colon,
    white space, and the value in quotes as group 1. *)
Definition content_pattern (one : regex) : regex :=
  Seq (Lit (dq ++ "content" ++ dq ++ ":"))
      (Seq (Star space)
           (Seq (Char dq_char) (Seq (Group 1 (quoted_body one)) (Char dq_char)))).

(** A comma, then group 1: white space and a closing brace or bracket. *)
Definition trailing_comma_pattern : regex :=
  Seq (Char ","%char) (Group 1 (Seq (Star space) (one_of "}]"))).

(** Group 1: white space; group 2: a word; group 3: white space; a colon. *)
Definition bare_key_pattern : regex :=
  Seq (Group 1 (Star space))
      (Seq (Group 2 (Plus word)) (Seq (Group 3 (Star space)) (Char ":"%char))).

(** [_fix_common_json_issues(json_str)].  Nothing in the [try] block
    raises, so its [except] clause is never entered. *)
Definition _fix_common_json_issues (json_str : string) : string :=
  let json_str :=
    match search (content_pattern dot) json_str with
    | Some m =>
        match group_span 1 m with
        | Some (content_start, content_end) =>
            let content := take (content_end - content_start) (drop content_start json_str) in
            let content := replace content dq (bs ++ dq) in
            let content := replace content nl (bs ++ "n") in
            let content := replace content tab (bs ++ "t") in
            take content_start json_str ++ content ++ drop content_end json_str
        | None => json_str
        end
    | None => json_str
    end in
  let json_str := sub trailing_comma_pattern (fun s m => group 1 s m) json_str in
  let json_str :=
    sub bare_key_pattern
      (fun s m => group 1 s m ++ dq ++ group 2 s m ++ dq ++ group 3 s m ++ ":")
      json_str in
  json_str.

(** ** Manual extraction *)

(** All of [s] but its last character, and that character. *)
Fixpoint split_last (s : string) : option (string * ascii) :=
  match s with
  | EmptyString => None
  | String c s' =>
      match split_last s' with
      | None => Some (EmptyString, c)
      | Some (t, d) => Some (String c t, d)
      end
  end.

(** What follows the opening of a fence in both fence patterns: white
    space, a line feed, group 1 (as little as possible of anything), a
    line feed, three backticks. *)
Definition fence_tail : regex :=
  Seq (Star space)
      (Seq (Char nl_char)
           (Seq (Group 1 (LazyStar any_char)) (Lit (nl ++ "```")))).

(** The pattern made of three backticks, the target language, a question
    mark and [fence_tail]: the question mark makes the last character
    before it optional. *)
Definition language_fence_pattern (target_language : language) : regex :=
  match split_last ("```" ++ lang_name target_language) with
  | Some (init, last) => Seq (Lit init) (Seq (Opt (Char last)) fence_tail)
  | None => fence_tail
  end.

Definition generic_fence_pattern : regex := Seq (Lit "```") fence_tail.

(** The four [content_patterns], in order. *)
Definition content_patterns : list regex :=
  [ content_pattern any_char;
    Seq (Lit "content:")
        (Seq (Star space)
             (Seq (Char dq_char) (Seq (Group 1 (quoted_body any_char)) (Char dq_char))));
    Seq (Lit "content:")
        (Seq (Star space)
             (Seq (Char "`"%char)
                  (Seq (Group 1 (Star (not_char "`"%char))) (Char "`"%char))));
    Seq (Lit "content:")
        (Seq (Star space)
             (Seq (Lit (dq ++ dq ++ dq))
                  (Seq (Group 1 (Star (not_char dq_char))) (Lit (dq ++ dq ++ dq))))) ].

(** The [for pattern in content_patterns] loop: the first pattern that is
    found gives its group 1, unescaped. *)
Fixpoint first_content_match (patterns : list regex) (ai_response : string)
    : list string :=
  match patterns with
  | [] => []
  | pattern :: rest =>
      match search pattern ai_response with
      | Some m =>
          let content := group 1 ai_response m in
          let content :=
            replace (replace (replace content (bs ++ "n") nl) (bs ++ "t") tab)
                    (bs ++ dq) dq in
          [content]
      | None => first_content_match rest ai_response
      end
  end.

(** [_extract_content_manually(ai_response, target_language,
    original_file_path)] *)
Definition _extract_content_manually (ai_response : string)
    (target_language : language) (original_file_path : string)
    : io (option dict) :=
  io_try
    (let original_name := fst (splitext (basename original_file_path)) in
     let target_extension := _get_file_extension target_language in
     let filename := original_name ++ "." ++ target_extension in
     let code_blocks := findall (language_fence_pattern target_language) ai_response in
     let code_blocks := (code_blocks ++ findall generic_fence_pattern ai_response)%list in
     let code_blocks :=
       match code_blocks with
       | [] => first_content_match content_patterns ai_response
       | _ => code_blocks
       end in
     match code_blocks with
     | content :: _ =>
         (print ManuallyExtracted ;;
          ret (Some [ ("filename", JString filename);
                      ("content", JString content);
                      ("dependencies", JObject []);
                      ("notes", JString ("Manually extracted from AI response for "
                                         ++ original_file_path)) ]))%io
     | [] => (print NoCodeContent ;; ret None)%io
     end)
    (fun _ => (print ManualError ;; ret None)%io).

(** ** The recovery parser *)

(** The value that [_parse_single_file_conversion] returns. *)
Record RecoveryResult : Type := {
  filename : json;
  content : string;
  dependencies : json;
  notes : json
}.

(** Truth value of a decoded JSON value.  A number is false when it is
    zero; its lexeme then has no digit other than zero before the
    exponent. *)
Fixpoint mantissa_is_zero (lexeme : string) : bool :=
  match lexeme with
  | EmptyString => true
  | String c s' =>
      if Ascii.eqb c "e"%char || Ascii.eqb c "E"%char then true
      else if isdigit c && negb (Ascii.eqb c "0"%char) then false
      else if Ascii.eqb c "N"%char || Ascii.eqb c "I"%char then false
      else mantissa_is_zero s'
  end.

Definition truthy (v : json) : bool :=
  match v with
  | JNull => false
  | JBool b => b
  | JNumber lexeme => negb (mantissa_is_zero lexeme)
  | JString s => negb (String.eqb s EmptyString)
  | JArray items => match items with [] => false | _ => true end
  | JObject pairs => match pairs with [] => false | _ => true end
  end.

(** The text between the first opening brace and the last closing brace,
    when both are there ("Strategy 1"). *)
Definition json_candidate (ai_response : string) : option string :=
  let start_idx := find ai_response "{"%char in
  let end_idx := rfind ai_response "}"%char + 1 in
  if negb (start_idx =? -1)%Z && negb (end_idx =? 0)%Z
  then Some (PyStr.slice ai_response start_idx end_idx)
  else None.

(** Strategies 1 and 2: the value of [json_data] after the first [if]. *)
Definition parse_candidate (json_str : string) : io (option json) :=
  io_try_decode
    (json_data <- lift (loads json_str) ;;
     print ParsedDirect ;;
     ret (Some json_data))%io
    (print DirectDecodeError ;;
     let fixed_json := _fix_common_json_issues json_str in
     io_try_decode
       (json_data <- lift (loads fixed_json) ;;
        print ParsedFixed ;;
        ret (Some json_data))
       (print FixedStillInvalid ;; ret None))%io.

(** [content[:200]], [len(content)], the test for an escaped line feed and
    [content.strip()] on the value of the content field: a [str] goes
    through, any other value raises at the first operation it lacks. *)
Definition content_text (content : json) : result string :=
  match content with
  | JString s => Ok s
  | JArray _ => Raise AttributeError
  | _ => Raise TypeError
  end.

(** From [if json_data:] to the end of the [try] block. *)
Definition finish_conversion (json_data : option json)
    (target_language : language) (original_file_path : string)
    (target_framework : option string) : io (option RecoveryResult) :=
  (match json_data with
   | Some (JObject d) =>
       if truthy (JObject d) then
         let filename := dict_get "filename" (JString EmptyString) d in
         let content := dict_get "content" (JString EmptyString) d in
         let dependencies := dict_get "dependencies" (JObject []) d in
         let notes := dict_get "notes" (JString EmptyString) d in
         content <- lift (content_text content) ;;
         content <-
           (if str_in (bs ++ "n") content
            then print UnescapedNewlines ;; ret (replace content (bs ++ "n") nl)
            else ret content) ;;
         if String.eqb (strip content) EmptyString then
           print NoContentWarning ;; ret None
         else
           filename <-
             match target_framework with
             | Some fw =>
                 if String.eqb fw EmptyString then ret filename
                 else
                   print GeneratedFrameworkPath ;;
                   ret (JString (_get_framework_directory_structure
                                   target_language fw original_file_path))
             | None => ret filename
             end ;;
           ret (Some {| filename := filename; content := content;
                        dependencies := dependencies; notes := notes |})
       else print CouldNotExtract ;; ret None
   | Some v =>
       if truthy v then lift (Raise AttributeError)
       else print CouldNotExtract ;; ret None
   | None => print CouldNotExtract ;; ret None
   end)%io.

(** Strategies 1 to 3: the value of [json_data] when [if json_data:] is
    reached. *)
Definition recover_json_data (ai_response : string)
    (target_language : language) (original_file_path : string)
    : io (option json) :=
  (json_data <-
     match json_candidate ai_response with
     | Some json_str => parse_candidate json_str
     | None => ret None
     end ;;
   match json_data with
   | None =>
       print TryingManual ;;
       d <- _extract_content_manually ai_response target_language
              original_file_path ;;
       ret (option_map JObject d)
   | Some v => ret (Some v)
   end)%io.

(** [_parse_single_file_conversion(ai_response, target_language,
    original_file_path, target_framework)] *)
Definition _parse_single_file_conversion (ai_response : string)
    (target_language : language) (original_file_path : string)
    (target_framework : option string) : io (option RecoveryResult) :=
  io_try
    (json_data <- recover_json_data ai_response target_language original_file_path ;;
     finish_conversion json_data target_language original_file_path target_framework)%io
    (fun _ => (print ParseFailed ;; ret None)%io).

(** ** Vocabulary of the specification for the recovery parser *)

(** A text in which an apostrophe stands for a double quote. *)
Definition quoted (s : string) : string := replace s "'" dq.

Definition python : language := {| lang_name := "python"; lang_plain := eq_refl |}.





(** ** Supported conversions and the tables of the target languages *)

(** [d.get(k)] on a table with string keys. *)
Fixpoint lookup {A : Type} (k : string) (d : list (string * A)) : option A :=
  match d with
  | [] => None
  | (k', v) :: rest => if String.eqb k k' then Some v else lookup k rest
  end.

(** [self.supported_conversions] *)
Definition supported_conversions : list (string * list string) :=
  [ ("python", ["python"; "java"; "javascript"; "typescript"; "go"; "rust"]);
    ("java", ["java"; "python"; "javascript"; "typescript"; "go"; "rust"]);
    ("javascript", ["javascript"; "python"; "java"; "typescript"; "go"; "rust"]);
    ("typescript", ["typescript"; "python"; "java"; "javascript"; "go"; "rust"]);
    ("cobol", ["cobol"; "python"; "java"; "javascript"; "typescript"]);
    ("cpp", ["cpp"; "python"; "java"; "javascript"; "typescript"; "go"; "rust"]);
    ("c", ["c"; "python"; "java"; "javascript"; "typescript"; "go"; "rust"]);
    ("php", ["php"; "python"; "java"; "javascript"; "typescript"]);
    ("ruby", ["ruby"; "python"; "java"; "javascript"; "typescript"]);
    ("go", ["go"; "python"; "java"; "javascript"; "typescript"; "rust"]);
    ("rust", ["rust"; "python"; "java"; "javascript"; "typescript"; "go"]) ].

(** [_is_conversion_supported(source_language, target_language)] *)
Definition _is_conversion_supported (source_language target_language : string) : bool :=
  let source_lang := lower source_language in
  let target_lang := lower target_language in
  match lookup source_lang supported_conversions with
  | Some targets => str_in_list target_lang targets
  | None => false
  end.

(** [_get_dependencies_filename(language)] *)
Definition _get_dependencies_filename (language : string) : string :=
  match lookup (lower language)
          [ ("python", "requirements.txt"); ("java", "pom.xml");
            ("javascript", "package.json"); ("typescript", "package.json");
            ("go", "go.mod"); ("rust", "Cargo.toml") ] with
  | Some filename => filename
  | None => "dependencies.txt"
  end.

(** ** Dependencies *)

(** A [dict] from [str] to [str]: keys are unique, in insertion order. *)
Definition deps : Type := list (string * string).

(** [d[k] = v] *)
Fixpoint deps_set (k v : string) (d : deps) : deps :=
  match d with
  | [] => [(k, v)]
  | (k', v') :: rest =>
      if String.eqb k k' then (k, v) :: rest else (k', v') :: deps_set k v rest
  end.

(** [d.update(other)] *)
Definition deps_update (d other : deps) : deps :=
  fold_left (fun d kv => deps_set (fst kv) (snd kv) d) other d.

(** [framework in ['spring', 'spring_boot']] for an optional framework. *)
Definition is_spring (target_framework : option string) : bool :=
  match target_framework with
  | Some fw => str_in_list fw ["spring"; "spring_boot"]
  | None => false
  end.

(** [_get_default_dependencies(language, target_framework)] *)
Definition _get_default_dependencies (language : string)
    (target_framework : option string) : deps :=
  if String.eqb (lower language) "java" && is_spring target_framework then
    [ ("spring-boot-starter-web", "3.2.0");
      ("spring-boot-starter-data-jpa", "3.2.0");
      ("spring-boot-starter-security", "3.2.0");
      ("spring-boot-starter-thymeleaf", "3.2.0");
      ("spring-boot-devtools", "3.2.0");
      ("spring-boot-starter-test", "3.2.0");
      ("junit-jupiter", "5.9.2");
      ("slf4j-api", "2.0.7");
      ("logback-classic", "1.4.7") ]
  else
    match lookup (lower language)
            [ ("python", [("requests", "2.31.0"); ("pydantic", "2.5.0")]);
              ("java", [("junit", "5.9.2"); ("slf4j", "2.0.7")]);
              ("javascript", [("axios", "1.6.0"); ("lodash", "4.17.21")]);
              ("typescript", [("@types/node", "20.8.0"); ("typescript", "5.2.0")]);
              ("go", [("github.com/gorilla/mux", "v1.8.0")]);
              ("rust", [("serde", "1.0"); ("tokio", "1.0")]) ] with
    | Some dependencies => dependencies
    | None => []
    end.

(** [_analyze_file_dependencies(content, language)] *)
Definition _analyze_file_dependencies (content language : string) : deps :=
  let dependencies : deps := [] in
  if String.eqb (lower language) "python" then
    let dependencies :=
      if str_in "import requests" content || str_in "from requests" content
      then deps_set "requests" "2.31.0" dependencies else dependencies in
    let dependencies :=
      if str_in "import json" content
      then deps_set "json" "builtin" dependencies else dependencies in
    let dependencies :=
      if str_in "import asyncio" content
      then deps_set "asyncio" "builtin" dependencies else dependencies in
    dependencies
  else if String.eqb (lower language) "javascript" then
    if str_in "require(" content || str_in "import " content then
      let dependencies :=
        if str_in "axios" content
        then deps_set "axios" "1.6.0" dependencies else dependencies in
      let dependencies :=
        if str_in "lodash" content
        then deps_set "lodash" "4.17.21" dependencies else dependencies in
      dependencies
    else dependencies
  else if String.eqb (lower language) "java" then
    let dependencies :=
      if str_in "import java.util" content
      then deps_set "java.util" "builtin" dependencies else dependencies in
    let dependencies :=
      if str_in "import org.junit" content
      then deps_set "junit" "5.9.2" dependencies else dependencies in
    dependencies
  else dependencies.

(** [generate_dependencies(target_language, converted_code,
    target_framework)], on the list under ["converted_files"].  Its
    callers pass files whose content is a [str]; nothing in the [try]
    block raises on them, and its [except] clause is not entered. *)
Definition generate_dependencies (target_language : string)
    (converted_files : list RecoveryResult) (target_framework : option string)
    : deps :=
  let dependencies := _get_default_dependencies target_language target_framework in
  fold_left
    (fun dependencies file_data =>
       let content := content file_data in
       let file_deps := _analyze_file_dependencies content target_language in
       deps_update dependencies file_deps)
    converted_files dependencies.

(** [_generate_spring_boot_pom_xml(dependencies, converted_code)] *)
Definition _generate_spring_boot_pom_xml (dependencies : deps) : string :=
  let pom_xml :=
    join nl
    [ "<?xml version=" ++ dq ++ "1.0" ++ dq ++ " encoding=" ++ dq ++ "UTF-8" ++ dq ++ "?>";
      "<project xmlns=" ++ dq ++ "http://maven.apache.org/POM/4.0.0" ++ dq;
      "         xmlns:xsi=" ++ dq ++ "http://www.w3.org/2001/XMLSchema-instance" ++ dq;
      "         xsi:schemaLocation=" ++ dq ++ "http://maven.apache.org/POM/4.0.0 ";
      "         http://maven.apache.org/xsd/maven-4.0.0.xsd" ++ dq ++ ">";
      "    <modelVersion>4.0.0</modelVersion>";
      EmptyString;
      "    <parent>";
      "        <groupId>org.springframework.boot</groupId>";
      "        <artifactId>spring-boot-starter-parent</artifactId>";
      "        <version>3.2.0</version>";
      "        <relativePath/>";
      "    </parent>";
      EmptyString;
      "    <groupId>com.example</groupId>";
      "    <artifactId>converted-spring-boot-app</artifactId>";
      "    <version>1.0.0</version>";
      "    <packaging>jar</packaging>";
      EmptyString;
      "    <name>Converted Spring Boot Application</name>";
      "    <description>Spring Boot application converted from J2EE</description>";
      EmptyString;
      "    <properties>";
      "        <java.version>17</java.version>";
      "        <maven.compiler.source>17</maven.compiler.source>";
      "        <maven.compiler.target>17</maven.compiler.target>";
      "        <project.build.sourceEncoding>UTF-8</project.build.sourceEncoding>";
      "    </properties>";
      EmptyString;
      "    <dependencies>" ] in
  let pom_xml :=
    fold_left
      (fun pom_xml item =>
         let dep := fst item in
         let version := snd item in
         if startswith dep "spring-boot" then
           pom_xml ++
           join nl
      [ EmptyString;
        "        <dependency>";
        "            <groupId>org.springframework.boot</groupId>";
        "            <artifactId>" ++ dep ++ "</artifactId>";
        "        </dependency>" ]
         else
           pom_xml ++
           join nl
      [ EmptyString;
        "        <dependency>";
        "            <groupId>org.junit.jupiter</groupId>";
        "            <artifactId>" ++ dep ++ "</artifactId>";
        "            <version>" ++ version ++ "</version>";
        "            <scope>test</scope>";
        "        </dependency>" ])
      dependencies pom_xml in
  pom_xml ++
    join nl
    [ EmptyString;
      "    </dependencies>";
      EmptyString;
      "    <build>";
      "        <plugins>";
      "            <plugin>";
      "                <groupId>org.springframework.boot</groupId>";
      "                <artifactId>spring-boot-maven-plugin</artifactId>";
      "            </plugin>";
      "        </plugins>";
      "    </build>";
      EmptyString;
      "</project>" ].

Section Saving.

(** [json.dump(dependencies, f, indent=2)]: the text it writes. *)
Variable json_dump : deps -> string.

(** What [save_converted_code] writes to the dependencies file: its name,
    and the text written between [open] and the end of the [with] block. *)
Definition dependencies_file (target_language : string) (dependencies : deps)
    : string * string :=
  let deps_file := _get_dependencies_filename target_language in
  (deps_file,
   if endswith deps_file ".json" then json_dump dependencies
   else if endswith deps_file ".txt" then
     fold_left
       (fun written item => written ++ fst item ++ "==" ++ snd item ++ nl)
       dependencies EmptyString
   else if endswith deps_file ".toml" then
     fold_left
       (fun written item =>
          written ++ fst item ++ " = " ++ dq ++ snd item ++ dq ++ nl)
       dependencies ("[dependencies]" ++ nl)
   else if String.eqb deps_file "pom.xml" then
     _generate_spring_boot_pom_xml dependencies
   else EmptyString).

End Saving.

(** ** Prompts *)

(** [s.title()] *)
Fixpoint title_from (previous_is_cased : bool) (s : string) : string :=
  match s with
  | EmptyString => EmptyString
  | String c s' =>
      String (if previous_is_cased then lower_char c else upper_char c)
             (title_from (isupper c || islower c) s')
  end.

Definition title (s : string) : string := title_from false s.

(** [str(x)] for an optional [str]. *)
Definition py_str (x : option string) : string :=
  match x with
  | Some s => s
  | None => "None"
  end.

(** [framework and framework != "none"] *)
Definition named_framework (framework : option string) : bool :=
  match framework with
  | Some fw => negb (String.eqb fw EmptyString) && negb (String.eqb fw "none")
  | None => false
  end.

(** [a != b] for two optional [str]. *)
Definition differ (a b : option string) : bool :=
  match a, b with
  | Some x, Some y => negb (String.eqb x y)
  | None, None => false
  | _, _ => true
  end.

(** The values of [target_directory] and [target_filename] with which
    [_create_single_file_conversion_prompt] builds its text.  The name
    that the function computes first, with a dot before the extension, is
    assigned again on both branches before it is read. *)
Definition prompt_target (target_language file_path : string)
    (target_framework : option string) : string * string :=
  let target_directory := EmptyString in
  if named_framework target_framework then
    let target_directory :=
      _get_framework_directory_structure target_language
        (py_str target_framework) file_path in
    let target_filename := basename target_directory in
    (target_directory, target_filename)
  else
    let target_filename :=
      fst (splitext (basename file_path)) ++ _get_file_extension target_language in
    (target_directory, target_filename).

(** [_create_single_file_conversion_prompt(source_code, source_language,
    target_language, file_path, source_framework, target_framework)] *)
Definition _create_single_file_conversion_prompt
    (source_code source_language target_language file_path : string)
    (source_framework target_framework : option string) : string :=
  let framework_info := EmptyString in
  let framework_info :=
    if named_framework source_framework
    then framework_info ++ nl ++ "Source Framework: " ++ py_str source_framework
    else framework_info in
  let framework_info :=
    if named_framework target_framework
    then framework_info ++ nl ++ "Target Framework: " ++ py_str target_framework
    else framework_info in
  let conversion_type :=
    if String.eqb source_language target_language then
      if differ source_framework target_framework
      then "convert from " ++ py_str source_framework ++ " to "
           ++ py_str target_framework ++ " framework"
      else "modernize and refactor"
    else "convert from " ++ source_language ++ " to " ++ target_language in
  let (target_directory, target_filename) :=
    prompt_target target_language file_path target_framework in
  join nl
    [ EmptyString;
      title conversion_type ++ " this " ++ source_language ++ " file." ++ framework_info;
      EmptyString;
      "Original file: " ++ file_path;
      "Target file: " ++ target_filename;
      "Target directory structure: " ++ (if String.eqb target_directory EmptyString then "Standard structure" else target_directory);
      EmptyString;
      "IMPORTANT: You must respond with ONLY valid JSON. No additional text, no explanations outside the JSON.";
      EmptyString;
      "Required JSON format:";
      "{";
      "    " ++ dq ++ "filename" ++ dq ++ ": " ++ dq ++ target_filename ++ dq ++ ",";
      "    " ++ dq ++ "content" ++ dq ++ ": " ++ dq ++ "// Your " ++ target_language ++ " code here - write actual code, not JSON strings" ++ dq ++ ",";
      "    " ++ dq ++ "dependencies" ++ dq ++ ": {";
      "        " ++ dq ++ "package_name" ++ dq ++ ": " ++ dq ++ "version" ++ dq;
      "    },";
      "    " ++ dq ++ "notes" ++ dq ++ ": " ++ dq ++ "Brief conversion notes" ++ dq;
      "}";
      EmptyString;
      "Source code:";
      "```" ++ source_language;
      source_code;
      "```";
      EmptyString;
      "Conversion rules:";
      "1. Write ONLY valid " ++ target_language ++ " code in the " ++ dq ++ "content" ++ dq ++ " field";
      "2. Do NOT wrap code in quotes or markdown blocks";
      "3. Use proper " ++ target_language ++ " syntax and best practices";
      "4. Include necessary imports and dependencies";
      "5. Maintain the original functionality";
      "6. Add comments for major changes";
      "7. Ensure the JSON is properly formatted with escaped quotes and newlines";
      "8. If converting between frameworks, adapt the code to use the target framework's patterns and conventions";
      "9. Include framework-specific dependencies and imports when applicable";
      "10. For same-language conversions, focus on code modernization, best practices, and framework-specific improvements";
      "11. Follow the target framework's directory structure and naming conventions";
      EmptyString;
      "Example of correct content field:";
      dq ++ "content" ++ dq ++ ": " ++ dq ++ "import os\nimport sys\n\ndef main():\n    print('Hello World')\n\nif __name__ == '__main__':\n    main()" ++ dq;
      EmptyString;
      "Respond with ONLY the JSON object, no other text.";
      EmptyString ].

(** The reconstruction of a class or a function without [full_code]. *)
Definition class_stub (source_language class_name : string) : list string :=
  if String.eqb source_language "java" then
    [ "public class " ++ class_name ++ " {"; "    // Class implementation"; "}" ]
  else if str_in_list source_language ["javascript"; "typescript"] then
    [ "class " ++ class_name ++ " {"; "    // Class implementation"; "}" ]
  else
    [ "class " ++ class_name ++ ":"; "    # Class implementation"; "    pass" ].

Definition function_stub (source_language func_name : string) : list string :=
  if String.eqb source_language "java" then
    [ "public void " ++ func_name ++ "() {"; "    // Function implementation"; "}" ]
  else if str_in_list source_language ["javascript"; "typescript"] then
    [ "function " ++ func_name ++ "() {"; "    // Function implementation"; "}" ]
  else
    [ "def " ++ func_name ++ "():"; "    # Function implementation"; "    pass" ].

(** [_prepare_single_file_code(file_data, source_language)], on a record
    of the parser. *)
Definition _prepare_single_file_code (file_data : ASTParser.StructuralRecord)
    (source_language : string) : string :=
  let imports := ASTParser.imports file_data in
  let functions := ASTParser.functions file_data in
  let classes := ASTParser.classes file_data in
  let full_source_code := ASTParser.full_source_code file_data in
  if negb (String.eqb full_source_code EmptyString) then full_source_code
  else
    let code_parts :=
      map (fun imp =>
             if String.eqb source_language "java" then "import " ++ imp ++ ";"
             else if str_in_list source_language ["javascript"; "typescript"]
             then "import " ++ imp ++ ";"
             else "import " ++ imp)
          imports in
    let code_parts := (code_parts ++ [EmptyString])%list in
    let code_parts :=
      (code_parts ++
       flat_map (fun cls =>
                   let class_name := ASTParser.name cls in
                   let full_code := ASTParser.full_code cls in
                   ((if negb (String.eqb full_code EmptyString) then [full_code]
                     else class_stub source_language class_name)
                    ++ [EmptyString])%list)
                classes)%list in
    let code_parts :=
      (code_parts ++
       flat_map (fun func =>
                   let func_name := ASTParser.name func in
                   let full_code := ASTParser.full_code func in
                   ((if negb (String.eqb full_code EmptyString) then [full_code]
                     else function_stub source_language func_name)
                    ++ [EmptyString])%list)
                functions)%list in
    join nl code_parts.

(** ** Startup files *)

Definition _get_python_startup_template : string :=
  join nl
    [ "#!/usr/bin/env python3";
      dq ++ dq ++ dq;
      "Main startup file for the application";
      dq ++ dq ++ dq;
      "import logging";
      "import sys";
      "from pathlib import Path";
      EmptyString;
      "# Configure logging";
      "logging.basicConfig(";
      "    level=logging.INFO,";
      "    format='%(asctime)s - %(name)s - %(levelname)s - %(message)s'";
      ")";
      "logger = logging.getLogger(__name__)";
      EmptyString;
      "def main():";
      "    " ++ dq ++ dq ++ dq ++ "Main application entry point" ++ dq ++ dq ++ dq;
      "    try:";
      "        logger.info(" ++ dq ++ "Starting application..." ++ dq ++ ")";
      "        ";
      "        # Add your application initialization here";
      "        logger.info(" ++ dq ++ "Application started successfully" ++ dq ++ ")";
      "        ";
      "    except Exception as e:";
      "        logger.error(f" ++ dq ++ "Application failed to start: {e}" ++ dq ++ ")";
      "        sys.exit(1)";
      EmptyString;
      "if __name__ == " ++ dq ++ "__main__" ++ dq ++ ":";
      "    main()" ].

Definition _get_java_startup_template : string :=
  join nl
    [ "import org.springframework.boot.SpringApplication;";
      "import org.springframework.boot.autoconfigure.SpringBootApplication;";
      "import org.slf4j.Logger;";
      "import org.slf4j.LoggerFactory;";
      EmptyString;
      "@SpringBootApplication";
      "public class Main {";
      "    private static final Logger logger = LoggerFactory.getLogger(Main.class);";
      "    ";
      "    public static void main(String[] args) {";
      "        try {";
      "            logger.info(" ++ dq ++ "Starting Spring Boot application..." ++ dq ++ ");";
      "            SpringApplication.run(Main.class, args);";
      "            logger.info(" ++ dq ++ "Spring Boot application started successfully" ++ dq ++ ");";
      "        } catch (Exception e) {";
      "            logger.error(" ++ dq ++ "Spring Boot application failed to start" ++ dq ++ ", e);";
      "            System.exit(1);";
      "        }";
      "    }";
      "}" ].

Definition _get_javascript_startup_template : string :=
  join nl
    [ "#!/usr/bin/env node";
      "/**";
      " * Main startup file for the application";
      " */";
      "const logger = console;";
      EmptyString;
      "function main() {";
      "    try {";
      "        logger.info(" ++ dq ++ "Starting application..." ++ dq ++ ");";
      "        ";
      "        // Add your application initialization here";
      "        logger.info(" ++ dq ++ "Application started successfully" ++ dq ++ ");";
      "        ";
      "    } catch (error) {";
      "        logger.error(" ++ dq ++ "Application failed to start:" ++ dq ++ ", error);";
      "        process.exit(1);";
      "    }";
      "}";
      EmptyString;
      "main();" ].

Definition _get_typescript_startup_template : string :=
  join nl
    [ "#!/usr/bin/env node";
      "/**";
      " * Main startup file for the application";
      " */";
      "import { Logger } from './logger';";
      EmptyString;
      "const logger = new Logger();";
      EmptyString;
      "async function main(): Promise<void> {";
      "    try {";
      "        logger.info(" ++ dq ++ "Starting application..." ++ dq ++ ");";
      "        ";
      "        // Add your application initialization here";
      "        logger.info(" ++ dq ++ "Application started successfully" ++ dq ++ ");";
      "        ";
      "    } catch (error) {";
      "        logger.error(" ++ dq ++ "Application failed to start:" ++ dq ++ ", error);";
      "        process.exit(1);";
      "    }";
      "}";
      EmptyString;
      "main().catch(console.error);" ].

Definition _get_go_startup_template : string :=
  join nl
    [ "package main";
      EmptyString;
      "import (";
      "    " ++ dq ++ "log" ++ dq;
      "    " ++ dq ++ "os" ++ dq;
      ")";
      EmptyString;
      "func main() {";
      "    log.Println(" ++ dq ++ "Starting application..." ++ dq ++ ")";
      "    ";
      "    // Add your application initialization here";
      "    log.Println(" ++ dq ++ "Application started successfully" ++ dq ++ ")";
      "}" ].

Definition _get_rust_startup_template : string :=
  join nl
    [ "use std::process;";
      EmptyString;
      "fn main() {";
      "    println!(" ++ dq ++ "Starting application..." ++ dq ++ ");";
      "    ";
      "    // Add your application initialization here";
      "    println!(" ++ dq ++ "Application started successfully" ++ dq ++ ");";
      "}" ].

(** [_get_startup_file_info(target_language, target_framework)] *)
Definition _get_startup_file_info (target_language : string)
    (target_framework : option string) : option (string * string) :=
  if String.eqb (lower target_language) "java" then
    if is_spring target_framework
    then Some ("Main.java", _get_java_startup_template)
    else Some ("Main.java", _get_java_startup_template)
  else
    lookup (lower target_language)
      [ ("python", ("main.py", _get_python_startup_template));
        ("javascript", ("index.js", _get_javascript_startup_template));
        ("typescript", ("index.ts", _get_typescript_startup_template));
        ("go", ("main.go", _get_go_startup_template));
        ("rust", ("main.rs", _get_rust_startup_template)) ].

(** [_create_startup_file_prompt(target_language, target_framework,
    filename, template)] *)
Definition _create_startup_file_prompt (target_language : string)
    (target_framework : option string) (filename template : string) : string :=
  let framework_info := EmptyString in
  let framework_info :=
    if named_framework target_framework
    then " using " ++ py_str target_framework ++ " framework"
    else framework_info in
  join nl
    [ EmptyString;
      "Create a startup file for a " ++ target_language ++ " application" ++ framework_info ++ ".";
      EmptyString;
      "Filename: " ++ filename;
      EmptyString;
      "Provide the startup file content in the following JSON format:";
      "{";
      "    " ++ dq ++ "filename" ++ dq ++ ": " ++ dq ++ filename ++ dq ++ ",";
      "    " ++ dq ++ "content" ++ dq ++ ": " ++ dq ++ "// Write actual " ++ target_language ++ " code here, NOT JSON or markdown" ++ dq ++ ",";
      "    " ++ dq ++ "dependencies" ++ dq ++ ": {";
      "        " ++ dq ++ "dependency_name" ++ dq ++ ": " ++ dq ++ "version" ++ dq;
      "    },";
      "    " ++ dq ++ "notes" ++ dq ++ ": " ++ dq ++ "Startup file for " ++ target_language ++ " application" ++ framework_info ++ dq;
      "}";
      EmptyString;
      "Template/Example:";
      "```" ++ target_language;
      template;
      "```";
      EmptyString;
      "Important guidelines:";
      "1. Create a simple, runnable startup file";
      "2. Use " ++ target_language ++ " best practices";
      "3. Include proper imports and dependencies";
      "4. Make it easy to run the application";
      "5. The " ++ dq ++ "content" ++ dq ++ " field should contain ONLY " ++ target_language ++ " code, not JSON or markdown";
      "6. Provide clean, executable " ++ target_language ++ " code";
      "7. If using a framework, include framework-specific initialization and configuration";
      "8. Include framework-specific dependencies when applicable";
      "9. For framework-specific startup files, include proper framework initialization and configuration";
      EmptyString;
      "Provide only the JSON response, no additional text. The content field should be pure " ++ target_language ++ " code with escaped newlines.";
      EmptyString ].

(** The test of the first loop of [_create_startup_files] on a lowered
    file name. *)
Definition is_startup_file (target_language filename : string) : bool :=
  (String.eqb target_language "python"
   && (String.eqb filename "main.py" || String.eqb filename "manage.py"
       || String.eqb filename "start.py"))
  || (String.eqb target_language "java" && String.eqb filename "main.java")
  || (String.eqb target_language "javascript" && String.eqb filename "index.js")
  || (String.eqb target_language "typescript" && String.eqb filename "index.ts")
  || (String.eqb target_language "go" && String.eqb filename "main.go")
  || (String.eqb target_language "rust" && String.eqb filename "main.rs").

(** [file_data["filename"].lower()]: only a [str] has the method. *)
Definition filename_lower (file_data : RecoveryResult) : result string :=
  match filename file_data with
  | JString s => Ok (lower s)
  | _ => Raise AttributeError
  end.

(** The first loop of [_create_startup_files]: the startup files that the
    converted files already hold. *)
Fixpoint existing_startup_files (target_language : string)
    (converted_files : list RecoveryResult) : result (list string) :=
  match converted_files with
  | [] => Ok []
  | file_data :: rest =>
      match filename_lower file_data with
      | Raise e => Raise e
      | Ok filename =>
          match existing_startup_files target_language rest with
          | Raise e => Raise e
          | Ok found =>
              Ok (if is_startup_file target_language filename
                  then filename :: found else found)
          end
      end
  end.

(** The model behind [self.genai_service._chat_with_azure]: the answer to
    a prompt, or an exception, given how many requests came before. *)
Class Service : Type := {
  _chat_with_azure : nat -> string -> result string
}.

Section Conversion.

Context {service : Service}.

(** [_create_startup_files(target_language, target_framework,
    converted_files)], after [calls] requests to the model: the number of
    requests made by the end, and the startup files. *)
Definition _create_startup_files (calls : nat) (target_language : language)
    (target_framework : option string) (converted_files : list RecoveryResult)
    : result (nat * list RecoveryResult) :=
  match existing_startup_files target_language converted_files with
  | Raise e => Raise e
  | Ok (_ :: _) => Ok (calls, [])
  | Ok [] =>
      match _get_startup_file_info target_language target_framework with
      | None => Ok (calls, [])
      | Some (filename, template) =>
          let prompt :=
            _create_startup_file_prompt target_language target_framework
              filename template in
          match _chat_with_azure calls prompt with
          | Raise _ => Ok (S calls, [])
          | Ok ai_response =>
              let spring :=
                String.eqb target_language "java" && is_spring target_framework in
              let startup_filename :=
                if spring then "src/main/java/Main.java" else filename in
              match
                snd (_parse_single_file_conversion ai_response target_language
                       ("startup_" ++ filename) target_framework)
              with
              | Ok (Some parsed_startup_file) =>
                  let parsed_startup_file :=
                    if spring then
                      {| filename := JString startup_filename;
                         content := content parsed_startup_file;
                         dependencies := dependencies parsed_startup_file;
                         notes := notes parsed_startup_file |}
                    else parsed_startup_file in
                  Ok (S calls, [parsed_startup_file])
              | Ok None => Ok (S calls, [])
              | Raise _ => Ok (S calls, [])
              end
          end
      end
  end.

(** The [for file_data in ast_data] loop of [convert_code]: a file whose
    request or whose parsing fails is left out and the loop goes on.  The
    update of [all_dependencies], a dictionary that is not read again,
    comes after the file has been appended and is left out. *)
Fixpoint convert_files (calls : nat) (ast_data : list ASTParser.StructuralRecord)
    (source_language : string) (target_language : language)
    (source_framework target_framework : option string)
    : nat * list RecoveryResult :=
  match ast_data with
  | [] => (calls, [])
  | file_data :: rest =>
      let file_path := ASTParser.file_path file_data in
      let source_code := _prepare_single_file_code file_data source_language in
      let prompt :=
        _create_single_file_conversion_prompt source_code source_language
          target_language file_path source_framework target_framework in
      match _chat_with_azure calls prompt with
      | Raise _ =>
          convert_files (S calls) rest source_language target_language
            source_framework target_framework
      | Ok converted_code =>
          let parsed_conversion :=
            snd (_parse_single_file_conversion converted_code target_language
                   file_path target_framework) in
          let (calls, converted_files) :=
            convert_files (S calls) rest source_language target_language
              source_framework target_framework in
          match parsed_conversion with
          | Ok (Some parsed_conversion) => (calls, parsed_conversion :: converted_files)
          | _ => (calls, converted_files)
          end
      end
  end.

(** The dictionary that [convert_code] returns. *)
Record Conversion : Type := {
  result_source_language : string;
  result_source_framework : option string;
  result_target_language : string;
  result_target_framework : option string;
  result_converted_files : list (json * string);
  result_dependencies : deps;
  conversion_notes : string
}.

(** [convert_code(ast_data, source_language, target_language,
    source_framework, target_framework)]: what it returns or raises, and
    the number of requests made to the model. *)
Definition convert_code (ast_data : list ASTParser.StructuralRecord)
    (source_language : string) (target_language : language)
    (source_framework target_framework : option string)
    : nat * result Conversion :=
  if negb (_is_conversion_supported source_language target_language)
  then (O, Raise ValueError)
  else
    let (calls, converted_files) :=
      convert_files O ast_data source_language target_language
        source_framework target_framework in
    match _create_startup_files calls target_language target_framework
            converted_files with
    | Raise e => (calls, Raise e)
    | Ok (calls, startup_files) =>
        let converted_files := (converted_files ++ startup_files)%list in
        let dependencies :=
          generate_dependencies target_language converted_files target_framework in
        (calls,
         Ok {| result_source_language := source_language;
               result_source_framework := source_framework;
               result_target_language := target_language;
               result_target_framework := target_framework;
               result_converted_files :=
                 map (fun file_data => (filename file_data, content file_data))
                     converted_files;
               result_dependencies := dependencies;
               conversion_notes :=
                 "Converted " ++ str_of_nat (List.length converted_files)
                 ++ " files from " ++ source_language ++ " to " ++ target_language |})
    end.

End Conversion.

End CodeConverter.

(* ===================================================================== *)
(** * [models/framework_config.py] *)
(* ===================================================================== *)

Module FrameworkConfig.

Import PyStr.
Local Open Scope string_scope.

(** An entry of a framework list. *)
Record Framework : Type := {
  name : string;
  label : string;
  description : string
}.

(** [FRAMEWORK_CONFIG] *)
Definition FRAMEWORK_CONFIG : list (string * list Framework) :=
  [
    ("java",
      [ {| name := "spring"; label := "Spring Framework";
           description := "Enterprise Java framework" |};
        {| name := "spring_boot"; label := "Spring Boot";
           description := "Rapid application development with Spring" |};
        {| name := "jakarta_ee"; label := "Jakarta EE";
           description := "Enterprise Java platform" |};
        {| name := "micronaut"; label := "Micronaut";
           description := "Modern JVM framework" |};
        {| name := "quarkus"; label := "Quarkus";
           description := "Supersonic Subatomic Java" |};
        {| name := "play"; label := "Play Framework";
           description := "Web framework for Java and Scala" |};
        {| name := "struts"; label := "Apache Struts";
           description := "MVC framework for Java" |};
        {| name := "jsf"; label := "JavaServer Faces";
           description := "Component-based UI framework" |};
        {| name := "vaadin"; label := "Vaadin";
           description := "Web application framework" |};
        {| name := "none"; label := "No Framework";
           description := "Plain Java without framework" |} ]);
    ("python",
      [ {| name := "django"; label := "Django";
           description := "High-level Python web framework" |};
        {| name := "flask"; label := "Flask";
           description := "Lightweight web framework" |};
        {| name := "fastapi"; label := "FastAPI";
           description := "Modern, fast web framework" |};
        {| name := "pyramid"; label := "Pyramid";
           description := "Flexible Python web framework" |};
        {| name := "tornado"; label := "Tornado";
           description := "Asynchronous web framework" |};
        {| name := "bottle"; label := "Bottle";
           description := "Fast and simple WSGI framework" |};
        {| name := "cherrypy"; label := "CherryPy";
           description := "Object-oriented web framework" |};
        {| name := "web2py"; label := "web2py";
           description := "Full-stack web framework" |};
        {| name := "aiohttp"; label := "aiohttp";
           description := "Async HTTP client/server framework" |};
        {| name := "none"; label := "No Framework";
           description := "Plain Python without framework" |} ]);
    ("javascript",
      [ {| name := "react"; label := "React";
           description := "JavaScript library for building user interfaces" |};
        {| name := "vue"; label := "Vue.js";
           description := "Progressive JavaScript framework" |};
        {| name := "angular"; label := "Angular";
           description := "Platform for building mobile and desktop web applications" |};
        {| name := "express"; label := "Express.js";
           description := "Fast, unopinionated web framework" |};
        {| name := "next"; label := "Next.js";
           description := "React framework for production" |};
        {| name := "nuxt"; label := "Nuxt.js";
           description := "Vue.js framework for production" |};
        {| name := "svelte"; label := "Svelte";
           description := "Cybernetically enhanced web apps" |};
        {| name := "ember"; label := "Ember.js";
           description := "A framework for ambitious web developers" |};
        {| name := "backbone"; label := "Backbone.js";
           description := "Give your JS App some backbone" |};
        {| name := "jquery"; label := "jQuery";
           description := "JavaScript library" |};
        {| name := "none"; label := "No Framework";
           description := "Plain JavaScript without framework" |} ]);
    ("typescript",
      [ {| name := "react"; label := "React with TypeScript";
           description := "React with TypeScript support" |};
        {| name := "vue"; label := "Vue.js with TypeScript";
           description := "Vue.js with TypeScript support" |};
        {| name := "angular"; label := "Angular";
           description := "Platform for building mobile and desktop web applications" |};
        {| name := "next"; label := "Next.js with TypeScript";
           description := "Next.js with TypeScript support" |};
        {| name := "nuxt"; label := "Nuxt.js with TypeScript";
           description := "Nuxt.js with TypeScript support" |};
        {| name := "svelte"; label := "Svelte with TypeScript";
           description := "Svelte with TypeScript support" |};
        {| name := "express"; label := "Express.js with TypeScript";
           description := "Express.js with TypeScript support" |};
        {| name := "nest"; label := "NestJS";
           description := "Progressive Node.js framework" |};
        {| name := "none"; label := "No Framework";
           description := "Plain TypeScript without framework" |} ]);
    ("cobol",
      [ {| name := "cics"; label := "CICS";
           description := "Customer Information Control System" |};
        {| name := "ims"; label := "IMS";
           description := "Information Management System" |};
        {| name := "db2"; label := "DB2";
           description := "Database management system" |};
        {| name := "jcl"; label := "JCL";
           description := "Job Control Language" |};
        {| name := "none"; label := "No Framework";
           description := "Plain COBOL without framework" |} ]);
    ("cpp",
      [ {| name := "qt"; label := "Qt";
           description := "Cross-platform application framework" |};
        {| name := "boost"; label := "Boost";
           description := "Collection of peer-reviewed portable C++ source libraries" |};
        {| name := "stl"; label := "STL";
           description := "Standard Template Library" |};
        {| name := "mfc"; label := "MFC";
           description := "Microsoft Foundation Classes" |};
        {| name := "wxwidgets"; label := "wxWidgets";
           description := "Cross-platform GUI library" |};
        {| name := "none"; label := "No Framework";
           description := "Plain C++ without framework" |} ]);
    ("csharp",
      [ {| name := "asp_net"; label := "ASP.NET";
           description := "Web application framework" |};
        {| name := "asp_net_core"; label := "ASP.NET Core";
           description := "Cross-platform web framework" |};
        {| name := "wpf"; label := "WPF";
           description := "Windows Presentation Foundation" |};
        {| name := "winforms"; label := "Windows Forms";
           description := "Desktop application framework" |};
        {| name := "xamarin"; label := "Xamarin";
           description := "Cross-platform mobile development" |};
        {| name := "blazor"; label := "Blazor";
           description := "Web framework using C# and HTML" |};
        {| name := "none"; label := "No Framework";
           description := "Plain C# without framework" |} ]);
    ("php",
      [ {| name := "laravel"; label := "Laravel";
           description := "PHP web application framework" |};
        {| name := "symfony"; label := "Symfony";
           description := "PHP web application framework" |};
        {| name := "codeigniter"; label := "CodeIgniter";
           description := "PHP framework" |};
        {| name := "yii"; label := "Yii";
           description := "High-performance PHP framework" |};
        {| name := "cakephp"; label := "CakePHP";
           description := "Rapid development framework" |};
        {| name := "zend"; label := "Zend Framework";
           description := "Enterprise PHP framework" |};
        {| name := "slim"; label := "Slim";
           description := "PHP micro-framework" |};
        {| name := "none"; label := "No Framework";
           description := "Plain PHP without framework" |} ]);
    ("ruby",
      [ {| name := "rails"; label := "Ruby on Rails";
           description := "Web application framework" |};
        {| name := "sinatra"; label := "Sinatra";
           description := "Lightweight web framework" |};
        {| name := "hanami"; label := "Hanami";
           description := "Modern Ruby web framework" |};
        {| name := "grape"; label := "Grape";
           description := "REST-like API framework" |};
        {| name := "none"; label := "No Framework";
           description := "Plain Ruby without framework" |} ]);
    ("go",
      [ {| name := "gin"; label := "Gin";
           description := "HTTP web framework" |};
        {| name := "echo"; label := "Echo";
           description := "High performance web framework" |};
        {| name := "fiber"; label := "Fiber";
           description := "Express inspired web framework" |};
        {| name := "revel"; label := "Revel";
           description := "Full-stack web framework" |};
        {| name := "beego"; label := "Beego";
           description := "Full-stack web framework" |};
        {| name := "none"; label := "No Framework";
           description := "Plain Go without framework" |} ]);
    ("rust",
      [ {| name := "actix"; label := "Actix";
           description := "Powerful web framework" |};
        {| name := "rocket"; label := "Rocket";
           description := "Web framework for Rust" |};
        {| name := "warp"; label := "Warp";
           description := "Fast web framework" |};
        {| name := "axum"; label := "Axum";
           description := "Web application framework" |};
        {| name := "none"; label := "No Framework";
           description := "Plain Rust without framework" |} ]) ].

(** [get_frameworks_for_language(language)] *)
Definition get_frameworks_for_language (language : string) : list Framework :=
  match CodeConverter.lookup (lower language) FRAMEWORK_CONFIG with
  | Some frameworks => frameworks
  | None => []
  end.

(** [get_all_frameworks()] *)
Definition get_all_frameworks : list (string * list Framework) := FRAMEWORK_CONFIG.

(** [is_valid_framework(language, framework)] *)
Definition is_valid_framework (language framework : string) : bool :=
  let frameworks := get_frameworks_for_language language in
  existsb (fun f => String.eqb (name f) framework) frameworks.

(** The [for f in frameworks] loop of [get_framework_label]. *)
Fixpoint label_of (frameworks : list Framework) (framework : string) : string :=
  match frameworks with
  | [] => framework
  | f :: rest =>
      if String.eqb (name f) framework then label f else label_of rest framework
  end.

(** [get_framework_label(language, framework)] *)
Definition get_framework_label (language framework : string) : string :=
  let frameworks := get_frameworks_for_language language in
  label_of frameworks framework.

End FrameworkConfig.

(* ===================================================================== *)
(** * Properties *)
(* ===================================================================== *)

(* ===================================================================== *)
(** * Facts about strings *)
(* ===================================================================== *)

#[local] Arguments Ascii.eqb : simpl never.
#[local] Arguments String.eqb : simpl never.

Module PyStrFacts.

Import PyStr.

Lemma prefix_app (p t : string) : prefix p (p ++ t) = true.
Proof.
  induction p as [|c p IH]; simpl.
  - reflexivity.
  - rewrite Ascii.eqb_refl. exact IH.
Qed.

Lemma prefix_split (p s : string) :
  prefix p s = true -> exists t, s = (p ++ t)%string.
Proof.
  revert s. induction p as [|c p IH]; intros s H.
  - exists s. reflexivity.
  - destruct s as [|d s]; simpl in H; [discriminate|].
    destruct (Ascii.eqb c d) eqn:E; [|discriminate]. simpl in H.
    apply Ascii.eqb_eq in E. subst d.
    destruct (IH s H) as [t ->]. exists t. reflexivity.
Qed.

Lemma append_assoc (a b c : string) : ((a ++ b) ++ c = a ++ (b ++ c))%string.
Proof. induction a; simpl; congruence. Qed.

Lemma str_in_prefix (sub s : string) :
  prefix sub s = true -> str_in sub s = true.
Proof. intros H. destruct s; simpl; rewrite H; reflexivity. Qed.

(** [sub in s] holds exactly when [s] is [pre ++ sub ++ post]. *)
Lemma str_in_split (sub s : string) :
  str_in sub s = true <-> exists pre post, s = (pre ++ sub ++ post)%string.
Proof.
  split.
  - induction s as [|c s IH]; simpl; intros H.
    + apply orb_true_iff in H. destruct H as [H|H]; [|discriminate].
      destruct (prefix_split _ _ H) as [t Ht].
      exists EmptyString, t. exact Ht.
    + apply orb_true_iff in H. destruct H as [H|H].
      * destruct (prefix_split _ _ H) as [t Ht].
        exists EmptyString, t. exact Ht.
      * destruct (IH H) as (pre & post & ->).
        exists (String c pre), post. reflexivity.
  - intros (pre & post & ->).
    induction pre as [|c pre IH]; simpl.
    + apply str_in_prefix, prefix_app.
    + rewrite IH. apply orb_true_r.
Qed.

(** Containment is transitive: a part of a part is a part. *)
Lemma str_in_trans (a b c : string) :
  str_in a b = true -> str_in b c = true -> str_in a c = true.
Proof.
  intros Hab Hbc.
  apply str_in_split in Hab. destruct Hab as (p1 & q1 & ->).
  apply str_in_split in Hbc. destruct Hbc as (p2 & q2 & ->).
  apply str_in_split. exists (p2 ++ p1)%string, (q1 ++ q2)%string.
  rewrite !append_assoc. reflexivity.
Qed.

Lemma str_in_false_suffix (sub : string) (c : ascii) (s : string) :
  str_in sub (String c s) = false -> str_in sub s = false.
Proof. simpl. intros H. apply orb_false_iff in H. tauto. Qed.

Lemma str_in_false_prefix (sub s : string) :
  str_in sub s = false -> prefix sub s = false.
Proof. destruct s; simpl; intros H; apply orb_false_iff in H; tauto. Qed.

Lemma str_in_false_drop (sub : string) (n : nat) (s : string) :
  str_in sub s = false -> str_in sub (drop n s) = false.
Proof.
  revert s. induction n as [|n IH]; intros s H; [exact H|].
  destruct s as [|c s]; [exact H|].
  simpl. apply IH. eapply str_in_false_suffix; eauto.
Qed.

End PyStrFacts.

(* ===================================================================== *)
(** * The discovery filter *)
(* ===================================================================== *)

Module DiscoveryFacts.

Import PyStr PyStrFacts ASTParser.

(** What one pattern does on its own. *)
Lemma skip_single_plain (file_str pattern : string) :
  startswith pattern "*" = false ->
  _should_skip_file file_str [pattern] = str_in pattern file_str.
Proof.
  intros H. cbn [_should_skip_file].
  assert (H' : startswith pattern "*." = false).
  { unfold startswith in *. destruct pattern as [|c p]; simpl in *; [reflexivity|].
    destruct (Ascii.eqb "*" c); simpl in *; [discriminate | reflexivity]. }
  rewrite H', H. destruct (str_in pattern file_str); reflexivity.
Qed.

Lemma skip_single_suffix (file_str pattern : string) :
  startswith pattern "*." = true ->
  _should_skip_file file_str [pattern] = endswith file_str (drop 1 pattern).
Proof.
  intros H. cbn [_should_skip_file]. rewrite H.
  destruct (endswith file_str (drop 1 pattern)); reflexivity.
Qed.

(** The list is a disjunction of its patterns. *)
Lemma skip_iff_some_pattern (file_str : string) (patterns : list string) :
  _should_skip_file file_str patterns = true <->
  exists pattern, In pattern patterns /\ _should_skip_file file_str [pattern] = true.
Proof.
  induction patterns as [|p ps IH].
  - cbn. split; [discriminate | intros (? & [] & _)].
  - split.
    + intros H. cbn [_should_skip_file] in H.
      destruct (_should_skip_file file_str [p]) eqn:E.
      * exists p. split; [left; reflexivity | exact E].
      * cbn [_should_skip_file] in E.
        destruct (startswith p "*.");
          [destruct (endswith file_str (drop 1 p)); [discriminate|]
          |destruct (startswith p "*");
             [destruct (str_in (drop 1 p) file_str); [discriminate|]
             |destruct (str_in p file_str); [discriminate|]]];
          apply IH in H; destruct H as (q & Hq & Hs);
          exists q; (split; [right; exact Hq | exact Hs]).
    + intros (q & [->|Hq] & Hs).
      * cbn [_should_skip_file] in Hs |- *.
        destruct (startswith q "*.");
          [destruct (endswith file_str (drop 1 q)); [reflexivity|discriminate]
          |destruct (startswith q "*");
             [destruct (str_in (drop 1 q) file_str); [reflexivity|discriminate]
             |destruct (str_in q file_str); [reflexivity|discriminate]]].
      * assert (Hr : _should_skip_file file_str ps = true)
          by (apply IH; exists q; split; assumption).
        cbn [_should_skip_file]. rewrite Hr.
        destruct (startswith p "*.");
          [destruct (endswith file_str (drop 1 p)); reflexivity
          |destruct (startswith p "*");
             [destruct (str_in (drop 1 p) file_str); reflexivity
             |destruct (str_in p file_str); reflexivity]].
Qed.

Lemma skip_plain_pattern (file_str : string) (patterns : list string) (pattern : string) :
  In pattern patterns ->
  startswith pattern "*" = false ->
  str_in pattern file_str = true ->
  _should_skip_file file_str patterns = true.
Proof.
  intros Hin Hstar Hsub. apply skip_iff_some_pattern.
  exists pattern. split; [exact Hin|].
  rewrite skip_single_plain; assumption.
Qed.

(** C10.  The discovery filter is a raw substring test: a pattern that
    does not begin with a star excludes every path in which it occurs
    anywhere, a pattern that begins with a star and a dot is a suffix test
    on the whole path, and the list excludes a path as soon as one pattern
    does.  Hence, with the patterns of [parse_project], a path in which
    "bin", "out" or "build" occurs inside a longer name is dropped; so is
    every path that contains "about", since it contains "out". *)
Theorem skip_filter_is_substring_test :
  (forall file_str patterns,
      _should_skip_file file_str patterns = true <->
      exists pattern, In pattern patterns /\ _should_skip_file file_str [pattern] = true)
  /\ (forall file_str pattern,
         startswith pattern "*" = false ->
         _should_skip_file file_str [pattern] = str_in pattern file_str)
  /\ (forall file_str pattern,
         startswith pattern "*." = true ->
         _should_skip_file file_str [pattern] = endswith file_str (drop 1 pattern))
  /\ (forall is_file file_str word,
         In word ["bin"; "out"; "build"] ->
         str_in word file_str = true ->
         discovery_keeps is_file file_str = false)
  /\ (forall is_file file_str,
         str_in "about" file_str = true ->
         discovery_keeps is_file file_str = false).
Proof.
  split; [exact skip_iff_some_pattern|].
  split; [exact skip_single_plain|].
  split; [exact skip_single_suffix|].
  assert (Hword : forall is_file file_str word,
             In word ["bin"; "out"; "build"] ->
             str_in word file_str = true ->
             discovery_keeps is_file file_str = false).
  { intros is_file file_str word Hw Hsub.
    unfold discovery_keeps.
    rewrite (@skip_plain_pattern file_str skip_patterns word).
    - apply andb_false_r.
    - simpl in Hw. unfold skip_patterns.
      destruct Hw as [<-|[<-|[<-|[]]]]; simpl; tauto.
    - simpl in Hw. destruct Hw as [<-|[<-|[<-|[]]]]; reflexivity.
    - exact Hsub. }
  split; [exact Hword|].
  intros is_file file_str Habout.
  apply (Hword is_file file_str "out").
  - simpl. tauto.
  - apply str_in_trans with (b := "about"); [reflexivity | exact Habout].
Qed.

Lemma skip_filter_is_substring_test_witness :
  (str_in "about" "docs/about.md" = true
   /\ discovery_keeps true "docs/about.md" = false)
  /\ (startswith "*.log" "*." = true
      /\ _should_skip_file "run/server.log" ["*.log"]
         = endswith "run/server.log" (drop 1 "*.log"))
  /\ (startswith "dist" "*" = false
      /\ _should_skip_file "src/distance.py" ["dist"] = str_in "dist" "src/distance.py").
Proof.
  split; [split; [reflexivity|]|split; (split; [reflexivity|])].
  - apply (proj2 (proj2 (proj2 (proj2 skip_filter_is_substring_test)))).
    reflexivity.
  - apply (proj1 (proj2 (proj2 skip_filter_is_substring_test))). reflexivity.
  - apply (proj1 (proj2 skip_filter_is_substring_test)). reflexivity.
Defined.

End DiscoveryFacts.

(* ===================================================================== *)
(** * Language detection *)
(* ===================================================================== *)

Module DetectionFacts.

Import PyStr ASTParser.

(** C9.  The specification gives the order "exact file name, then
    extension, then default"; the function tests the extensions first, so
    a manifest the file-name branches list is taken by its extension:
    [package.json], which the file-name branch maps to [npm], is detected
    as [json]; so are [setup.py] as [python], [Cargo.toml] as [toml],
    [pom.xml] as [xml] and [stack.yaml] as [yaml].  A file name with no
    listed extension ([go.mod], [Dockerfile]) reaches its branch. *)
Theorem detection_tests_extension_before_filename (default_language : string) :
  _detect_language_from_file "package.json" default_language = "json"
  /\ _detect_language_from_file "setup.py" default_language = "python"
  /\ _detect_language_from_file "Cargo.toml" default_language = "toml"
  /\ _detect_language_from_file "pom.xml" default_language = "xml"
  /\ _detect_language_from_file "stack.yaml" default_language = "yaml"
  /\ _detect_language_from_file "go.mod" default_language = "go_mod"
  /\ _detect_language_from_file "Dockerfile" default_language = "dockerfile".
Proof. repeat split; vm_compute; reflexivity. Qed.

(** The file-name tests compare the whole path, so a manifest below a
    directory falls through to the default. *)
Lemma detection_filename_needs_bare_name :
  _detect_language_from_file "service/go.mod" "go" = "go".
Proof. vm_compute. reflexivity. Qed.

Lemma str_in_list_one (s x : string) :
  str_in_list s [x] = true -> s = x.
Proof.
  unfold str_in_list. cbn [existsb]. rewrite orb_false_r.
  apply String.eqb_eq.
Qed.

(** The branch for [stack.yaml] can never be taken: whatever the path,
    the result is ["stack"] only when that is the caller's default. *)
Lemma detection_stack_branch_is_dead (file_path default_language : string) :
  _detect_language_from_file file_path default_language = "stack" ->
  default_language = "stack".
Proof.
  unfold _detect_language_from_file.
  generalize (lower file_path). intros l.
  destruct (endswith_any l [".yml"; ".yaml"]) eqn:Hyaml.
  - repeat match goal with
           | |- (if ?b then _ else _) = _ -> _ => destruct b; [discriminate|]
           end.
    discriminate.
  - repeat match goal with
           | |- (if str_in_list l ["stack.yaml"] then _ else _) = _ -> _ => fail 1
           | |- (if ?b then _ else _) = _ -> _ => destruct b; [discriminate|]
           end.
    destruct (str_in_list l ["stack.yaml"]) eqn:Hstack.
    + apply str_in_list_one in Hstack. subst l. vm_compute in Hyaml. discriminate.
    + repeat match goal with
             | |- (if ?b then _ else _) = _ -> _ => destruct b; [discriminate|]
             end.
      intros H. exact H.
Qed.

(** A path that none of the tests recognises yields the default: the
    function is total and its last branch returns [default_language]. *)
Lemma detection_unmatched_is_default (file_path default_language : string) :
  endswith_any (lower file_path) detected_extensions = false ->
  str_in_list (lower file_path) detected_filenames = false ->
  _detect_language_from_file file_path default_language = default_language.
Proof.
  unfold _detect_language_from_file, detected_extensions, detected_filenames.
  generalize (lower file_path). intros l.
  unfold endswith_any, str_in_list. cbn [existsb].
  intros He Hf.
  repeat match goal with
         | H : (_ || _) = false |- _ =>
             apply orb_false_iff in H; destruct H
         end.
  repeat match goal with
         | H : endswith l _ = false |- _ => rewrite H; clear H
         | H : String.eqb l _ = false |- _ => rewrite H; clear H
         end.
  reflexivity.
Qed.

Lemma detection_unmatched_example (default_language : string) :
  _detect_language_from_file "notes/README" default_language = default_language.
Proof. apply detection_unmatched_is_default; vm_compute; reflexivity. Qed.

End DetectionFacts.

(* ===================================================================== *)
(** * The span primitives *)
(* ===================================================================== *)

Module SpanFacts.

Import PyStr PyList ASTParser.

(** ** Lists and indices *)

Lemma skipn_cons_step {A : Type} (l : list A) (n : nat) (x : A) (rest : list A) :
  skipn n l = x :: rest -> skipn (S n) l = rest /\ nth_error l n = Some x.
Proof.
  revert l. induction n as [|n IH]; intros l H.
  - simpl in H. subst l. split; reflexivity.
  - destruct l as [|y l]; [discriminate|]. simpl in H.
    apply IH in H. exact H.
Qed.

Lemma skipn_length_le {A : Type} (l : list A) (n : nat) (x : A) (rest : list A) :
  skipn n l = x :: rest -> (n + S (List.length rest) = List.length l)%nat.
Proof.
  intros H. assert (E := f_equal (@List.length A) H).
  rewrite List.length_skipn in E. simpl in E.
  lia.
Qed.

(** [lines[i]] inside the list. *)
Lemma index_suffix (lines : list string) (i : Z) (l : string) (rest : list string) :
  0 <= i ->
  skipn (Z.to_nat i) lines = l :: rest ->
  index lines i = Ok l.
Proof.
  intros Hi H.
  destruct (skipn_cons_step _ _ H) as [_ Hn].
  assert (Hl := skipn_length_le _ _ H).
  unfold index, len.
  destruct (i <? 0) eqn:E; [apply Z.ltb_lt in E; lia|].
  assert (Hb : (0 <=? i) && (i <? Z.of_nat (List.length lines)) = true).
  { apply andb_true_iff. split; [apply Z.leb_le; lia | apply Z.ltb_lt; lia]. }
  rewrite Hb, Hn. reflexivity.
Qed.

Lemma suffix_next (lines : list string) (i : Z) (l : string) (rest : list string) :
  0 <= i ->
  skipn (Z.to_nat i) lines = l :: rest ->
  skipn (Z.to_nat (i + 1)) lines = rest.
Proof.
  intros Hi H. replace (Z.to_nat (i + 1)) with (S (Z.to_nat i)) by lia.
  apply (skipn_cons_step _ _ H).
Qed.

(** [lines[a:b]] for [0 <= a <= b <= len(lines)]. *)
Lemma slice_inside (lines : list string) (a b : Z) :
  0 <= a -> a <= b -> b <= len lines ->
  slice lines a b = firstn (Z.to_nat (b - a)) (skipn (Z.to_nat a) lines).
Proof.
  intros Ha Hab Hb. unfold slice, clamp.
  destruct (a <? 0) eqn:Ea; [apply Z.ltb_lt in Ea; lia|].
  destruct (b <? 0) eqn:Eb; [apply Z.ltb_lt in Eb; lia|].
  rewrite !Z.min_l by lia. reflexivity.
Qed.

(** ** Running totals *)

Lemma running_zero (ls : list string) : running ls 0 = 0.
Proof. destruct ls; reflexivity. Qed.

Lemma running_cons (l : string) (rest : list string) (j : nat) :
  running (l :: rest) (S j) = brace_delta l + running rest j.
Proof. reflexivity. Qed.

Lemma running_skipn (ls : list string) (p j : nat) :
  (p <= List.length ls)%nat ->
  running ls (p + j) = running ls p + running (skipn p ls) j.
Proof.
  revert ls. induction p as [|p IH]; intros ls Hp.
  - simpl. rewrite running_zero. lia.
  - destruct ls as [|l rest]; [simpl in Hp; lia|].
    simpl in Hp. cbn [Nat.add skipn]. rewrite !running_cons.
    rewrite IH by lia. lia.
Qed.

(** ** The two loops of the brace-balance scan *)

Ltac totals :=
  intros; rewrite ?running_cons, ?running_zero; cbn [List.length] in *; try lia.

(** The first loop, on the lines [ls] that start at index [i]: either no
    line brings the total above zero, and [end_idx] is untouched; or the
    loop leaves at the first line [p] that does, with [end_idx] just
    after it. *)
Lemma opening_scan (lines : list string) :
  forall (ls : list string) (i brace_count end_idx : Z),
    0 <= i ->
    skipn (Z.to_nat i) lines = ls ->
    exists bc' e',
      find_opening_brace lines (List.length ls) i brace_count end_idx = Ok (bc', e')
      /\ ((e' = end_idx
           /\ bc' = brace_count + running ls (List.length ls)
           /\ forall j, (1 <= j <= List.length ls)%nat ->
                        brace_count + running ls j <= 0)
          \/ (exists p, (1 <= p <= List.length ls)%nat
                /\ e' = i + Z.of_nat p
                /\ bc' = brace_count + running ls p
                /\ 0 < bc'
                /\ forall j, (1 <= j < p)%nat -> brace_count + running ls j <= 0)).
Proof.
  induction ls as [|l rest IH]; intros i bc e Hi Hs.
  - exists bc, e. split; [reflexivity|]. left.
    split; [reflexivity|]. split; [totals | totals].
  - cbn [List.length find_opening_brace].
    rewrite (index_suffix _ Hi Hs). cbn [bind].
    destruct (0 <? bc + brace_delta l) eqn:E.
    + apply Z.ltb_lt in E.
      exists (bc + brace_delta l), (i + 1). split; [reflexivity|]. right.
      exists 1%nat.
      split; [totals|]. split; [totals|]. split; [totals|]. split; [totals|].
      totals.
    + apply Z.ltb_ge in E.
      destruct (IH (i + 1) (bc + brace_delta l) e ltac:(lia) (suffix_next _ Hi Hs))
        as (bc' & e' & Hrun & Hcase).
      exists bc', e'. split; [exact Hrun|].
      destruct Hcase as [(He & Hbc & Hall) | (p & Hp & He & Hbc & Hpos & Hbefore)].
      * left. split; [exact He|]. split; [totals|].
        intros j Hj. destruct j as [|[|j]]; [lia | totals |].
        specialize (Hall (S j) ltac:(cbn [List.length] in Hj; lia)). totals.
      * right. exists (S p).
        split; [totals|]. split; [totals|]. split; [totals|]. split; [totals|].
        intros j Hj. destruct j as [|[|j]]; [lia | totals |].
        specialize (Hbefore (S j) ltac:(lia)). totals.
Qed.

(** The second loop, likewise, leaves at the first line that brings the
    total back to zero or below. *)
Lemma closing_scan (lines : list string) :
  forall (ls : list string) (i brace_count end_idx : Z),
    0 <= i ->
    skipn (Z.to_nat i) lines = ls ->
    exists bc' e',
      find_closing_brace lines (List.length ls) i brace_count end_idx = Ok (bc', e')
      /\ ((e' = end_idx
           /\ forall j, (1 <= j <= List.length ls)%nat ->
                        0 < brace_count + running ls j)
          \/ (exists q, (1 <= q <= List.length ls)%nat
                /\ e' = i + Z.of_nat q
                /\ brace_count + running ls q <= 0
                /\ forall j, (1 <= j < q)%nat -> 0 < brace_count + running ls j)).
Proof.
  induction ls as [|l rest IH]; intros i bc e Hi Hs.
  - exists bc, e. split; [reflexivity|]. left.
    split; [reflexivity | totals].
  - cbn [List.length find_closing_brace].
    rewrite (index_suffix _ Hi Hs). cbn [bind].
    destruct (bc + brace_delta l <=? 0) eqn:E.
    + apply Z.leb_le in E.
      exists (bc + brace_delta l), (i + 1). split; [reflexivity|]. right.
      exists 1%nat.
      split; [totals|]. split; [totals|]. split; [totals|].
      totals.
    + apply Z.leb_gt in E.
      destruct (IH (i + 1) (bc + brace_delta l) e ltac:(lia) (suffix_next _ Hi Hs))
        as (bc' & e' & Hrun & Hcase).
      exists bc', e'. split; [exact Hrun|].
      destruct Hcase as [(He & Hall) | (q & Hq & He & Hle & Hbefore)].
      * left. split; [exact He|].
        intros j Hj. destruct j as [|[|j]]; [lia | totals |].
        specialize (Hall (S j) ltac:(cbn [List.length] in Hj; lia)). totals.
      * right. exists (S q).
        split; [totals|]. split; [totals|]. split; [totals|].
        intros j Hj. destruct j as [|[|j]]; [lia | totals |].
        specialize (Hbefore (S j) ltac:(lia)). totals.
Qed.

Lemma suffix_length (lines : list string) (s : Z) :
  0 <= s <= len lines ->
  range_len s (len lines) = List.length (skipn (Z.to_nat s) lines).
Proof.
  intros Hs. unfold range_len, len in *. rewrite List.length_skipn. lia.
Qed.

Lemma suffix_of_suffix (lines : list string) (s : Z) (p : nat) :
  0 <= s ->
  skipn (Z.to_nat (s + Z.of_nat p)) lines = skipn p (skipn (Z.to_nat s) lines).
Proof.
  intros Hs. rewrite List.skipn_skipn. f_equal. lia.
Qed.

(** ** The brace-balance scan on a valid start line *)

(** What [_extract_code_block] returns, case by case, in terms of the
    running total over [ls], the lines from the declaration line on:
    - no line brings the total above zero: the declaration line alone;
    - line [p] is the first to bring it above zero and no later line
      brings it back: the lines through [p];
    - line [p] is the first to bring it above zero and line [q] the first
      after [p] to bring it back to zero or below: the lines through [q]. *)
Lemma extract_code_block_cases (lines : list string) (start_line : Z) (content : string) :
  1 <= start_line <= len lines ->
  let ls := skipn (Z.to_nat (start_line - 1)) lines in
  ((forall j, (1 <= j <= List.length ls)%nat -> running ls j <= 0)
   /\ _extract_code_block lines start_line content = Ok (join nl (firstn 1 ls)))
  \/ (exists p, (1 <= p <= List.length ls)%nat
        /\ 0 < running ls p
        /\ (forall j, (1 <= j < p)%nat -> running ls j <= 0)
        /\ (forall j, (p < j <= List.length ls)%nat -> 0 < running ls j)
        /\ _extract_code_block lines start_line content = Ok (join nl (firstn p ls)))
  \/ (exists p q, (1 <= p < q)%nat /\ (q <= List.length ls)%nat
        /\ 0 < running ls p
        /\ (forall j, (1 <= j < p)%nat -> running ls j <= 0)
        /\ running ls q <= 0
        /\ (forall j, (p < j < q)%nat -> 0 < running ls j)
        /\ _extract_code_block lines start_line content = Ok (join nl (firstn q ls))).
Proof.
  intros Hvalid ls.
  set (s := start_line - 1).
  assert (Hs : 0 <= s <= len lines) by (unfold s; lia).
  assert (Hlen : range_len s (len lines) = List.length ls)
    by (apply suffix_length; exact Hs).
  assert (Hne : (1 <= List.length ls)%nat).
  { rewrite <- Hlen. unfold range_len, s. lia. }
  assert (Hlsz : Z.of_nat (List.length ls) = len lines - s).
  { rewrite <- Hlen. unfold range_len. lia. }
  unfold _extract_code_block. fold s. rewrite Hlen.
  destruct (@opening_scan lines ls s 0 s (proj1 Hs) eq_refl)
    as (bc1 & e1 & Hopen & Hcase1).
  rewrite Hopen. cbn [bind].
  destruct Hcase1 as [(He1 & Hbc1 & Hall) | (p & Hp & He1 & Hbc1 & Hpos & Hbefore)].
  - (* no opening line *)
    subst e1. rewrite Hlen.
    destruct (@closing_scan lines ls s bc1 s (proj1 Hs) eq_refl)
      as (bc2 & e2 & Hclose & Hcase2).
    rewrite Hclose. cbn [bind try_except].
    assert (H1 := Hall 1%nat ltac:(lia)).
    assert (Hn := Hall (List.length ls) ltac:(lia)).
    left. split; [intros j Hj; specialize (Hall j Hj); lia|].
    destruct Hcase2 as [(_ & Hopen2) | (q & Hq & He2 & _ & Hbefore2)].
    + specialize (Hopen2 1%nat ltac:(lia)). lia.
    + assert (q = 1)%nat.
      { destruct (Nat.eq_dec q 1) as [|Hq1]; [assumption|].
        specialize (Hbefore2 1%nat ltac:(lia)). lia. }
      subst q e2. rewrite slice_inside by lia.
      replace (Z.to_nat (s + Z.of_nat 1 - s)) with 1%nat by lia. reflexivity.
  - (* an opening line at p *)
    assert (Hs2 : skipn (Z.to_nat e1) lines = skipn p ls).
    { subst e1. apply suffix_of_suffix. lia. }
    assert (Hlen2 : range_len e1 (len lines) = List.length (skipn p ls)).
    { rewrite <- Hs2. apply suffix_length. lia. }
    rewrite Hlen2.
    destruct (@closing_scan lines (skipn p ls) e1 bc1 e1 ltac:(lia) Hs2)
      as (bc2 & e2 & Hclose & Hcase2).
    rewrite Hclose. cbn [bind try_except].
    assert (Hrest : List.length (skipn p ls) = (List.length ls - p)%nat)
      by apply List.length_skipn.
    right.
    destruct Hcase2 as [(He2 & Hopen2) | (q & Hq & He2 & Hle & Hbefore2)].
    + left. exists p.
      split; [exact Hp|]. split; [lia|].
      split; [intros j Hj; specialize (Hbefore j Hj); lia|].
      split.
      * intros j Hj. specialize (Hopen2 (j - p)%nat ltac:(lia)).
        replace j with (p + (j - p))%nat by lia.
        rewrite running_skipn by lia. lia.
      * subst e2 e1. rewrite slice_inside by lia.
        replace (Z.to_nat (s + Z.of_nat p - s)) with p by lia. reflexivity.
    + right. exists p, (p + q)%nat.
      split; [lia|]. split; [lia|]. split; [lia|].
      split; [intros j Hj; specialize (Hbefore j Hj); lia|].
      split; [rewrite running_skipn by lia; lia|].
      split.
      * intros j Hj. specialize (Hbefore2 (j - p)%nat ltac:(lia)).
        replace j with (p + (j - p))%nat by lia.
        rewrite running_skipn by lia. lia.
      * subst e2 e1. rewrite slice_inside by lia.
        replace (Z.to_nat (s + Z.of_nat p + Z.of_nat q - s)) with (p + q)%nat by lia.
        reflexivity.
Qed.

(** C6.  On every list of lines and every valid 1-based start line the
    brace-balance scan returns (it is a total function and does not
    raise), and what it returns is a span of [k] lines that starts at the
    declaration line, with [k] at least one and at most the number of
    lines from the declaration line to the end of the file.  This covers
    a declaration with no opening brace and a brace that is never
    closed. *)
Theorem extract_code_block_span_bounded
    (lines : list string) (start_line : Z) (content : string) :
  1 <= start_line <= len lines ->
  exists k : nat,
    (1 <= k)%nat
    /\ Z.of_nat k <= len lines - (start_line - 1)
    /\ _extract_code_block lines start_line content
       = Ok (join nl (firstn k (skipn (Z.to_nat (start_line - 1)) lines))).
Proof.
  intros Hvalid.
  assert (Hlsz : Z.of_nat (List.length (skipn (Z.to_nat (start_line - 1)) lines))
                 = len lines - (start_line - 1)).
  { rewrite List.length_skipn. unfold len in *. lia. }
  destruct (@extract_code_block_cases lines start_line content Hvalid)
    as [(_ & Hr) | [(p & Hp & _ & _ & _ & Hr) | (p & q & Hpq & Hq & _ & _ & _ & _ & Hr)]].
  - exists 1%nat. split; [lia|]. split; [lia | exact Hr].
  - exists p. split; [lia|]. split; [lia | exact Hr].
  - exists q. split; [lia|]. split; [lia | exact Hr].
Qed.

Lemma extract_code_block_span_bounded_witness :
  1 <= 1 <= len ["void f();"; "int x;"]
  /\ exists k : nat,
      (1 <= k)%nat
      /\ Z.of_nat k <= len ["void f();"; "int x;"] - (1 - 1)
      /\ _extract_code_block ["void f();"; "int x;"] 1 EmptyString
         = Ok (join nl (firstn k (skipn (Z.to_nat (1 - 1)) ["void f();"; "int x;"]))).
Proof.
  assert (H : 1 <= 1 <= len ["void f();"; "int x;"]) by (vm_compute; split; discriminate).
  split; [exact H|].
  exact (@extract_code_block_span_bounded ["void f();"; "int x;"] 1 EmptyString H).
Defined.

(** The first half of C5 holds: when line [p] is the first whose running
    total is above zero and line [q] the first after it whose running
    total is back to zero or below, the scan returns exactly the lines
    from the declaration line through line [q]. *)
Lemma extract_code_block_balanced
    (lines : list string) (start_line : Z) (content : string) (p q : nat) :
  1 <= start_line <= len lines ->
  let ls := skipn (Z.to_nat (start_line - 1)) lines in
  (1 <= p < q)%nat -> (q <= List.length ls)%nat ->
  0 < running ls p ->
  (forall j, (1 <= j < p)%nat -> running ls j <= 0) ->
  running ls q <= 0 ->
  (forall j, (p < j < q)%nat -> 0 < running ls j) ->
  _extract_code_block lines start_line content = Ok (join nl (firstn q ls)).
Proof.
  intros Hvalid ls Hpq Hq Hpos Hbefore Hle Hbetween.
  pose proof (@extract_code_block_cases lines start_line content Hvalid) as Hcases.
  cbv zeta in Hcases. fold ls in Hcases.
  destruct Hcases
    as [(Hall & _) | [(p' & Hp' & Hpos' & Hbefore' & Hafter' & _)
                     | (p' & q' & Hpq' & Hq' & Hpos' & Hbefore' & Hle' & Hbetween' & Hr)]].
  - specialize (Hall p ltac:(lia)). lia.
  - assert (p' = p).
    { destruct (Nat.lt_trichotomy p' p) as [Hlt|[Heq|Hgt]]; [|exact Heq|].
      - specialize (Hbefore p' ltac:(lia)). lia.
      - specialize (Hbefore' p ltac:(lia)). lia. }
    subst p'. specialize (Hafter' q ltac:(lia)). lia.
  - assert (p' = p).
    { destruct (Nat.lt_trichotomy p' p) as [Hlt|[Heq|Hgt]]; [|exact Heq|].
      - specialize (Hbefore p' ltac:(lia)). lia.
      - specialize (Hbefore' p ltac:(lia)). lia. }
    subst p'.
    assert (q' = q).
    { destruct (Nat.lt_trichotomy q' q) as [Hlt|[Heq|Hgt]]; [|exact Heq|].
      - specialize (Hbetween q' ltac:(lia)). lia.
      - specialize (Hbetween' q ltac:(lia)). lia. }
    subst q'. exact Hr.
Qed.

(** The example of the specification: a three-line method at line 3. *)
Lemma extract_code_block_three_lines :
  _extract_code_block
    ["package p;"; EmptyString; "public void f() {"; "  x();"; "}"; "int y;"] 3 EmptyString
  = Ok (join nl ["public void f() {"; "  x();"; "}"]).
Proof. vm_compute. reflexivity. Qed.

(** C5.  The specification says that a declaration line that opens and
    closes its block gives a span of that line alone.  The scan adds the
    net count of each line, which is zero for such a line, so the first
    loop goes on to the next line that opens a block and the span takes
    that block along: here the one-line getter at line 2 comes back with
    the whole of the setter that follows it.  The sibling
    [_extract_cmake_command], which has a single loop, stops at a one-line
    command. *)
Theorem extract_code_block_one_line_body_runs_on :
  _extract_code_block
    ["public class A {";
     "  public int getX() { return x; }";
     "  public void setX(int v) {";
     "    x = v;";
     "  }";
     "}"] 2 EmptyString
  = Ok (join nl ["  public int getX() { return x; }";
                 "  public void setX(int v) {";
                 "    x = v;";
                 "  }"])
  /\ _extract_code_block
       ["public class A {";
        "  public int getX() { return x; }";
        "  public void setX(int v) {";
        "    x = v;";
        "  }";
        "}"] 2 EmptyString
     <> Ok "  public int getX() { return x; }"
  /\ _extract_cmake_command
       ["add_library(a b)"; "target_link_libraries(a"; "  c)"] 1 EmptyString
     = Ok "add_library(a b)".
Proof.
  split; [vm_compute; reflexivity|].
  split; [vm_compute; discriminate | vm_compute; reflexivity].
Qed.

(** A one-line body comes back alone only when no later line opens a
    block. *)
Lemma extract_code_block_one_line_body_alone
    (lines : list string) (start_line : Z) (content : string) :
  1 <= start_line <= len lines ->
  let ls := skipn (Z.to_nat (start_line - 1)) lines in
  (forall j, (1 <= j <= List.length ls)%nat -> running ls j <= 0) ->
  _extract_code_block lines start_line content = Ok (join nl (firstn 1 ls)).
Proof.
  intros Hvalid ls Hall.
  pose proof (@extract_code_block_cases lines start_line content Hvalid) as Hcases.
  cbv zeta in Hcases. fold ls in Hcases.
  destruct Hcases
    as [(_ & Hr) | [(p & Hp & Hpos & _) | (p & q & Hpq & Hq & Hpos & _)]].
  - exact Hr.
  - specialize (Hall p ltac:(lia)). lia.
  - specialize (Hall p ltac:(lia)). lia.
Qed.

(** ** The bounded multi-line statement scan *)

Lemma join_cons (x y : string) (rest : list string) :
  join nl (x :: y :: rest) = (x ++ nl ++ join nl (y :: rest))%string.
Proof. reflexivity. Qed.







Lemma variable_declaration_stops_one_line_short :
  _extract_variable_declaration
    ["String q ="; "  a +"; "  b +"; "  c +"; "  d +"; "  e;"] 1 EmptyString
  = Ok (join nl ["String q ="; "  a +"; "  b +"; "  c +"; "  d +"]).
Proof. vm_compute. reflexivity. Qed.

End SpanFacts.

(* ===================================================================== *)
(** * The per-language extractors *)
(* ===================================================================== *)

Module ExtractorFacts.

Import PyStr ASTParser.

Section WithCollaborators.

Context {collaborators : Collaborators}.

Lemma guarded_ok (r : StructuralRecord) : guarded (Ok r) = Ok (Some r).
Proof. reflexivity. Qed.

Lemma guarded_raise (e : exn) : guarded (Raise e) = Ok None.
Proof. reflexivity. Qed.

(** A guarded block never raises. *)
Lemma guarded_total (body : result StructuralRecord) :
  exists o, guarded body = Ok o.
Proof. destruct body; eexists; reflexivity. Qed.

(** [extract] is its [try] block under the handler that returns [None]. *)
Lemma extract_is_guarded (actual_language file_path content : string) :
  extract actual_language file_path content
  = guarded (try_block actual_language file_path content).
Proof.
  unfold extract, try_block.
  repeat match goal with
         | |- (if ?b then _ else _) = _ => destruct b; [reflexivity|]
         end.
  reflexivity.
Qed.

(** Every [try] block that returns hands the text over untouched. *)
Lemma python_block_verbatim (file_path content : string) (r : StructuralRecord) :
  python_block file_path content = Ok r -> full_source_code r = content.
Proof.
  unfold python_block. destruct (ast_parse content); [|discriminate].
  cbn [bind]. destruct (python_members content a); [|discriminate].
  cbn [bind]. intros H. injection H as <-. reflexivity.
Qed.

Lemma heuristic_block_verbatim (language file_path content : string) (r : StructuralRecord) :
  heuristic_block language file_path content = Ok r -> full_source_code r = content.
Proof.
  unfold heuristic_block.
  destruct (classify_lines language (split nl_char content) content); [|discriminate].
  cbn [bind]. intros H. injection H as <-. reflexivity.
Qed.

Lemma json_block_verbatim (file_path content : string) (r : StructuralRecord) :
  json_block file_path content = Ok r -> full_source_code r = content.
Proof.
  unfold json_block. destruct (json_root content); [|discriminate].
  cbn [bind]. intros H. injection H as <-. reflexivity.
Qed.

Lemma yaml_block_verbatim (file_path content : string) (r : StructuralRecord) :
  yaml_block file_path content = Ok r -> full_source_code r = content.
Proof.
  unfold yaml_block.
  destruct (yaml_entries 1 (split nl_char content)).
  intros H. injection H as <-. reflexivity.
Qed.

Lemma generic_block_verbatim (file_path content language : string) (r : StructuralRecord) :
  generic_block file_path content language = Ok r -> full_source_code r = content.
Proof.
  unfold generic_block.
  destruct (generic_statements 1 (split nl_char content)).
  intros H. injection H as <-. reflexivity.
Qed.

Lemma try_block_verbatim (actual_language file_path content : string) (r : StructuralRecord) :
  try_block actual_language file_path content = Ok r -> full_source_code r = content.
Proof.
  unfold try_block.
  repeat match goal with
         | |- (if ?b then _ else _) = _ -> _ =>
             destruct b;
             [ first [ apply python_block_verbatim
                     | apply heuristic_block_verbatim
                     | apply json_block_verbatim
                     | apply yaml_block_verbatim ] |]
         end.
  apply generic_block_verbatim.
Qed.

(** A record that [extract] returns is the record of its [try] block. *)
Lemma extract_returns_block_record
    (actual_language file_path content : string) (r : StructuralRecord) :
  extract actual_language file_path content = Ok (Some r) ->
  try_block actual_language file_path content = Ok r.
Proof.
  rewrite extract_is_guarded.
  destruct (try_block actual_language file_path content) as [r'|e].
  - rewrite guarded_ok. intros H. injection H as <-. reflexivity.
  - rewrite guarded_raise. discriminate.
Qed.

(** C1.  Whatever the language and the extractor that [parse_file]
    selects for it, a Structural Record that comes back carries in
    [full_source_code] exactly the text that was handed to the
    extractor. *)
Theorem full_source_code_is_the_input
    (actual_language file_path content : string) (r : StructuralRecord) :
  extract actual_language file_path content = Ok (Some r) ->
  full_source_code r = content.
Proof.
  intros H. apply extract_returns_block_record in H.
  exact (try_block_verbatim _ _ _ H).
Qed.

(** The same through [parse_file]: the text of the record is the text
    that was read from the file. *)
Lemma parse_file_keeps_the_text_read (file_path language : string) (r : StructuralRecord) :
  parse_file file_path language = Ok (Some r) ->
  read_text file_path = Ok (full_source_code r).
Proof.
  unfold parse_file.
  destruct (getsize file_path) as [size|]; [|discriminate]. cbn [bind].
  destruct (MAX_FILE_SIZE_MB * 1024 * 1024 <? size); [discriminate|].
  destruct (read_text file_path) as [content|]; [|discriminate]. cbn [bind].
  destruct (extract (_detect_language_from_file file_path language) file_path content)
    as [o|] eqn:E; [|discriminate].
  cbn [try_except]. intros H. injection H as ->.
  apply extract_returns_block_record in E.
  rewrite (try_block_verbatim _ _ _ E). reflexivity.
Qed.

(** C2, as amended.  For every language and every text the extractor
    returns and does not raise; when its [try] block fails, what it
    returns is [None], not a record; when the block succeeds, it returns
    the block's record, which carries the verbatim text. *)
Theorem extractor_failure_yields_none
    (actual_language file_path content : string) :
  (exists o, extract actual_language file_path content = Ok o)
  /\ (forall e, try_block actual_language file_path content = Raise e ->
        extract actual_language file_path content = Ok None)
  /\ (forall r, try_block actual_language file_path content = Ok r ->
        extract actual_language file_path content = Ok (Some r)
        /\ full_source_code r = content).
Proof.
  rewrite extract_is_guarded.
  split; [apply guarded_total|].
  split.
  - intros e ->. apply guarded_raise.
  - intros r Hr. rewrite Hr. split; [apply guarded_ok|].
    exact (try_block_verbatim _ _ _ Hr).
Qed.

(** [parse_file] never raises either: a file that cannot be read, or
    whose extractor fails, gives [None]. *)
Lemma parse_file_total (file_path language : string) :
  exists o, parse_file file_path language = Ok o.
Proof.
  unfold parse_file.
  destruct (getsize file_path) as [size|]; [|eexists; reflexivity]. cbn [bind].
  destruct (MAX_FILE_SIZE_MB * 1024 * 1024 <? size); [eexists; reflexivity|].
  destruct (read_text file_path) as [content|]; [|eexists; reflexivity]. cbn [bind].
  rewrite extract_is_guarded.
  destruct (guarded_total
              (try_block (_detect_language_from_file file_path language)
                 file_path content)) as [o Ho].
  rewrite Ho. eexists; reflexivity.
Qed.

(** Whatever CPython's grammar says, a text that [ast.parse] refuses makes
    the Python extractor return [None]. *)
Lemma python_refused_text_yields_none (file_path content : string) (e : exn) :
  ast_parse content = Raise e ->
  _parse_python_file file_path content = Ok None.
Proof.
  intros H. unfold _parse_python_file, python_block. rewrite H. reflexivity.
Qed.

End WithCollaborators.

Lemma full_source_code_is_the_input_witness :
  exists r,
    @extract plain_collaborators "kotlin" "Main.kt" "fun main() {}" = Ok (Some r)
    /\ full_source_code r = "fun main() {}".
Proof.
  eexists. split; [vm_compute; reflexivity|].
  apply (@full_source_code_is_the_input plain_collaborators "kotlin" "Main.kt").
  vm_compute. reflexivity.
Defined.

Lemma extractor_failure_yields_none_witness :
  @try_block plain_collaborators "python" "bad.py" nul_text = Raise ValueError
  /\ @extract plain_collaborators "python" "bad.py" nul_text = Ok None.
Proof.
  assert (H : @try_block plain_collaborators "python" "bad.py" nul_text = Raise ValueError)
    by (vm_compute; reflexivity).
  split; [exact H|].
  exact (proj1 (proj2 (@extractor_failure_yields_none plain_collaborators
                         "python" "bad.py" nul_text)) ValueError H).
Defined.

(** C2, as stated, fails: on a Python text with a null character, which
    [ast.parse] refuses, no record comes back, whatever the grammar and
    the other collaborators are. *)
Lemma python_failure_returns_no_record :
  ~ exists (c : Collaborators),
      @degrades_to_empty_record c "python" "bad.py" nul_text.
Proof.
  intros (c & r & Hr & _).
  change (@extract c "python" "bad.py" nul_text)
    with (@_parse_python_file c "bad.py" nul_text) in Hr.
  rewrite (@python_refused_text_yields_none c "bad.py" nul_text ValueError) in Hr.
  - discriminate.
  - reflexivity.
Qed.

End ExtractorFacts.

(* ===================================================================== *)
(** * Facts about the matcher *)
(* ===================================================================== *)

Module RegexFacts.

Import PyStr PyStrFacts Regex.

Lemma is_suffix_refl (s : string) : is_suffix s s.
Proof. exists EmptyString. reflexivity. Qed.

Lemma is_suffix_trans (a b c : string) :
  is_suffix a b -> is_suffix b c -> is_suffix a c.
Proof.
  intros [p ->] [q ->]. exists (q ++ p)%string.
  rewrite append_assoc. reflexivity.
Qed.

Lemma is_suffix_tail (c : ascii) (s : string) : is_suffix s (String c s).
Proof. exists (String c EmptyString). reflexivity. Qed.

Lemma str_in_suffix (w t s : string) :
  is_suffix t s -> str_in w t = true -> str_in w s = true.
Proof.
  intros [pre ->] H. apply str_in_split in H. destruct H as (a & b & ->).
  apply str_in_split. exists (pre ++ a)%string, b.
  rewrite append_assoc. reflexivity.
Qed.



(** The matcher hands to its continuation only what is left of the
    text. *)
Lemma greedy_loop_continues
    (step : string -> captures -> continuation -> outcome) :
  (forall s caps k x, step s caps k = Some x ->
     exists s' caps', is_suffix s' s /\ k s' caps' = Some x) ->
  forall n k s caps x,
    greedy_loop step k n s caps = Some x ->
    exists s' caps', is_suffix s' s /\ k s' caps' = Some x.
Proof.
  intros Hstep. induction n as [|n IH]; intros k s caps x H.
  - exists s, caps. split; [apply is_suffix_refl | exact H].
  - cbn [greedy_loop] in H.
    match type of H with
    | match ?m with _ => _ end = _ => destruct m as [y|] eqn:E
    end.
    + injection H as ->.
      destruct (Hstep _ _ _ _ E) as (s1 & c1 & Hs1 & Hk).
      destruct (String.length s1 <? String.length s)%nat; [|discriminate].
      destruct (IH _ _ _ _ Hk) as (s2 & c2 & Hs2 & Hk2).
      exists s2, c2. split; [eapply is_suffix_trans; eassumption | exact Hk2].
    + exists s, caps. split; [apply is_suffix_refl | exact H].
Qed.

Lemma lazy_loop_continues
    (step : string -> captures -> continuation -> outcome) :
  (forall s caps k x, step s caps k = Some x ->
     exists s' caps', is_suffix s' s /\ k s' caps' = Some x) ->
  forall n k s caps x,
    lazy_loop step k n s caps = Some x ->
    exists s' caps', is_suffix s' s /\ k s' caps' = Some x.
Proof.
  intros Hstep. induction n as [|n IH]; intros k s caps x H.
  - exists s, caps. split; [apply is_suffix_refl | exact H].
  - cbn [lazy_loop] in H.
    destruct (k s caps) as [y|] eqn:E.
    + injection H as ->.
      exists s, caps. split; [apply is_suffix_refl | exact E].
    + destruct (Hstep _ _ _ _ H) as (s1 & c1 & Hs1 & Hk).
      destruct (String.length s1 <? String.length s)%nat; [|discriminate].
      destruct (IH _ _ _ _ Hk) as (s2 & c2 & Hs2 & Hk2).
      exists s2, c2. split; [eapply is_suffix_trans; eassumption | exact Hk2].
Qed.

Lemma rmatch_continues (r : regex) :
  forall s caps k x,
    rmatch r s caps k = Some x ->
    exists s' caps', is_suffix s' s /\ k s' caps' = Some x.
Proof.
  induction r as [|p|a IHa b IHb|a IHa b IHb|a IHa|a IHa|n a IHa];
    intros s caps k x H; cbn [rmatch] in H.
  - exists s, caps. split; [apply is_suffix_refl | exact H].
  - destruct s as [|c s]; [discriminate|].
    destruct (p c); [|discriminate].
    exists s, caps. split; [apply is_suffix_tail | exact H].
  - destruct (IHa _ _ _ _ H) as (s1 & c1 & Hs1 & H1).
    destruct (IHb _ _ _ _ H1) as (s2 & c2 & Hs2 & H2).
    exists s2, c2. split; [eapply is_suffix_trans; eassumption | exact H2].
  - destruct (rmatch a s caps k) as [y|] eqn:E.
    + injection H as ->. exact (IHa _ _ _ _ E).
    + exact (IHb _ _ _ _ H).
  - exact (@greedy_loop_continues (rmatch a) IHa _ _ _ _ _ H).
  - exact (@lazy_loop_continues (rmatch a) IHa _ _ _ _ _ H).
  - destruct (IHa _ _ _ _ H) as (s1 & c1 & Hs1 & H1).
    eexists _, _. split; [exact Hs1 | exact H1].
Qed.







End RegexFacts.

(* ===================================================================== *)
(** * The JSON decoder *)
(* ===================================================================== *)

Module JsonFacts.
Import PyStr Json.
Local Open Scope nat_scope.

Lemma skip_ws_length (s : string) : String.length (skip_ws s) <= String.length s.
Proof. induction s as [|c s IH]; simpl; [lia|]. destruct (is_ws c); simpl; lia. Qed.

Lemma hex4_length (s : string) (n : N) (r : string) :
  hex4 s = Some (n, r) -> String.length s = 4 + String.length r.
Proof.
  unfold hex4. destruct s as [|a [|b [|c [|d rest]]]]; try discriminate.
  destruct (hex_value a), (hex_value b), (hex_value c), (hex_value d); try discriminate.
  intros H; injection H as _ <-. reflexivity.
Qed.

Lemma scanstring_consumes (fuel : nat) :
  forall s t r, scanstring fuel s = Ok (t, r) -> String.length r < String.length s.
Proof.
  induction fuel as [|fuel IH]; intros s t r H; [discriminate|].
  cbn [scanstring] in H.
  destruct s as [|c s']; [discriminate|].
  destruct (Ascii.eqb c "034").
  { injection H as _ <-. simpl. lia. }
  destruct (Ascii.eqb c "\").
  - destruct s' as [|e s'']; [discriminate|].
    destruct (Ascii.eqb e "u").
    + destruct (hex4 s'') as [[uni rest]|] eqn:Hh; [|discriminate].
      apply hex4_length in Hh.
      match type of H with
      | match ?j with _ => _ end = _ => destruct j as [[cp rest']|] eqn:Hj; [|discriminate]
      end.
      assert (String.length rest' <= String.length rest) as Hle.
      { destruct ((55296 <=? uni)%N && (uni <=? 56319)%N);
          [|injection Hj as _ <-; lia].
        destruct rest as [|b1 [|b2 rest2]]; try (injection Hj as _ <-; lia).
        destruct (Ascii.eqb b1 "\" && Ascii.eqb b2 "u"); [|injection Hj as _ <-; lia].
        destruct (hex4 rest2) as [[uni2 rest3]|] eqn:Hh2; [|discriminate].
        apply hex4_length in Hh2.
        destruct ((56320 <=? uni2)%N && (uni2 <=? 57343)%N);
          injection Hj as _ <-; simpl; lia. }
      destruct (scanstring fuel rest') as [[t' r']|] eqn:Hs; [|discriminate].
      injection H as _ <-. apply IH in Hs. simpl. lia.
    + destruct (simple_escape e); [|discriminate].
      destruct (scanstring fuel s'') as [[t' r']|] eqn:Hs; [|discriminate].
      injection H as _ <-. apply IH in Hs. simpl. lia.
  - destruct (N_of_ascii c <? 32)%N; [discriminate|].
    destruct (scanstring fuel s') as [[t' r']|] eqn:Hs; [|discriminate].
    injection H as _ <-. apply IH in Hs. simpl. lia.
Qed.

Lemma scanstring_has_fuel (fuel : nat) :
  forall s, String.length s < fuel -> scanstring fuel s <> Raise RecursionError.
Proof.
  induction fuel as [|fuel IH]; intros s Hlen; [lia|].
  cbn [scanstring].
  destruct s as [|c s']; [discriminate|].
  simpl in Hlen.
  destruct (Ascii.eqb c "034"); [discriminate|].
  destruct (Ascii.eqb c "\").
  - destruct s' as [|e s'']; [discriminate|].
    simpl in Hlen.
    destruct (Ascii.eqb e "u").
    + destruct (hex4 s'') as [[uni rest]|] eqn:Hh; [|discriminate].
      apply hex4_length in Hh.
      match goal with
      | |- match ?j with _ => _ end <> _ => destruct j as [[cp rest']|e'] eqn:Hj
      end.
      * assert (String.length rest' <= String.length rest) as Hle.
        { destruct ((55296 <=? uni)%N && (uni <=? 56319)%N);
            [|injection Hj as _ <-; lia].
          destruct rest as [|b1 [|b2 rest2]]; try (injection Hj as _ <-; lia).
          destruct (Ascii.eqb b1 "\" && Ascii.eqb b2 "u"); [|injection Hj as _ <-; lia].
          destruct (hex4 rest2) as [[uni2 rest3]|] eqn:Hh2; [|discriminate].
          apply hex4_length in Hh2.
          destruct ((56320 <=? uni2)%N && (uni2 <=? 57343)%N);
            injection Hj as _ <-; simpl; lia. }
        specialize (IH rest' ltac:(lia)).
        destruct (scanstring fuel rest') as [[t' r']|e2]; [discriminate|].
        intros Heq; apply IH; congruence.
      * destruct ((55296 <=? uni)%N && (uni <=? 56319)%N); [|discriminate].
        destruct rest as [|b1 [|b2 rest2]]; try discriminate.
        destruct (Ascii.eqb b1 "\" && Ascii.eqb b2 "u"); [|discriminate].
        destruct (hex4 rest2) as [[uni2 rest3]|]; [|injection Hj as <-; discriminate].
        destruct ((56320 <=? uni2)%N && (uni2 <=? 57343)%N); discriminate.
    + destruct (simple_escape e); [|discriminate].
      specialize (IH s'' ltac:(lia)).
      destruct (scanstring fuel s'') as [[t' r']|e2]; [discriminate|].
      intros Heq; apply IH; congruence.
  - destruct (N_of_ascii c <? 32)%N; [discriminate|].
    specialize (IH s' ltac:(lia)).
    destruct (scanstring fuel s') as [[t' r']|e2]; [discriminate|].
    intros Heq; apply IH; congruence.
Qed.


Lemma span_digits_length (s : string) :
  forall d r, span_digits s = (d, r) -> String.length r <= String.length s.
Proof.
  induction s as [|c s IH]; intros d r H; simpl in H.
  - injection H as _ <-. simpl; lia.
  - destruct (isdigit c).
    + destruct (span_digits s) as [d' r'] eqn:Hs. injection H as _ <-.
      specialize (IH _ _ eq_refl). simpl; lia.
    + injection H as _ <-. simpl; lia.
Qed.

Lemma match_number_consumes (s lexeme r : string) :
  match_number s = Some (lexeme, r) -> String.length r < String.length s.
Proof.
  unfold match_number.
  set (signed := match s with
                 | String c s' => if Ascii.eqb c "-" then ("-"%string, s') else (EmptyString, s)
                 | EmptyString => (EmptyString, s)
                 end).
  assert (String.length (snd signed) <= String.length s) as Hsign.
  { subst signed. destruct s as [|c s']; [simpl; lia|].
    destruct (Ascii.eqb c "-"); simpl; lia. }
  destruct signed as [sign s1]. simpl in Hsign.
  destruct s1 as [|c s2]; [discriminate|].
  destruct (isdigit c); [|discriminate].
  simpl in Hsign.
  match goal with
  | |- (let (_, _) := ?e in _) = _ -> _ =>
      assert (String.length (snd e) <= String.length s2) as Hint;
        [|destruct e as [int_digits s3]]
  end.
  { destruct (Ascii.eqb c "0"); [simpl; lia|].
    destruct (span_digits s2) as [d r'] eqn:Hd. apply span_digits_length in Hd. exact Hd. }
  simpl in Hint.
  match goal with
  | |- (let (_, _) := ?e in _) = _ -> _ =>
      assert (String.length (snd e) <= String.length s3) as Hfrac;
        [|destruct e as [frac s4]]
  end.
  { destruct s3 as [|d s3']; [simpl; lia|].
    destruct (Ascii.eqb d "."); [|simpl; lia].
    destruct (span_digits s3') as [ds r'] eqn:Hd. apply span_digits_length in Hd.
    destruct ds; simpl; lia. }
  simpl in Hfrac.
  match goal with
  | |- (let (_, _) := ?e in _) = _ -> _ =>
      assert (String.length (snd e) <= String.length s4) as Hexp;
        [|destruct e as [exp s5]]
  end.
  { destruct s4 as [|e s4']; [simpl; lia|].
    destruct (Ascii.eqb e "e" || Ascii.eqb e "E"); [|simpl; lia].
    match goal with
    | |- context [let (_, _) := ?e in _] =>
        assert (String.length (snd e) <= String.length s4') as Hes;
          [|destruct e as [esign s4'']]
    end.
    { destruct s4' as [|g r']; [simpl; lia|].
      destruct (Ascii.eqb g "-" || Ascii.eqb g "+"); simpl; lia. }
    simpl in Hes.
    destruct (span_digits s4'') as [ds r'] eqn:Hd. apply span_digits_length in Hd.
    destruct ds; simpl; lia. }
  simpl in Hexp.
  intros H; injection H as _ <-. lia.
Qed.

Lemma prefix_length (p s : string) :
  prefix p s = true -> String.length p <= String.length s.
Proof.
  revert s; induction p as [|a p IH]; intros [|b s]; simpl; try lia; try discriminate.
  intros H. apply andb_prop in H as [_ H]. apply IH in H. lia.
Qed.

Lemma drop_length (n : nat) (s : string) :
  String.length (drop n s) = String.length s - n.
Proof.
  revert s; induction n as [|n IH]; intros [|c s]; simpl; try lia. apply IH.
Qed.

Lemma literal_consumes (w s r : string) :
  literal w s = Some r -> String.length r + String.length w = String.length s.
Proof.
  unfold literal. destruct (prefix w s) eqn:Hp; [|discriminate].
  intros H; injection H as <-. apply prefix_length in Hp.
  rewrite drop_length. lia.
Qed.

(** Every value, every run of object members and every run of array
    items takes at least one character. *)
Lemma scan_consumes (fuel : nat) :
  (forall s v r, scan_once fuel s = Ok (v, r) -> String.length r < String.length s)
  /\ (forall s acc pairs r,
        object_pairs fuel s acc = Ok (pairs, r) -> String.length r < String.length s)
  /\ (forall s acc items r,
        array_items fuel s acc = Ok (items, r) -> String.length r < String.length s).
Proof.
  induction fuel as [|fuel [IHv [IHo IHa]]];
    [split; [|split]; intros; discriminate|].
  split; [|split].
  - intros s v r H. cbn [scan_once] in H.
    destruct s as [|c s']; [discriminate|].
    destruct (Ascii.eqb c "034").
    { destruct (scanstring (S (String.length s')) s') as [[t r']|] eqn:Hs; [|discriminate].
      injection H as _ <-. apply scanstring_consumes in Hs. simpl; lia. }
    destruct (Ascii.eqb c "{").
    { pose proof (skip_ws_length s') as Hws.
      destruct (skip_ws s') as [|d s2]; [discriminate|]. simpl in Hws.
      destruct (Ascii.eqb d "}"); [injection H as _ <-; simpl; lia|].
      destruct (Ascii.eqb d "034"); [|discriminate].
      destruct (object_pairs fuel s2 []) as [[pairs r']|] eqn:Ho; [|discriminate].
      injection H as _ <-. apply IHo in Ho. simpl; lia. }
    destruct (Ascii.eqb c "[").
    { pose proof (skip_ws_length s') as Hws.
      destruct (skip_ws s') as [|d s2]; [discriminate|]. simpl in Hws.
      destruct (Ascii.eqb d "]"); [injection H as _ <-; simpl; lia|].
      destruct (array_items fuel (String d s2) []) as [[items r']|] eqn:Ha; [|discriminate].
      injection H as _ <-. apply IHa in Ha. simpl in *; lia. }
    destruct (literal "null" (String c s')) eqn:L1;
      [injection H as _ <-; apply literal_consumes in L1; simpl in *; lia|].
    destruct (literal "true" (String c s')) eqn:L2;
      [injection H as _ <-; apply literal_consumes in L2; simpl in *; lia|].
    destruct (literal "false" (String c s')) eqn:L3;
      [injection H as _ <-; apply literal_consumes in L3; simpl in *; lia|].
    destruct (match_number (String c s')) as [[lexeme r']|] eqn:Hn.
    { destruct (too_many_digits lexeme); [discriminate|].
      injection H as _ <-. apply match_number_consumes in Hn. exact Hn. }
    destruct (literal "NaN" (String c s')) eqn:L4;
      [injection H as _ <-; apply literal_consumes in L4; simpl in *; lia|].
    destruct (literal "Infinity" (String c s')) eqn:L5;
      [injection H as _ <-; apply literal_consumes in L5; simpl in *; lia|].
    destruct (literal "-Infinity" (String c s')) eqn:L6;
      [injection H as _ <-; apply literal_consumes in L6; simpl in *; lia|].
    discriminate.
  - intros s acc pairs r H. cbn [object_pairs] in H.
    destruct (scanstring (S (String.length s)) s) as [[key s1]|] eqn:Hk; [|discriminate].
    apply scanstring_consumes in Hk.
    pose proof (skip_ws_length s1) as Hw1.
    destruct (skip_ws s1) as [|c s2]; [discriminate|]. simpl in Hw1.
    destruct (Ascii.eqb c ":"); [|discriminate].
    pose proof (skip_ws_length s2) as Hw2.
    destruct (scan_once fuel (skip_ws s2)) as [[value s3]|] eqn:Hv; [|discriminate].
    apply IHv in Hv.
    pose proof (skip_ws_length s3) as Hw3.
    destruct (skip_ws s3) as [|d s4]; [discriminate|]. simpl in Hw3.
    destruct (Ascii.eqb d "}"); [injection H as _ <-; lia|].
    destruct (Ascii.eqb d ","); [|discriminate].
    pose proof (skip_ws_length s4) as Hw4.
    destruct (skip_ws s4) as [|q s5]; [discriminate|]. simpl in Hw4.
    destruct (Ascii.eqb q "034"); [|discriminate].
    apply IHo in H. lia.
  - intros s acc items r H. cbn [array_items] in H.
    destruct (scan_once fuel s) as [[value s1]|] eqn:Hv; [|discriminate].
    apply IHv in Hv.
    pose proof (skip_ws_length s1) as Hw1.
    destruct (skip_ws s1) as [|d s2]; [discriminate|]. simpl in Hw1.
    destruct (Ascii.eqb d "]"); [injection H as _ <-; lia|].
    destruct (Ascii.eqb d ","); [|discriminate].
    pose proof (skip_ws_length s2) as Hw2.
    apply IHa in H. lia.
Qed.

(** The counter of the scanner is never used up: more than twice the
    length of the text is enough for a value, and one more for a run of
    members or items. *)
Lemma scan_has_fuel (fuel : nat) :
  (forall s, 2 * String.length s + 1 <= fuel -> scan_once fuel s <> Raise RecursionError)
  /\ (forall s acc, 2 * String.length s + 2 <= fuel ->
        object_pairs fuel s acc <> Raise RecursionError)
  /\ (forall s acc, 2 * String.length s + 2 <= fuel ->
        array_items fuel s acc <> Raise RecursionError).
Proof.
  induction fuel as [|fuel [IHv [IHo IHa]]]; [split; [|split]; intros; lia|].
  split; [|split].
  - intros s Hlen. cbn [scan_once].
    destruct s as [|c s']; [discriminate|]. simpl in Hlen.
    destruct (Ascii.eqb c "034").
    { pose proof (@scanstring_has_fuel (S (String.length s')) s' ltac:(lia)) as Hs.
      destruct (scanstring (S (String.length s')) s') as [[t r']|e]; [discriminate|].
      congruence. }
    destruct (Ascii.eqb c "{").
    { pose proof (skip_ws_length s') as Hws.
      destruct (skip_ws s') as [|d s2]; [discriminate|]. simpl in Hws.
      destruct (Ascii.eqb d "}"); [discriminate|].
      destruct (Ascii.eqb d "034"); [|discriminate].
      specialize (IHo s2 [] ltac:(lia)).
      destruct (object_pairs fuel s2 []) as [[pairs r']|e]; [discriminate|].
      congruence. }
    destruct (Ascii.eqb c "[").
    { pose proof (skip_ws_length s') as Hws.
      destruct (skip_ws s') as [|d s2]; [discriminate|]. simpl in Hws.
      destruct (Ascii.eqb d "]"); [discriminate|].
      specialize (IHa (String d s2) [] ltac:(simpl; lia)).
      destruct (array_items fuel (String d s2) []) as [[items r']|e]; [discriminate|].
      congruence. }
    destruct (literal "null" (String c s')); [discriminate|].
    destruct (literal "true" (String c s')); [discriminate|].
    destruct (literal "false" (String c s')); [discriminate|].
    destruct (match_number (String c s')) as [[lexeme r']|].
    { destruct (too_many_digits lexeme); discriminate. }
    destruct (literal "NaN" (String c s')); [discriminate|].
    destruct (literal "Infinity" (String c s')); [discriminate|].
    destruct (literal "-Infinity" (String c s')); discriminate.
  - intros s acc Hlen. cbn [object_pairs].
    pose proof (@scanstring_has_fuel (S (String.length s)) s ltac:(lia)) as Hs.
    destruct (scanstring (S (String.length s)) s) as [[key s1]|e] eqn:Hk; [|congruence].
    apply scanstring_consumes in Hk.
    pose proof (skip_ws_length s1) as Hw1.
    destruct (skip_ws s1) as [|c s2]; [discriminate|]. simpl in Hw1.
    destruct (Ascii.eqb c ":"); [|discriminate].
    pose proof (skip_ws_length s2) as Hw2.
    specialize (IHv (skip_ws s2) ltac:(lia)).
    destruct (scan_once fuel (skip_ws s2)) as [[value s3]|e] eqn:Hv; [|congruence].
    apply scan_consumes in Hv.
    pose proof (skip_ws_length s3) as Hw3.
    destruct (skip_ws s3) as [|d s4]; [discriminate|]. simpl in Hw3.
    destruct (Ascii.eqb d "}"); [discriminate|].
    destruct (Ascii.eqb d ","); [|discriminate].
    pose proof (skip_ws_length s4) as Hw4.
    destruct (skip_ws s4) as [|q s5]; [discriminate|]. simpl in Hw4.
    destruct (Ascii.eqb q "034"); [|discriminate].
    apply IHo. lia.
  - intros s acc Hlen. cbn [array_items].
    specialize (IHv s ltac:(lia)).
    destruct (scan_once fuel s) as [[value s1]|e] eqn:Hv; [|congruence].
    apply scan_consumes in Hv.
    pose proof (skip_ws_length s1) as Hw1.
    destruct (skip_ws s1) as [|d s2]; [discriminate|]. simpl in Hw1.
    destruct (Ascii.eqb d "]"); [discriminate|].
    destruct (Ascii.eqb d ","); [|discriminate].
    pose proof (skip_ws_length s2) as Hw2.
    apply IHa. lia.
Qed.

(** [json.loads] as embedded never fails for want of recursion depth: an
    error it reports is an error of the text. *)
Lemma loads_has_fuel (s : string) : loads s <> Raise RecursionError.
Proof.
  unfold loads.
  pose proof (skip_ws_length s) as Hws.
  destruct (scan_has_fuel (2 * String.length s + 2)) as [Hv _].
  specialize (Hv (skip_ws s) ltac:(lia)).
  destruct (scan_once (2 * String.length s + 2) (skip_ws s)) as [[v rest]|e];
    [|congruence].
  destruct (skip_ws rest); discriminate.
Qed.

End JsonFacts.


(* ===================================================================== *)
(** * The recovery parser *)
(* ===================================================================== *)

Module RecoveryFacts.

Import PyStr PyStrFacts Json Regex RegexFacts CodeConverter.
Local Open Scope string_scope.

(** ** Manual extraction on a text without fence and without marker *)







(** ** White space *)






(** ** The chain of strategies *)

Lemma finish_without_data (target_language : language) (original_file_path : string)
    (target_framework : option string) :
  finish_conversion None target_language original_file_path target_framework
  = ([CouldNotExtract], Ok None).
Proof. reflexivity. Qed.





(** ** The direct parse *)

(** The example of the specification: a well-formed object is recovered by
    the direct parse alone. *)
Lemma well_formed_object_by_direct_parse :
  _parse_single_file_conversion
    (quoted "{'filename':'a.py','content':'x=1','dependencies':{},'notes':'ok'}")
    python "src/a.java" None
  = ([ParsedDirect],
     Ok (Some {| filename := JString "a.py"; content := "x=1";
                 dependencies := JObject []; notes := JString "ok" |})).
Proof. vm_compute. reflexivity. Qed.




(** ** The repair *)

(** The example of the specification: a trailing comma is repaired and the
    object is recovered by the second strategy. *)
Lemma trailing_comma_by_repair :
  _parse_single_file_conversion
    (quoted "{'filename':'a.py','content':'x=1','dependencies':{},'notes':'ok',}")
    python "src/a.java" None
  = ([DirectDecodeError; ParsedFixed],
     Ok (Some {| filename := JString "a.py"; content := "x=1";
                 dependencies := JObject []; notes := JString "ok" |})).
Proof. vm_compute. reflexivity. Qed.

(** C7.  The specification has the repair escape the double quotes
    embedded in the content value.  The pattern that finds the value
    stops at the first double quote after the opening one, so the text it
    hands to the escaping never holds a quote: here the content, a print
    statement with a quoted argument, is left as it is, the second parse
    fails as the first did, and the manual extraction returns the content
    cut at the first quote. *)
Theorem repair_leaves_embedded_quotes :
  loads (quoted "{'filename':'a.py','content':'print('hi')','notes':'ok'}")
  = Raise JSONDecodeError
  /\ _fix_common_json_issues
       (quoted "{'filename':'a.py','content':'print('hi')','notes':'ok'}")
     = quoted "{'filename':'a.py','content':'print('hi')','notes':'ok'}"
  /\ _parse_single_file_conversion
       (quoted "{'filename':'a.py','content':'print('hi')','notes':'ok'}")
       python "src/a.java" None
     = ([DirectDecodeError; FixedStillInvalid; TryingManual; ManuallyExtracted],
        Ok (Some {| filename := JString "a.py"; content := "print(";
                    dependencies := JObject [];
                    notes := JString "Manually extracted from AI response for src/a.java" |})).
Proof. repeat split; vm_compute; reflexivity. Qed.

(** With the quotes escaped, as the specification has it, the same object
    parses and yields the whole content. *)
Lemma escaped_quotes_would_parse :
  _parse_single_file_conversion
    (quoted "{'filename':'a.py','content':'print(\'hi\')','notes':'ok'}")
    python "src/a.java" None
  = ([ParsedDirect],
     Ok (Some {| filename := JString "a.py";
                 content := quoted "print('hi')";
                 dependencies := JObject []; notes := JString "ok" |})).
Proof. vm_compute. reflexivity. Qed.

End RecoveryFacts.

(* ===================================================================== *)
(** * The repair never meets a double quote *)
(* ===================================================================== *)

Module RepairFacts.

Import PyStr PyStrFacts Json Regex RegexFacts CodeConverter.
Local Open Scope string_scope.

Lemma length_app (a b : string) :
  String.length (a ++ b) = (String.length a + String.length b)%nat.
Proof. induction a; simpl; auto. Qed.

Lemma drop_app (a b : string) : drop (String.length a) (a ++ b) = b.
Proof. induction a; simpl; auto. Qed.

Lemma take_app (a b : string) : take (String.length a) (a ++ b) = a.
Proof. induction a; simpl; [destruct b; reflexivity | congruence]. Qed.

(** [replace] changes nothing in a text where [old] does not occur. *)
Lemma replace_fuel_absent (old new : string) :
  forall fuel s, str_in old s = false -> replace_fuel fuel old new s = s.
Proof.
  induction fuel as [|fuel IH]; intros s H; [reflexivity|].
  cbn [replace_fuel]. rewrite (str_in_false_prefix _ _ H).
  destruct s as [|c s]; [reflexivity|].
  rewrite IH; [reflexivity|]. exact (str_in_false_suffix _ _ _ H).
Qed.

Lemma replace_absent (s old new : string) :
  str_in old s = false -> replace s old new = s.
Proof. apply replace_fuel_absent. Qed.

(** A text splits at its first double quote, if it has one. *)
Lemma split_at_first_quote (s : string) :
  (exists u rest, s = u ++ String dq_char rest /\ str_in dq u = false)
  \/ str_in dq s = false.
Proof.
  unfold dq, dq_char. induction s as [|c s IH].
  - right. reflexivity.
  - destruct (Ascii.eqb "034"%char c) eqn:E.
    + apply Ascii.eqb_eq in E. subst c.
      left. exists EmptyString, s. split; reflexivity.
    + destruct IH as [(u & rest & -> & Hu) | Hs].
      * left. exists (String c u), rest. split; [reflexivity|].
        cbn [str_in prefix]. rewrite E. exact Hu.
      * right. cbn [str_in prefix]. rewrite E. exact Hs.
Qed.

Lemma not_quote_of_absent (c : ascii) (u : string) :
  str_in dq (String c u) = false ->
  negb (Ascii.eqb c dq_char) = true /\ str_in dq u = false.
Proof.
  unfold dq, dq_char. cbn [str_in prefix]. intros H. apply orb_false_iff in H.
  destruct H as [H1 H2]. split; [|exact H2].
  rewrite Ascii.eqb_sym. destruct (Ascii.eqb "034"%char c); [discriminate|reflexivity].
Qed.

(** One iteration of a greedy repetition of a character class. *)
Lemma greedy_class_step (p : ascii -> bool) (k : continuation) (n : nat)
    (c : ascii) (s : string) (caps : captures) :
  p c = true ->
  greedy_loop (rmatch (Chr p)) k (S n) (String c s) caps
  = match greedy_loop (rmatch (Chr p)) k n s caps with
    | Some x => Some x
    | None => k (String c s) caps
    end.
Proof.
  intros H. cbn [greedy_loop rmatch]. rewrite H.
  assert (Hlt : (String.length s <? String.length (String c s))%nat = true)
    by (apply Nat.ltb_lt; simpl; lia).
  rewrite Hlt. reflexivity.
Qed.

Lemma greedy_class_stop (p : ascii -> bool) (k : continuation) (n : nat)
    (c : ascii) (s : string) (caps : captures) :
  p c = false ->
  greedy_loop (rmatch (Chr p)) k n (String c s) caps = k (String c s) caps.
Proof.
  intros H. destruct n as [|n]; [reflexivity|].
  cbn [greedy_loop rmatch]. rewrite H. reflexivity.
Qed.

(** A greedy repetition of "any character but the quote" runs to the
    first quote when what follows the repetition matches there. *)
Lemma greedy_runs_to_quote (k : continuation) :
  forall (u rest : string) (caps : captures) (x : string * captures) (n : nat),
    str_in dq u = false ->
    k (String dq_char rest) caps = Some x ->
    (String.length u <= n)%nat ->
    greedy_loop (rmatch (not_char dq_char)) k n (u ++ String dq_char rest) caps = Some x.
Proof.
  unfold not_char.
  induction u as [|c u IH]; intros rest caps x n Hu Hk Hn.
  - cbn [append]. rewrite greedy_class_stop; [exact Hk|].
    rewrite Ascii.eqb_refl. reflexivity.
  - destruct n as [|n]; [simpl in Hn; lia|].
    apply not_quote_of_absent in Hu. destruct Hu as [Hc Hu].
    cbn [append]. rewrite greedy_class_step by exact Hc.
    rewrite (IH rest caps x n Hu Hk) by (simpl in Hn; lia).
    reflexivity.
Qed.

Lemma rmatch_seq (a b : regex) (s : string) (caps : captures) (k : continuation) :
  rmatch (Seq a b) s caps k = rmatch a s caps (fun s' caps' => rmatch b s' caps' k).
Proof. reflexivity. Qed.

(** The value part of the content pattern, entered after the opening
    quote: it always ends at the first quote. *)
Lemma value_ends_at_first_quote (one : regex) (u rest : string) (caps : captures) :
  str_in dq u = false ->
  rmatch (Seq (Group 1 (quoted_body one)) (Char dq_char))
         (u ++ String dq_char rest) caps final
  = Some (rest,
          (1%nat, (String.length (u ++ String dq_char rest), S (String.length rest)))
            :: caps).
Proof.
  intros Hu. cbn [rmatch quoted_body].
  rewrite (@greedy_runs_to_quote _ u rest caps
             (rest, (1%nat, (String.length (u ++ String dq_char rest),
                             S (String.length rest))) :: caps)
             (String.length (u ++ String dq_char rest)) Hu).
  - reflexivity.
  - cbn [String.length greedy_loop rmatch Char].
    assert (E : Ascii.eqb bs_char dq_char = false) by reflexivity.
    rewrite E. rewrite Ascii.eqb_refl. reflexivity.
  - rewrite length_app. lia.
Qed.

Lemma value_needs_a_quote (one : regex) (s : string) (caps : captures) :
  str_in dq s = false ->
  rmatch (Seq (Group 1 (quoted_body one)) (Char dq_char)) s caps final = None.
Proof.
  intros Hs.
  destruct (rmatch (Seq (Group 1 (quoted_body one)) (Char dq_char)) s caps final)
    as [x|] eqn:E; [|reflexivity].
  cbn [rmatch] in E.
  destruct (rmatch_continues _ _ _ _ E) as (s1 & c1 & Hs1 & H1).
  cbn beta in H1. destruct s1 as [|c s1]; [discriminate|].
  unfold Char in H1. cbn [rmatch] in H1.
  destruct (Ascii.eqb dq_char c) eqn:Ec; [|discriminate].
  apply Ascii.eqb_eq in Ec. subst c.
  assert (Hin : str_in dq (String dq_char s1) = true) by reflexivity.
  rewrite (str_in_suffix _ Hs1 Hin) in Hs. discriminate.
Qed.

(** Where the content pattern matches, group 1 runs from after the
    opening quote to the first quote that follows. *)
Lemma content_match_shape (one : regex) (s : string) (hit : string * captures) :
  match_here (content_pattern one) s = Some hit ->
  exists s3 c3 u rest,
    is_suffix s3 s
    /\ s3 = u ++ String dq_char rest
    /\ str_in dq u = false
    /\ hit = (rest, (1%nat, (String.length s3, S (String.length rest))) :: c3).
Proof.
  unfold match_here, content_pattern. intros H.
  rewrite rmatch_seq in H.
  destruct (rmatch_continues _ _ _ _ H) as (s1 & c1 & Hs1 & H1). cbn beta in H1.
  rewrite rmatch_seq in H1.
  destruct (rmatch_continues _ _ _ _ H1) as (s2 & c2 & Hs2 & H2). cbn beta in H2.
  rewrite rmatch_seq in H2.
  destruct (rmatch_continues _ _ _ _ H2) as (s3 & c3 & Hs3 & H3). cbn beta in H3.
  destruct (split_at_first_quote s3) as [(u & rest & Hsplit & Hu) | Hnone].
  - exists s3, c3, u, rest.
    split; [eapply is_suffix_trans; [exact Hs3|];
            eapply is_suffix_trans; [exact Hs2 | exact Hs1]|].
    split; [exact Hsplit|]. split; [exact Hu|].
    rewrite Hsplit in H3. rewrite (@value_ends_at_first_quote one u rest c3 Hu) in H3.
    injection H3 as <-. rewrite Hsplit. reflexivity.
  - rewrite (@value_needs_a_quote one s3 c3 Hnone) in H3. discriminate.
Qed.

(** [search] reports a match of the pattern at some suffix. *)
Lemma search_in_found (r : regex) (total : nat) :
  forall s m,
    search_in r total s = Some m ->
    exists t hit, is_suffix t s /\ match_here r t = Some hit
                  /\ m = found_at total t hit.
Proof.
  induction s as [|c s IH]; intros m H; cbn [search_in] in H.
  - destruct (match_here r EmptyString) as [hit|] eqn:E; [|discriminate].
    injection H as <-. exists EmptyString, hit.
    split; [apply is_suffix_refl|]. split; [exact E | reflexivity].
  - destruct (match_here r (String c s)) as [hit|] eqn:E.
    + injection H as <-. exists (String c s), hit.
      split; [apply is_suffix_refl|]. split; [exact E | reflexivity].
    + destruct (IH _ H) as (t & hit & Ht & Hm & ->).
      exists t, hit. split; [|split; [exact Hm | reflexivity]].
      eapply is_suffix_trans; [exact Ht | apply is_suffix_tail].
Qed.

(** The text that the repair takes for the content value holds no double
    quote, whatever the candidate. *)
Lemma repaired_value_has_no_quote (one : regex) (json_str : string) (m : found)
    (content_start content_end : nat) :
  search (content_pattern one) json_str = Some m ->
  group_span 1 m = Some (content_start, content_end) ->
  str_in dq (take (content_end - content_start) (drop content_start json_str)) = false.
Proof.
  unfold search. intros Hsearch Hspan.
  destruct (search_in_found _ _ _ Hsearch) as (t & hit & Ht & Hm & ->).
  destruct (content_match_shape _ _ Hm) as (s3 & c3 & u & rest & Hs3 & Hsplit & Hu & ->).
  destruct (is_suffix_trans Hs3 Ht) as [pre Hpre].
  unfold group_span, found_at in Hspan. cbn in Hspan.
  injection Hspan as <- <-.
  unfold locate. subst json_str.
  assert (Hlen : String.length s3 = (String.length u + S (String.length rest))%nat).
  { rewrite Hsplit, length_app. reflexivity. }
  rewrite length_app.
  replace (String.length pre + String.length s3 - String.length s3)%nat
    with (String.length pre) by lia.
  rewrite drop_app.
  replace (String.length pre + String.length s3 - S (String.length rest)
           - String.length pre)%nat
    with (String.length u) by lia.
  rewrite Hsplit, take_app. exact Hu.
Qed.

(** Hence the step of [_fix_common_json_issues] that escapes the quotes of
    the content value changes nothing, on any candidate. *)
Lemma quote_escaping_is_idle (json_str : string) (m : found)
    (content_start content_end : nat) :
  search (content_pattern dot) json_str = Some m ->
  group_span 1 m = Some (content_start, content_end) ->
  replace (take (content_end - content_start) (drop content_start json_str))
          dq (bs ++ dq)
  = take (content_end - content_start) (drop content_start json_str).
Proof.
  intros Hs Hg. apply replace_absent.
  exact (repaired_value_has_no_quote _ _ Hs Hg).
Qed.

End RepairFacts.

(* ===================================================================== *)
(** * The span primitives of the other extractors *)
(* ===================================================================== *)

Module ScanFacts.

Import PyStr PyList ASTParser SpanFacts.

(** ** The two loop shapes *)

Lemma end_at_first_miss (stop : string -> bool) (lines : list string) :
  forall (ls : list string) (i e : Z),
    0 <= i ->
    skipn (Z.to_nat i) lines = ls ->
    Forall (fun l => stop l = false) ls ->
    end_at_first stop lines (List.length ls) i e = Ok e.
Proof.
  induction ls as [|l rest IH]; intros i e Hi Hs Hall; [reflexivity|].
  cbn [List.length end_at_first].
  rewrite (index_suffix _ Hi Hs). cbn [bind].
  inversion Hall as [|? ? Hl Hrest]; subst. rewrite Hl.
  apply IH; [lia | exact (suffix_next _ Hi Hs) | exact Hrest].
Qed.

Lemma end_at_first_hit (stop : string -> bool) (lines : list string) :
  forall (before : list string) (l : string) (after : list string) (i e : Z),
    0 <= i ->
    skipn (Z.to_nat i) lines = before ++ l :: after ->
    Forall (fun b => stop b = false) before ->
    stop l = true ->
    end_at_first stop lines (List.length (before ++ l :: after)) i e
    = Ok (i + Z.of_nat (List.length before) + 1).
Proof.
  induction before as [|b before IH]; intros l after i e Hi Hs Hall Hl.
  - cbn [app List.length end_at_first] in *.
    rewrite (index_suffix _ Hi Hs). cbn [bind]. rewrite Hl. f_equal. lia.
  - cbn [app List.length end_at_first] in *.
    rewrite (index_suffix _ Hi Hs). cbn [bind].
    inversion Hall as [|? ? Hb Hrest]; subst. rewrite Hb.
    rewrite (IH l after (i + 1) e ltac:(lia) (suffix_next _ Hi Hs) Hrest Hl).
    f_equal. lia.
Qed.

Lemma end_before_first_miss (boundary : string -> bool) (lines : list string) :
  forall (ls : list string) (i e : Z),
    0 <= i ->
    skipn (Z.to_nat i) lines = ls ->
    Forall (fun l => boundary (strip l) = false) ls ->
    end_before_first boundary lines (List.length ls) i e
    = Ok (match ls with [] => e | _ => i + Z.of_nat (List.length ls) end).
Proof.
  induction ls as [|l rest IH]; intros i e Hi Hs Hall; [reflexivity|].
  cbn [List.length end_before_first].
  rewrite (index_suffix _ Hi Hs). cbn [bind].
  inversion Hall as [|? ? Hl Hrest]; subst. rewrite Hl.
  rewrite (IH (i + 1) (i + 1) ltac:(lia) (suffix_next _ Hi Hs) Hrest).
  f_equal. destruct rest; cbn [List.length]; lia.
Qed.

Lemma end_before_first_hit (boundary : string -> bool) (lines : list string) :
  forall (body : list string) (l : string) (tail : list string) (i e : Z),
    0 <= i ->
    skipn (Z.to_nat i) lines = body ++ l :: tail ->
    Forall (fun b => boundary (strip b) = false) body ->
    boundary (strip l) = true ->
    end_before_first boundary lines (List.length (body ++ l :: tail)) i e
    = Ok (match body with [] => e | _ => i + Z.of_nat (List.length body) end).
Proof.
  induction body as [|b body IH]; intros l tail i e Hi Hs Hall Hl.
  - cbn [app List.length end_before_first] in *.
    rewrite (index_suffix _ Hi Hs). cbn [bind]. rewrite Hl. reflexivity.
  - cbn [app List.length end_before_first] in *.
    rewrite (index_suffix _ Hi Hs). cbn [bind].
    inversion Hall as [|? ? Hb Hrest]; subst. rewrite Hb.
    rewrite (IH l tail (i + 1) (i + 1) ltac:(lia) (suffix_next _ Hi Hs) Hrest Hl).
    f_equal. destruct body; cbn [List.length]; lia.
Qed.

(** ** Slices of the lines from the start line on *)

Lemma slice_empty (lines : list string) (s : Z) :
  0 <= s <= len lines -> slice lines s s = [].
Proof.
  intros Hs. rewrite slice_inside by lia.
  replace (Z.to_nat (s - s)) with 0%nat by lia. reflexivity.
Qed.

Lemma slice_prefix (lines : list string) (s : Z) (taken rest : list string) :
  0 <= s ->
  skipn (Z.to_nat s) lines = taken ++ rest ->
  slice lines s (s + Z.of_nat (List.length taken)) = taken.
Proof.
  intros Hs H.
  assert (Hl : (Z.to_nat s + List.length (taken ++ rest) = List.length lines
                \/ taken ++ rest = [])%nat).
  { assert (E := f_equal (@List.length string) H).
    rewrite List.length_skipn in E.
    destruct (taken ++ rest) eqn:Et; [right; reflexivity | left].
    cbn [List.length] in *. lia. }
  destruct Hl as [Hl | Hnil].
  - rewrite List.length_app in Hl.
    rewrite slice_inside by (unfold len; lia).
    rewrite H.
    replace (Z.to_nat (s + Z.of_nat (List.length taken) - s))
      with (List.length taken) by lia.
    rewrite List.firstn_app, List.firstn_all, Nat.sub_diag.
    cbn [firstn]. apply List.app_nil_r.
  - apply List.app_eq_nil in Hnil as [-> _]. cbn [List.length].
    unfold slice, clamp.
    replace (s + Z.of_nat 0) with s by lia.
    destruct (s <? 0) eqn:E; [apply Z.ltb_lt in E; lia|].
    replace (Z.to_nat (Z.min s (len lines) - Z.min s (len lines))) with 0%nat by lia.
    reflexivity.
Qed.

Lemma suffix_valid (lines : list string) (start_line : Z) (first : string)
    (rest : list string) :
  1 <= start_line ->
  skipn (Z.to_nat (start_line - 1)) lines = first :: rest ->
  0 <= start_line - 1
  /\ start_line - 1 + 1 + Z.of_nat (List.length rest) = len lines
  /\ skipn (Z.to_nat (start_line - 1 + 1)) lines = rest.
Proof.
  intros H1 Hs.
  assert (Hl := skipn_length_le _ _ Hs).
  split; [lia|]. split; [unfold len; lia|].
  apply suffix_next with (l := first); [lia | exact Hs].
Qed.

Lemma span_taken (lines : list string) (s : Z) (taken rest : list string) :
  0 <= s ->
  skipn (Z.to_nat s) lines = taken ++ rest ->
  forall e, e = s + Z.of_nat (List.length taken) ->
  join nl (slice lines s e) = join nl taken.
Proof. intros Hs H e ->. rewrite (@slice_prefix lines s taken rest Hs H). reflexivity. Qed.

Lemma suffix_range (lines : list string) (s : Z) (ls : list string) :
  0 <= s ->
  skipn (Z.to_nat s) lines = ls ->
  range_len s (len lines) = List.length ls.
Proof.
  intros Hs H. subst ls. unfold range_len, len. rewrite List.length_skipn. lia.
Qed.

Ltac open_span start_line Hstart Hs :=
  let Hv := fresh "Hv" in
  pose proof (@suffix_valid _ _ _ _ Hstart Hs) as Hv;
  destruct Hv as (Hs0 & Hlen & Hrest);
  assert (Hs1 : 0 <= start_line - 1 + 1) by lia.

(** ** A closing tag, a closing element, a closing fence *)

(** X1.  [_extract_html_tag] on a valid start line: when no line from the
    start line on holds the closing tag, the span is the empty string (the
    line of the opening tag is not returned); otherwise the span runs from
    the start line through the first line that holds the closing tag. *)
Theorem extract_html_tag_span (lines : list string) (start_line : Z)
    (content tag_name first : string) (rest : list string) :
  1 <= start_line ->
  skipn (Z.to_nat (start_line - 1)) lines = first :: rest ->
  let closes := fun l => str_in ("</" ++ tag_name ++ ">") l in
  (Forall (fun l => closes l = false) (first :: rest) ->
     _extract_html_tag lines start_line content tag_name = Ok EmptyString)
  /\ (forall before l after,
        first :: rest = before ++ l :: after ->
        Forall (fun b => closes b = false) before ->
        closes l = true ->
        _extract_html_tag lines start_line content tag_name
        = Ok (join nl (before ++ [l]))).
Proof.
  intros Hstart Hs closes. open_span start_line Hstart Hs.
  unfold _extract_html_tag.
  rewrite (@suffix_range lines _ _ Hs0 Hs).
  split.
  - intros Hall.
    rewrite (@end_at_first_miss _ lines (first :: rest) _ _ Hs0 Hs Hall).
    cbn [bind try_except]. rewrite slice_empty by lia. reflexivity.
  - intros before l after Hsplit Hall Hl.
    rewrite Hsplit in Hs |- *.
    rewrite (@end_at_first_hit _ lines before l after _ _ Hs0 Hs Hall Hl).
    cbn [bind try_except]. f_equal.
    apply (@span_taken lines _ (before ++ [l]) after); [lia | | ].
    + rewrite <- List.app_assoc. exact Hs.
    + rewrite List.length_app. cbn [List.length]. lia.
Qed.

Lemma extract_html_tag_span_witness :
  1 <= 2
  /\ skipn (Z.to_nat (2 - 1)) ["<html>"; "<script>"; "f();"; "</script>"; "</html>"]
     = "<script>" :: ["f();"; "</script>"; "</html>"]
  /\ _extract_html_tag ["<html>"; "<script>"; "f();"; "</script>"; "</html>"] 2
       EmptyString "script"
     = Ok (join nl (["<script>"; "f();"] ++ ["</script>"])).
Proof.
  split; [lia|]. split; [reflexivity|].
  refine (proj2 (@extract_html_tag_span
                   ["<html>"; "<script>"; "f();"; "</script>"; "</html>"] 2
                   EmptyString "script" "<script>" ["f();"; "</script>"; "</html>"]
                   ltac:(lia) eq_refl)
            ["<script>"; "f();"] "</script>" ["</html>"] eq_refl _ eq_refl).
  repeat constructor.
Defined.



(** X3.  [_extract_markdown_code_block] on a valid start line looks for
    the closing fence from the next line on, on the lines as they stand
    (not stripped): when no later line starts with three backticks the
    span is the empty string, otherwise it runs from the start line
    through the first later line that does. *)
Theorem extract_markdown_code_block_span (lines : list string) (start_line : Z)
    (content first : string) (rest : list string) :
  1 <= start_line ->
  skipn (Z.to_nat (start_line - 1)) lines = first :: rest ->
  let fence := fun l => startswith l "```" in
  (Forall (fun l => fence l = false) rest ->
     _extract_markdown_code_block lines start_line content = Ok EmptyString)
  /\ (forall before l after,
        rest = before ++ l :: after ->
        Forall (fun b => fence b = false) before ->
        fence l = true ->
        _extract_markdown_code_block lines start_line content
        = Ok (join nl (first :: before ++ [l]))).
Proof.
  intros Hstart Hs fence. open_span start_line Hstart Hs.
  unfold _extract_markdown_code_block.
  rewrite (@suffix_range lines _ _ Hs1 Hrest).
  split.
  - intros Hall.
    rewrite (@end_at_first_miss _ lines rest _ _ Hs1 Hrest Hall).
    cbn [bind try_except]. rewrite slice_empty by lia. reflexivity.
  - intros before l after Hsplit Hall Hl.
    rewrite Hsplit in Hs, Hrest |- *.
    rewrite (@end_at_first_hit _ lines before l after _ _ Hs1 Hrest Hall Hl).
    cbn [bind try_except]. f_equal.
    apply (@span_taken lines _ (first :: before ++ [l]) after); [lia | | ].
    + cbn [app]. rewrite <- List.app_assoc. exact Hs.
    + cbn [List.length]. rewrite List.length_app. cbn [List.length]. lia.
Qed.

Lemma extract_markdown_code_block_span_witness :
  1 <= 2
  /\ skipn (Z.to_nat (2 - 1)) ["# Title"; "```sh"; "make"; "```"; "text"]
     = "```sh" :: ["make"; "```"; "text"]
  /\ _extract_markdown_code_block ["# Title"; "```sh"; "make"; "```"; "text"] 2
       EmptyString
     = Ok (join nl ("```sh" :: ["make"] ++ ["```"])).
Proof.
  split; [lia|]. split; [reflexivity|].
  refine (proj2 (@extract_markdown_code_block_span
                   ["# Title"; "```sh"; "make"; "```"; "text"] 2
                   EmptyString "```sh" ["make"; "```"; "text"]
                   ltac:(lia) eq_refl)
            ["make"] "```" ["text"] eq_refl _ eq_refl).
  repeat constructor.
Defined.

(** ** Sections, targets and divisions *)

Lemma before_boundary (boundary : string -> bool) (lines : list string)
    (start_line : Z) (first : string) (body tail : list string) :
  1 <= start_line ->
  skipn (Z.to_nat (start_line - 1)) lines = first :: body ++ tail ->
  Forall (fun l => boundary (strip l) = false) body ->
  (tail = [] \/ exists h t, tail = h :: t /\ boundary (strip h) = true) ->
  (end_idx <-
     end_before_first boundary lines
       (range_len (start_line - 1 + 1) (len lines)) (start_line - 1 + 1)
       (start_line - 1) ;;
   Ok (join nl (slice lines (start_line - 1) end_idx)))%py
  = Ok (match body with [] => EmptyString | _ => join nl (first :: body) end).
Proof.
  intros Hstart Hs Hall Htail. open_span start_line Hstart Hs.
  rewrite (@suffix_range lines _ _ Hs1 Hrest).
  assert (Hend : end_before_first boundary lines (List.length (body ++ tail))
                   (start_line - 1 + 1) (start_line - 1)
                 = Ok (match body with
                       | [] => start_line - 1
                       | _ => start_line - 1 + 1 + Z.of_nat (List.length body)
                       end)).
  { destruct Htail as [-> | (h & t & -> & Hh)].
    - rewrite List.app_nil_r in *.
      exact (@end_before_first_miss boundary lines body _ _ Hs1 Hrest Hall).
    - exact (@end_before_first_hit boundary lines body h t _ _ Hs1 Hrest Hall Hh). }
  rewrite Hend. cbn [bind]. f_equal.
  destruct body as [|b body].
  - rewrite slice_empty by lia. reflexivity.
  - apply (@span_taken lines _ (first :: b :: body) tail); [lia | exact Hs | ].
    cbn [List.length]. lia.
Qed.



(** A stripped text is empty or starts with a character that is not
    white space. *)
Lemma lstrip_first_char (s : string) :
  lstrip s = EmptyString
  \/ exists c t, lstrip s = String c t /\ isspace c = false.
Proof.
  induction s as [|c s IH]; [left; reflexivity|].
  cbn [lstrip]. destruct (isspace c) eqn:E; [exact IH|].
  right. exists c, s. split; [reflexivity | exact E].
Qed.

Lemma rstrip_first_char (c : ascii) (t : string) :
  isspace c = false -> exists u, rstrip (String c t) = String c u.
Proof.
  intros Hc. cbn [rstrip]. rewrite Hc.
  destruct (rstrip t) as [|d u]; eexists; reflexivity.
Qed.

Lemma strip_first_char (s : string) :
  strip s = EmptyString
  \/ exists c t, strip s = String c t /\ isspace c = false.
Proof.
  unfold strip. destruct (lstrip_first_char s) as [-> | (c & t & -> & Hc)].
  - left. reflexivity.
  - right. destruct (@rstrip_first_char c t Hc) as (u & ->). exists c, u.
    split; [reflexivity | exact Hc].
Qed.

Lemma str_in_nonempty (sub s : string) :
  sub <> EmptyString -> str_in sub s = true -> s <> EmptyString.
Proof.
  intros Hsub H ->. destruct sub; [congruence | discriminate].
Qed.

(** The test for a tab in [_extract_makefile_target] is made on the
    stripped line and never holds; the test for a non-empty line follows
    from the colon. *)
Lemma makefile_boundary_is_colon (l : string) :
  makefile_boundary (strip l) = str_in ":" (strip l).
Proof.
  unfold makefile_boundary.
  destruct (str_in ":" (strip l)) eqn:Hc; [|apply andb_false_r].
  rewrite andb_true_r.
  assert (Hne : strip l <> EmptyString)
    by (apply (@str_in_nonempty ":" _); [discriminate | exact Hc]).
  destruct (strip_first_char l) as [He | (c & t & He & Hsp)]; [congruence|].
  rewrite He. cbn [String.eqb negb andb]. unfold startswith. cbn [prefix].
  destruct (Ascii.eqb "009" c) eqn:E; [|reflexivity].
  apply Ascii.eqb_eq in E. subst c. discriminate.
Qed.

(** X5.  [_extract_makefile_target] on a valid start line ends the target
    before the first following line that holds a colon once stripped,
    whether or not that line is a recipe line indented with a tab: the
    test for the tab is made after the line has been stripped and never
    holds.  A target followed at once by such a line gives the empty
    string. *)
Theorem extract_makefile_target_span (lines : list string) (start_line : Z)
    (content first : string) (body tail : list string) :
  1 <= start_line ->
  skipn (Z.to_nat (start_line - 1)) lines = first :: body ++ tail ->
  Forall (fun l => str_in ":" (strip l) = false) body ->
  (tail = [] \/ exists h t, tail = h :: t /\ str_in ":" (strip h) = true) ->
  _extract_makefile_target lines start_line content
  = Ok (match body with [] => EmptyString | _ => join nl (first :: body) end).
Proof.
  intros Hstart Hs Hall Htail.
  unfold _extract_makefile_target.
  assert (Hall' : Forall (fun l => makefile_boundary (strip l) = false) body).
  { eapply List.Forall_impl; [|exact Hall].
    intros l Hl. cbv beta in Hl |- *. rewrite makefile_boundary_is_colon. exact Hl. }
  assert (Htail' : tail = []
                   \/ exists h t, tail = h :: t /\ makefile_boundary (strip h) = true).
  { destruct Htail as [-> | (h & t & -> & Hh)]; [left; reflexivity|].
    right. exists h, t. split; [reflexivity|].
    rewrite makefile_boundary_is_colon. exact Hh. }
  rewrite (@before_boundary makefile_boundary lines start_line first body tail
             Hstart Hs Hall' Htail').
  reflexivity.
Qed.

Lemma extract_makefile_target_span_witness :
  1 <= 1
  /\ skipn (Z.to_nat (1 - 1))
       ["all: a.o"; String "009" "cc -o all a.o"; String "009" "@echo done: all";
        "clean:"]
     = "all: a.o" :: [String "009" "cc -o all a.o"]
         ++ [String "009" "@echo done: all"; "clean:"]
  /\ Forall (fun l => str_in ":" (strip l) = false) [String "009" "cc -o all a.o"]
  /\ _extract_makefile_target
       ["all: a.o"; String "009" "cc -o all a.o"; String "009" "@echo done: all";
        "clean:"] 1 EmptyString
     = Ok (join nl ["all: a.o"; String "009" "cc -o all a.o"]).
Proof.
  assert (Hall : Forall (fun l => str_in ":" (strip l) = false)
                   [String "009" "cc -o all a.o"]) by (repeat constructor).
  split; [lia|]. split; [reflexivity|]. split; [exact Hall|].
  refine (@extract_makefile_target_span
            ["all: a.o"; String "009" "cc -o all a.o"; String "009" "@echo done: all";
             "clean:"] 1 EmptyString "all: a.o" [String "009" "cc -o all a.o"]
            [String "009" "@echo done: all"; "clean:"] ltac:(lia) eq_refl Hall _).
  right. exists (String "009" "@echo done: all"), ["clean:"]. split; reflexivity.
Defined.



(** ** SQL statements *)






(** ** COBOL data items *)

(** The level-number pattern asks for two digits and a white space at the
    head of the text. *)
Lemma greedy_loop_final (step : string -> Regex.captures -> Regex.continuation -> Regex.outcome)
    (n : nat) (s : string) (caps : Regex.captures) :
  exists x, Regex.greedy_loop step Regex.final n s caps = Some x.
Proof.
  destruct n as [|n]; cbn [Regex.greedy_loop].
  - eexists; reflexivity.
  - destruct (step s caps _); eexists; reflexivity.
Qed.

Lemma level_number_needs_three (a b c : ascii) (t : string) :
  re_match level_number_pattern (String a (String b (String c t)))
  = isdigit a && isdigit b && isspace c.
Proof.
  unfold re_match, level_number_pattern, Regex.match_here, Regex.Plus, Regex.space.
  cbn [Regex.rmatch].
  destruct (isdigit a); [|reflexivity].
  destruct (isdigit b); [|reflexivity].
  destruct (isspace c) eqn:Ec; [|reflexivity].
  cbn [andb].
  match goal with
  | |- match Regex.greedy_loop ?step Regex.final ?n ?s ?caps with _ => _ end = _ =>
      destruct (@greedy_loop_final step n s caps) as (x & ->)
  end.
  reflexivity.
Qed.

Lemma level_number_too_short (s : string) :
  (String.length s < 3)%nat -> re_match level_number_pattern s = false.
Proof.
  unfold re_match, level_number_pattern, Regex.match_here, Regex.Plus, Regex.space.
  cbn [Regex.rmatch].
  destruct s as [|a [|b [|c t]]]; cbn [String.length]; intros H; try lia;
    try reflexivity.
  - destruct (isdigit a); reflexivity.
  - destruct (isdigit a); [|reflexivity]. destruct (isdigit b); reflexivity.
Qed.





(** ** Start lines beyond the end of the file *)

Lemma index_beyond (lines : list string) (i : Z) :
  len lines <= i -> index lines i = Raise IndexError.
Proof.
  intros H. unfold index.
  assert (Hlen : 0 <= len lines) by (unfold len; lia).
  destruct (i <? 0) eqn:E; [apply Z.ltb_lt in E; lia|].
  destruct (i <? len lines) eqn:E2; [apply Z.ltb_lt in E2; lia|].
  rewrite andb_false_r. reflexivity.
Qed.

Lemma range_beyond (lo hi : Z) : hi <= lo -> range_len lo hi = 0%nat.
Proof. intros H. unfold range_len. lia. Qed.

Lemma slice_beyond (lines : list string) (s : Z) :
  len lines <= s -> slice lines s s = [].
Proof.
  intros H. unfold slice, clamp.
  assert (Hlen : 0 <= len lines) by (unfold len; lia).
  destruct (s <? 0) eqn:E; [apply Z.ltb_lt in E; lia|].
  replace (Z.to_nat (Z.min s (len lines) - Z.min s (len lines))) with 0%nat by lia.
  reflexivity.
Qed.

Lemma fallback_beyond (lines : list string) (start_line : Z) :
  len lines < start_line -> span_fallback lines start_line = Ok EmptyString.
Proof.
  intros H. unfold span_fallback.
  destruct (start_line <=? len lines) eqn:E; [apply Z.leb_le in E; lia|].
  reflexivity.
Qed.

(** X9.  A start line beyond the end of the file gives the empty string
    from every span primitive, and none of them raises: the loops make no
    iteration and the slice is empty, or the read of the start line
    raises and the handler answers with the empty string. *)
Theorem span_beyond_the_file_is_empty (lines : list string) (start_line : Z)
    (content tag_name : string) :
  len lines < start_line ->
  _extract_code_block lines start_line content = Ok EmptyString
  /\ _extract_variable_declaration lines start_line content = Ok EmptyString
  /\ _extract_cobol_block lines start_line content = Ok EmptyString
  /\ _extract_cobol_data_item lines start_line content = Ok EmptyString
  /\ _extract_sql_statement lines start_line content = Ok EmptyString
  /\ _extract_html_tag lines start_line content tag_name = Ok EmptyString
  /\ _extract_css_rule lines start_line content = Ok EmptyString
  /\ _extract_xml_element lines start_line content = Ok EmptyString
  /\ _extract_toml_section lines start_line content = Ok EmptyString
  /\ _extract_ini_section lines start_line content = Ok EmptyString
  /\ _extract_markdown_code_block lines start_line content = Ok EmptyString
  /\ _extract_makefile_target lines start_line content = Ok EmptyString
  /\ _extract_cmake_command lines start_line content = Ok EmptyString.
Proof.
  intros H.
  assert (Hr0 : range_len (start_line - 1) (len lines) = 0%nat)
    by (apply range_beyond; lia).
  assert (Hr1 : range_len (start_line - 1 + 1) (len lines) = 0%nat)
    by (apply range_beyond; lia).
  assert (Hsl : slice lines (start_line - 1) (start_line - 1) = [])
    by (apply slice_beyond; lia).
  assert (Hix : index lines (start_line - 1) = Raise IndexError)
    by (apply index_beyond; lia).
  assert (Hfb := fallback_beyond lines H).
  unfold _extract_code_block, _extract_variable_declaration, _extract_cobol_block,
    _extract_cobol_data_item, _extract_sql_statement, _extract_html_tag,
    _extract_css_rule, _extract_xml_element, _extract_toml_section,
    _extract_ini_section, _extract_markdown_code_block, _extract_makefile_target,
    _extract_cmake_command.
  rewrite ?Hr0, ?Hr1, ?Hix.
  cbn [find_opening_brace find_closing_brace find_closing_paren end_at_first
       end_before_first sql_statement_end bind try_except].
  rewrite ?Hr0, ?Hsl, ?Hfb.
  cbn [find_closing_brace bind try_except join].
  rewrite ?Hsl. cbn [join].
  repeat split; reflexivity.
Qed.

Lemma span_beyond_the_file_is_empty_witness :
  len ["a {"; "}"] < 3
  /\ _extract_code_block ["a {"; "}"] 3 EmptyString = Ok EmptyString.
Proof.
  assert (H : len ["a {"; "}"] < 3) by (vm_compute; reflexivity).
  split; [exact H|].
  exact (proj1 (@span_beyond_the_file_is_empty ["a {"; "}"] 3 EmptyString "p" H)).
Defined.

End ScanFacts.

(* ===================================================================== *)
(** * Lines of a text, modifiers, and the source of a node *)
(* ===================================================================== *)

Module LineFacts.

Import PyStr PyList ASTParser SpanFacts.

(** ** Splitting into lines and joining back *)

Lemma split_not_nil (c : ascii) (s : string) : split c s <> [].
Proof.
  destruct s as [|d s]; cbn [split]; [discriminate|].
  destruct (Ascii.eqb d c); [discriminate|].
  destruct (split c s); discriminate.
Qed.

Lemma join_nl_empty_head (xs : list string) :
  xs <> [] -> join nl (EmptyString :: xs) = (nl ++ join nl xs)%string.
Proof. destruct xs as [|x xs]; [congruence | reflexivity]. Qed.

Lemma join_nl_grow_head (d : ascii) (w : string) (ws : list string) :
  join nl (String d w :: ws) = String d (join nl (w :: ws)).
Proof. destruct ws; reflexivity. Qed.

(** [sep.join(s.split(sep)) == s] for the line feed. *)
Lemma join_split (s : string) : join nl (split nl_char s) = s.
Proof.
  induction s as [|d s IH]; [reflexivity|].
  cbn [split]. destruct (Ascii.eqb d nl_char) eqn:E.
  - apply Ascii.eqb_eq in E. subst d.
    rewrite join_nl_empty_head by apply split_not_nil.
    rewrite IH. reflexivity.
  - destruct (split nl_char s) as [|w ws] eqn:Es; [exfalso; exact (split_not_nil _ _ Es)|].
    rewrite join_nl_grow_head, IH. reflexivity.
Qed.

(** No line of a split text holds a line feed. *)
Lemma split_lines_clean (s : string) :
  Forall (fun l => count l nl_char = 0) (split nl_char s).
Proof.
  induction s as [|d s IH]; [repeat constructor|].
  cbn [split]. destruct (Ascii.eqb d nl_char) eqn:E.
  - constructor; [reflexivity | exact IH].
  - destruct (split nl_char s) as [|w ws]; [repeat constructor; cbn [count]; rewrite E; reflexivity|].
    inversion IH as [|? ? Hw Hws]; subst.
    constructor; [|exact Hws]. cbn [count]. rewrite E, Hw. reflexivity.
Qed.

Lemma count_nonneg (s : string) (c : ascii) : 0 <= count s c.
Proof.
  induction s as [|d s IH]; cbn [count]; [lia|].
  destruct (Ascii.eqb d c); lia.
Qed.

Lemma split_clean_line (x : string) :
  count x nl_char = 0 -> split nl_char x = [x].
Proof.
  induction x as [|d x IH]; intros H; [reflexivity|].
  cbn [count] in H. cbn [split].
  pose proof (count_nonneg x nl_char) as Hx.
  destruct (Ascii.eqb d nl_char); [lia|].
  rewrite IH by lia. reflexivity.
Qed.

Lemma split_clean_head (x t : string) :
  count x nl_char = 0 ->
  split nl_char (x ++ nl ++ t) = x :: split nl_char t.
Proof.
  induction x as [|d x IH]; intros H.
  - cbn [append split nl]. change (Ascii.eqb nl_char nl_char) with true.
    reflexivity.
  - cbn [count] in H. cbn [append split].
    pose proof (count_nonneg x nl_char) as Hx.
    destruct (Ascii.eqb d nl_char); [lia|].
    rewrite IH by lia. reflexivity.
Qed.

(** [sep.join(ls).split(sep) == ls] for lines without a line feed. *)
Lemma split_join (ls : list string) :
  ls <> [] ->
  Forall (fun l => count l nl_char = 0) ls ->
  split nl_char (join nl ls) = ls.
Proof.
  induction ls as [|x rest IH]; intros Hne Hall; [congruence|].
  inversion Hall as [|? ? Hx Hrest]; subst.
  destruct rest as [|y rest].
  - cbn [join]. apply split_clean_line. exact Hx.
  - rewrite join_cons. rewrite split_clean_head by exact Hx.
    rewrite IH; [reflexivity | discriminate | exact Hrest].
Qed.

Lemma Forall_firstn {A : Type} (P : A -> Prop) (n : nat) (l : list A) :
  Forall P l -> Forall P (firstn n l).
Proof.
  revert l. induction n as [|n IH]; intros l H; [constructor|].
  destruct l as [|x l]; [constructor|].
  inversion H; subst. cbn [firstn]. constructor; [assumption | apply IH; assumption].
Qed.

Lemma Forall_skipn {A : Type} (P : A -> Prop) (n : nat) (l : list A) :
  Forall P l -> Forall P (skipn n l).
Proof.
  revert l. induction n as [|n IH]; intros l H; [exact H|].
  destruct l as [|x l]; [constructor|].
  inversion H; subst. cbn [skipn]. apply IH. assumption.
Qed.

(** The lines [first .. last] of a text, for [1 <= first <= last <= len]:
    there are [last - first + 1] of them and they split back. *)
Lemma lines_of_span (content : string) (first last : Z) :
  1 <= first <= last ->
  last <= len (split nl_char content) ->
  let span := slice (split nl_char content) (first - 1) last in
  len span = last - first + 1
  /\ split nl_char (join nl span) = span.
Proof.
  intros Hfl Hlast span.
  assert (Hspan : span = firstn (Z.to_nat (last - (first - 1)))
                           (skipn (Z.to_nat (first - 1)) (split nl_char content))).
  { unfold span. apply slice_inside; lia. }
  assert (Hlen : len span = last - first + 1).
  { rewrite Hspan. unfold len in *.
    rewrite List.length_firstn, List.length_skipn. lia. }
  split; [exact Hlen|].
  apply split_join.
  - intros Hnil. rewrite Hnil in Hlen. unfold len in Hlen. cbn in Hlen. lia.
  - rewrite Hspan. apply Forall_firstn, Forall_skipn, split_lines_clean.
Qed.

(** X10.  [_extract_node_source] on a node whose line span lies in the
    text returns exactly the lines [lineno .. end_lineno] of the text:
    splitting what it returns gives those lines back, [end_lineno - lineno
    + 1] of them.  For a node that spans every line, it returns the text
    itself, unchanged. *)
Theorem node_source_is_its_lines (content : string) (node : PyNode)
    (first last : Z) :
  lineno node = Some first ->
  end_lineno node = Some last ->
  1 <= first <= last ->
  last <= len (split nl_char content) ->
  split nl_char (_extract_node_source content node)
  = slice (split nl_char content) (first - 1) last
  /\ len (split nl_char (_extract_node_source content node)) = last - first + 1
  /\ (first = 1 -> last = len (split nl_char content) ->
      _extract_node_source content node = content).
Proof.
  intros Hfirst Hend Hfl Hlast.
  unfold _extract_node_source. rewrite Hfirst, Hend.
  destruct (@lines_of_span content first last Hfl Hlast) as [Hlen Hsplit].
  cbv zeta in Hlen, Hsplit.
  split; [exact Hsplit|]. split; [rewrite Hsplit; exact Hlen|].
  intros -> ->.
  rewrite slice_inside by (unfold len; lia).
  replace (Z.to_nat (1 - 1)) with 0%nat by lia. cbn [skipn].
  replace (Z.to_nat (len (split nl_char content) - (1 - 1)))
    with (List.length (split nl_char content)) by (unfold len; lia).
  rewrite List.firstn_all. apply join_split.
Qed.

Lemma node_source_is_its_lines_witness :
  let content := ("import os" ++ nl ++ "def f():" ++ nl ++ "    return 1" ++ nl)%string in
  let node := {| lineno := Some 2; end_lineno := Some 3;
                 decorator_list := Some []; node_str := "<ast.FunctionDef>" |} in
  1 <= 2 <= 3
  /\ 3 <= len (split nl_char content)
  /\ split nl_char (_extract_node_source content node) = ["def f():"; "    return 1"].
Proof.
  intros content node.
  assert (H1 : 1 <= 2 <= 3) by lia.
  assert (H2 : 3 <= len (split nl_char content)) by (vm_compute; discriminate).
  split; [exact H1|]. split; [exact H2|].
  exact (proj1 (@node_source_is_its_lines content node 2 3 eq_refl eq_refl H1 H2)).
Defined.

(** X11.  [_get_full_function_code] and [_get_full_class_code] widen the
    span of the node to the line of its first decorator when the node has
    decorators: for a span that lies in the text they return the lines
    from the smaller of [lineno] and the first decorator's line through
    [end_lineno].  A node without [lineno] or [end_lineno] gives
    [str(node)]. *)
Theorem full_code_starts_at_first_decorator (content : string) (node : PyNode)
    (first last d : Z) (ds : list Z) :
  lineno node = Some first ->
  end_lineno node = Some last ->
  decorator_list node = Some (d :: ds) ->
  1 <= d -> 1 <= first <= last ->
  last <= len (split nl_char content) ->
  split nl_char (_get_full_function_code content node)
  = slice (split nl_char content) (Z.min first d - 1) last
  /\ split nl_char (_get_full_class_code content node)
     = slice (split nl_char content) (Z.min first d - 1) last.
Proof.
  intros Hfirst Hend Hdec Hd Hfl Hlast.
  unfold _get_full_function_code, _get_full_class_code, attribute.
  rewrite Hfirst, Hend, Hdec. cbn [bind].
  replace (Z.min (first - 1) (d - 1)) with (Z.min first d - 1) by lia.
  destruct (@lines_of_span content (Z.min first d) last ltac:(lia) Hlast)
    as [_ Hsplit].
  cbv zeta in Hsplit. split; exact Hsplit.
Qed.

Lemma full_code_starts_at_first_decorator_witness :
  let content := ("@cache" ++ nl ++ "def f():" ++ nl ++ "    return 1")%string in
  let node := {| lineno := Some 2; end_lineno := Some 3;
                 decorator_list := Some [1]; node_str := "<ast.FunctionDef>" |} in
  1 <= 1 /\ 1 <= 2 <= 3
  /\ 3 <= len (split nl_char content)
  /\ _get_full_function_code content node = content.
Proof.
  intros content node.
  assert (H0 : 1 <= 1) by lia.
  assert (H1 : 1 <= 2 <= 3) by lia.
  assert (H2 : 3 <= len (split nl_char content)) by (vm_compute; discriminate).
  split; [exact H0|]. split; [exact H1|]. split; [exact H2|].
  pose proof (proj1 (@full_code_starts_at_first_decorator content node 2 3 1 []
                       eq_refl eq_refl eq_refl H0 H1 H2)) as H.
  rewrite <- (join_split (_get_full_function_code content node)), H.
  reflexivity.
Defined.

(** A node without a line number gives [str(node)]. *)
Lemma full_code_without_lineno (content : string) (node : PyNode) :
  lineno node = None ->
  _get_full_function_code content node = node_str node
  /\ _get_full_class_code content node = node_str node
  /\ _extract_node_source content node = node_str node.
Proof.
  intros H. unfold _get_full_function_code, _get_full_class_code,
    _extract_node_source, attribute.
  rewrite H. cbn [bind]. repeat split; reflexivity.
Qed.

(** ** Modifiers *)

Lemma extract_modifiers_filter (line : string) :
  _extract_modifiers line = filter (fun m => str_in m line) modifier_words.
Proof.
  unfold _extract_modifiers, modifier_words. cbn [filter].
  destruct (str_in "public" line), (str_in "private" line),
    (str_in "protected" line), (str_in "static" line), (str_in "final" line),
    (str_in "abstract" line); reflexivity.
Qed.

Lemma str_in_middle (pre m post : string) : str_in m (pre ++ m ++ post) = true.
Proof. apply PyStrFacts.str_in_split. exists pre, post. reflexivity. Qed.

(** X12.  [_extract_modifiers] reports a modifier exactly when its
    letters occur somewhere in the line, in the fixed order public,
    private, protected, static, final, abstract and each at most once; so
    a modifier is reported for a line in which it is only part of a longer
    word. *)
Theorem extract_modifiers_by_substring (line : string) :
  (forall m, In m (_extract_modifiers line)
             <-> In m modifier_words /\ str_in m line = true)
  /\ NoDup (_extract_modifiers line)
  /\ (forall pre m post, In m modifier_words ->
        In m (_extract_modifiers (pre ++ m ++ post))).
Proof.
  split; [|split].
  - intros m. rewrite extract_modifiers_filter.
    exact (List.filter_In (fun w => str_in w line) m modifier_words).
  - rewrite extract_modifiers_filter. apply List.NoDup_filter.
    unfold modifier_words.
    repeat (constructor; [cbn [In]; intuition discriminate|]). constructor.
  - intros pre m post Hm. rewrite extract_modifiers_filter.
    apply (List.filter_In (fun w => str_in w (pre ++ m ++ post)%string) m modifier_words).
    split; [exact Hm | apply str_in_middle].
Qed.

End LineFacts.

(* ===================================================================== *)
(** * The converter: tables, dependencies and paths *)
(* ===================================================================== *)

Module ConverterFacts.

Import PyStr Json CodeConverter.
Local Open Scope string_scope.

(** ** Supported conversions *)

Lemma str_in_list_In (s : string) (xs : list string) :
  str_in_list s xs = true <-> In s xs.
Proof.
  unfold str_in_list. rewrite List.existsb_exists. split.
  - intros (x & Hx & E). apply String.eqb_eq in E. subst. exact Hx.
  - intros H. exists s. split; [exact H | apply String.eqb_refl].
Qed.

Ltac string_cases :=
  repeat match goal with
  | H : _ \/ _ |- _ => destruct H
  | H : _ /\ _ |- _ => destruct H
  | H : In _ _ |- _ => cbn [In] in H
  | H : False |- _ => destruct H
  | H : @eq string ?a ?b |- _ =>
      first [discriminate H | subst a | subst b | clear H]
  end.

Lemma supported_targets (a b : string) :
  match lookup a supported_conversions with
  | Some targets => str_in_list b targets
  | None => false
  end = true
  <-> In a ["python"; "java"; "javascript"; "typescript"; "cobol"; "cpp"; "c";
            "php"; "ruby"; "go"; "rust"]
      /\ (b = a
          \/ (In b ["python"; "java"; "javascript"; "typescript"; "go"; "rust"]
              /\ ~ (In a ["cobol"; "php"; "ruby"] /\ In b ["go"; "rust"]))).
Proof.
  split.
  - unfold supported_conversions. cbn [lookup].
    repeat match goal with
    | |- context [String.eqb a ?k] =>
        destruct (String.eqb a k) eqn:E;
        [apply String.eqb_eq in E; subst a; rewrite str_in_list_In;
         intros H; cbn [In] in H; split; [cbn [In]; tauto|];
         string_cases;
         first [left; reflexivity
               |right; split; [cbn [In]; tauto|];
                intros [Hs Ht]; cbn [In] in Hs, Ht; string_cases]
        |clear E]
    end.
    discriminate.
  - intros [Ha Hb]. revert Hb. cbn [In] in Ha.
    repeat match goal with
    | H : _ \/ _ |- _ => destruct H
    | H : False |- _ => destruct H
    end; subst a; intros Hb;
    (destruct Hb as [Hb | [Hb Hn]];
     [subst b; vm_compute; reflexivity|]);
    cbn [In] in Hb;
    repeat match goal with
    | H : _ \/ _ |- _ => destruct H
    | H : False |- _ => destruct H
    end; subst b;
    first [vm_compute; reflexivity
          |exfalso; apply Hn; split; cbn [In]; tauto].
Qed.

(** X13.  A conversion is supported exactly when the lowered source is
    one of the eleven languages of the table and the lowered target is the
    source itself or one of python, java, javascript, typescript, go and
    rust, go and rust being refused for the sources cobol, php and ruby.
    The names are compared after [lower], so their case does not matter. *)
Theorem conversion_supported_closed_form (source_language target_language : string) :
  _is_conversion_supported source_language target_language = true
  <-> In (lower source_language)
         ["python"; "java"; "javascript"; "typescript"; "cobol"; "cpp"; "c";
          "php"; "ruby"; "go"; "rust"]
      /\ (lower target_language = lower source_language
          \/ (In (lower target_language)
                 ["python"; "java"; "javascript"; "typescript"; "go"; "rust"]
              /\ ~ (In (lower source_language) ["cobol"; "php"; "ruby"]
                    /\ In (lower target_language) ["go"; "rust"]))).
Proof.
  unfold _is_conversion_supported.
  exact (supported_targets (lower source_language) (lower target_language)).
Qed.

(** ** Dependencies *)

Lemma deps_set_app (k v : string) (d1 d2 : deps) :
  (forall v', lookup k d1 = Some v' -> v' = v) ->
  exists extra, deps_set k v (d1 ++ d2)%list = (d1 ++ extra)%list.
Proof.
  induction d1 as [|[k' v'] rest IH]; intros Hv.
  - exists (deps_set k v d2). reflexivity.
  - cbn [app deps_set]. cbn [lookup] in Hv.
    destruct (String.eqb k k') eqn:E.
    + apply String.eqb_eq in E. subst k'.
      rewrite (Hv v' eq_refl). exists d2. reflexivity.
    + destruct (IH Hv) as [extra ->]. exists extra. reflexivity.
Qed.

Lemma deps_update_app (other d1 d2 : deps) :
  (forall k v v', In (k, v) other -> lookup k d1 = Some v' -> v' = v) ->
  exists extra, deps_update (d1 ++ d2)%list other = (d1 ++ extra)%list.
Proof.
  unfold deps_update. revert d2.
  induction other as [|[k v] rest IH]; intros d2 Ha.
  - exists d2. reflexivity.
  - cbn [fold_left fst snd].
    destruct (@deps_set_app k v d1 d2) as [extra ->].
    + intros v' Hv. exact (Ha k v v' (or_introl eq_refl) Hv).
    + apply IH. intros k0 v0 v0' Hin. apply Ha. right. exact Hin.
Qed.

Ltac closed_entries H :=
  vm_compute in H;
  repeat match type of H with
  | _ \/ _ => destruct H as [H|H]
  | False => destruct H
  end;
  try (injection H as <- <-).

(** The versions that the analysis gives are those of the defaults on the
    keys they share. *)
Lemma analysis_agrees_with_defaults (content language : string)
    (target_framework : option string) (k v v' : string) :
  In (k, v) (_analyze_file_dependencies content language) ->
  lookup k (_get_default_dependencies language target_framework) = Some v' ->
  v' = v.
Proof.
  intros Hin Hl. revert Hin Hl.
  unfold _analyze_file_dependencies, _get_default_dependencies.
  destruct (String.eqb (lower language) "python") eqn:Epy.
  { apply String.eqb_eq in Epy. rewrite Epy.
    destruct (str_in "import requests" content || str_in "from requests" content);
    destruct (str_in "import json" content);
    destruct (str_in "import asyncio" content);
    intros Hin Hl; closed_entries Hin; vm_compute in Hl; congruence. }
  destruct (String.eqb (lower language) "javascript") eqn:Ejs.
  { apply String.eqb_eq in Ejs. rewrite Ejs.
    destruct (str_in "require(" content || str_in "import " content);
    destruct (str_in "axios" content);
    destruct (str_in "lodash" content);
    intros Hin Hl; closed_entries Hin; vm_compute in Hl; congruence. }
  destruct (String.eqb (lower language) "java") eqn:Ejava.
  { apply String.eqb_eq in Ejava. rewrite Ejava.
    destruct (is_spring target_framework);
    destruct (str_in "import java.util" content);
    destruct (str_in "import org.junit" content);
    intros Hin Hl; closed_entries Hin; vm_compute in Hl; congruence. }
  intros [].
Qed.

Lemma generated_dependencies_prefix (target_language : string)
    (converted_files : list RecoveryResult) (target_framework : option string) :
  exists found,
    generate_dependencies target_language converted_files target_framework
    = (_get_default_dependencies target_language target_framework ++ found)%list.
Proof.
  unfold generate_dependencies.
  set (defaults := _get_default_dependencies target_language target_framework).
  assert (H : forall extra,
            exists found,
              fold_left
                (fun dependencies file_data =>
                   deps_update dependencies
                     (_analyze_file_dependencies (content file_data) target_language))
                converted_files (defaults ++ extra)%list
              = (defaults ++ found)%list).
  { induction converted_files as [|f rest IH]; intros extra.
    - exists extra. reflexivity.
    - cbn [fold_left].
      destruct (@deps_update_app
                  (_analyze_file_dependencies (content f) target_language)
                  defaults extra) as [extra' ->].
      + intros k v v'. apply analysis_agrees_with_defaults.
      + apply IH. }
  destruct (H []) as [found Hf]. rewrite List.app_nil_r in Hf.
  exists found. exact Hf.
Qed.

(** X14.  The dictionary of [generate_dependencies] begins with the
    defaults of the language and framework, in their order and with their
    versions: what the analysis of the files finds is only ever added
    after them, and no default is dropped or given another version. *)
Theorem generated_dependencies_extend_the_defaults (target_language : string)
    (converted_files : list RecoveryResult) (target_framework : option string) :
  exists found,
    generate_dependencies target_language converted_files target_framework
    = (_get_default_dependencies target_language target_framework ++ found)%list.
Proof. apply generated_dependencies_prefix. Qed.

Lemma deps_set_in (k v : string) (d : deps) : In (k, v) (deps_set k v d).
Proof.
  induction d as [|[k' v'] rest IH]; cbn [deps_set].
  - left. reflexivity.
  - destruct (String.eqb k k'); [left; reflexivity | right; exact IH].
Qed.

Lemma deps_set_keeps (k v k0 v0 : string) (d : deps) :
  In (k0, v0) d -> (k = k0 -> v = v0) -> In (k0, v0) (deps_set k v d).
Proof.
  intros Hin Hv. induction d as [|[k' v'] rest IH]; [destruct Hin|].
  cbn [deps_set]. destruct (String.eqb k k') eqn:E.
  - destruct Hin as [Hin|Hin]; [|right; exact Hin].
    injection Hin as -> ->. apply String.eqb_eq in E.
    left. rewrite (Hv E). rewrite E. reflexivity.
  - destruct Hin as [Hin|Hin]; [left; exact Hin | right; exact (IH Hin)].
Qed.

Lemma deps_update_keeps (k0 v0 : string) (other d : deps) :
  In (k0, v0) d -> (forall v, In (k0, v) other -> v = v0) ->
  In (k0, v0) (deps_update d other).
Proof.
  unfold deps_update. revert d.
  induction other as [|[k v] rest IH]; intros d Hin Hv; [exact Hin|].
  cbn [fold_left fst snd]. apply IH.
  - apply deps_set_keeps; [exact Hin|].
    intros ->. apply Hv. left. reflexivity.
  - intros v' Hv'. apply Hv. right. exact Hv'.
Qed.

Lemma deps_update_in (k0 v0 : string) (other d : deps) :
  In (k0, v0) other -> (forall v, In (k0, v) other -> v = v0) ->
  In (k0, v0) (deps_update d other).
Proof.
  unfold deps_update. revert d.
  induction other as [|[k v] rest IH]; intros d Hin Hv; [destruct Hin|].
  cbn [fold_left fst snd]. destruct Hin as [Hin|Hin].
  - injection Hin as -> ->.
    apply (@deps_update_keeps k0 v0 rest).
    + apply deps_set_in.
    + intros v' Hv'. apply Hv. right. exact Hv'.
  - apply IH; [exact Hin|].
    intros v' Hv'. apply Hv. right. exact Hv'.
Qed.

(** The analysis gives a name the same version in every file. *)
Lemma analysis_versions_agree (content content' language k v v' : string) :
  In (k, v) (_analyze_file_dependencies content language) ->
  In (k, v') (_analyze_file_dependencies content' language) ->
  v' = v.
Proof.
  unfold _analyze_file_dependencies.
  destruct (String.eqb (lower language) "python").
  { destruct (str_in "import requests" content || str_in "from requests" content);
    destruct (str_in "import json" content);
    destruct (str_in "import asyncio" content);
    intros Hin; closed_entries Hin;
    destruct (str_in "import requests" content' || str_in "from requests" content');
    destruct (str_in "import json" content');
    destruct (str_in "import asyncio" content');
    intros Hin'; closed_entries Hin'; congruence. }
  destruct (String.eqb (lower language) "javascript").
  { destruct (str_in "require(" content || str_in "import " content);
    destruct (str_in "axios" content);
    destruct (str_in "lodash" content);
    intros Hin; closed_entries Hin;
    destruct (str_in "require(" content' || str_in "import " content');
    destruct (str_in "axios" content');
    destruct (str_in "lodash" content');
    intros Hin'; closed_entries Hin'; congruence. }
  destruct (String.eqb (lower language) "java").
  { destruct (str_in "import java.util" content);
    destruct (str_in "import org.junit" content);
    intros Hin; closed_entries Hin;
    destruct (str_in "import java.util" content');
    destruct (str_in "import org.junit" content');
    intros Hin'; closed_entries Hin'; congruence. }
  intros [].
Qed.

Lemma found_entries_are_kept (target_language : string)
    (converted_files : list RecoveryResult) (target_framework : option string)
    (file_data : RecoveryResult) (dep version : string) :
  In file_data converted_files ->
  In (dep, version)
     (_analyze_file_dependencies (content file_data) target_language) ->
  In (dep, version)
     (generate_dependencies target_language converted_files target_framework).
Proof.
  unfold generate_dependencies.
  generalize (_get_default_dependencies target_language target_framework).
  intros d Hf Hin. revert d.
  assert (Hkeep : forall files d,
            In (dep, version) d ->
            In (dep, version)
               (fold_left
                  (fun dependencies file_data =>
                     deps_update dependencies
                       (_analyze_file_dependencies (content file_data)
                          target_language))
                  files d)).
  { induction files as [|f rest IH]; intros d Hd; [exact Hd|].
    cbn [fold_left]. apply IH. apply deps_update_keeps; [exact Hd|].
    intros v Hv.
    exact (@analysis_versions_agree (content file_data) (content f)
             target_language dep version v Hin Hv). }
  induction converted_files as [|f rest IH]; intros d; [destruct Hf|].
  cbn [fold_left]. destruct Hf as [->|Hf].
  - apply Hkeep. apply deps_update_in; [exact Hin|].
    intros v Hv.
    exact (@analysis_versions_agree (content file_data) (content file_data)
             target_language dep version v Hin Hv).
  - apply IH. exact Hf.
Qed.

Lemma deps_set_from (k v k0 v0 : string) (d : deps) :
  In (k0, v0) (deps_set k v d) -> (k0, v0) = (k, v) \/ In (k0, v0) d.
Proof.
  induction d as [|[k' v'] rest IH]; cbn [deps_set].
  - intros [H|[]]. left. symmetry. exact H.
  - destruct (String.eqb k k').
    + intros [H|H]; [left; symmetry; exact H | right; right; exact H].
    + intros [H|H]; [right; left; exact H|].
      destruct (IH H) as [E|E]; [left; exact E | right; right; exact E].
Qed.

Lemma deps_update_from (k0 v0 : string) (other d : deps) :
  In (k0, v0) (deps_update d other) -> In (k0, v0) d \/ In (k0, v0) other.
Proof.
  unfold deps_update. revert d.
  induction other as [|[k v] rest IH]; intros d; cbn [fold_left fst snd].
  - intros H. left. exact H.
  - intros H. destruct (IH _ H) as [H'|H'].
    + destruct (@deps_set_from k v k0 v0 d H') as [E|E].
      * right. left. symmetry. exact E.
      * left. exact E.
    + right. right. exact H'.
Qed.

Lemma generated_entries_origin (target_language : string)
    (converted_files : list RecoveryResult) (target_framework : option string)
    (dep version : string) :
  In (dep, version)
     (generate_dependencies target_language converted_files target_framework) ->
  In (dep, version) (_get_default_dependencies target_language target_framework)
  \/ exists file_data,
       In file_data converted_files
       /\ In (dep, version)
             (_analyze_file_dependencies (content file_data) target_language).
Proof.
  unfold generate_dependencies.
  generalize (_get_default_dependencies target_language target_framework).
  induction converted_files as [|f rest IH]; intros d; cbn [fold_left].
  - intros H. left. exact H.
  - intros H. destruct (IH _ H) as [H'|(g & Hg & Hin)].
    + destruct (@deps_update_from dep version _ _ H') as [Hd|Hf].
      * left. exact Hd.
      * right. exists f. split; [left; reflexivity | exact Hf].
    + right. exists g. split; [right; exact Hg | exact Hin].
Qed.

(** X15.  The entries of the generated dependencies are exactly the
    defaults of the language and framework and the entries that the
    analysis finds in the converted files: nothing found in a file is
    lost, whatever the other files hold, and nothing else is added. *)
Theorem generated_dependencies_are_defaults_and_findings
    (target_language : string) (converted_files : list RecoveryResult)
    (target_framework : option string) (dep version : string) :
  In (dep, version)
     (generate_dependencies target_language converted_files target_framework)
  <-> (In (dep, version)
          (_get_default_dependencies target_language target_framework)
       \/ exists file_data,
            In file_data converted_files
            /\ In (dep, version)
                  (_analyze_file_dependencies (content file_data)
                     target_language)).
Proof.
  split; [apply generated_entries_origin|].
  intros [Hd | (file_data & Hf & Hin)].
  - destruct (@generated_dependencies_prefix target_language converted_files
                target_framework) as [found ->].
    apply List.in_or_app. left. exact Hd.
  - exact (@found_entries_are_kept target_language converted_files
             target_framework file_data dep version Hf Hin).
Qed.

(** ** The dependencies file *)

Lemma str_in_app_l (sub a b : string) :
  str_in sub a = true -> str_in sub (a ++ b) = true.
Proof.
  intros H. apply PyStrFacts.str_in_split in H. destruct H as (pre & post & ->).
  apply PyStrFacts.str_in_split. exists pre, (post ++ b)%string.
  rewrite !PyStrFacts.append_assoc. reflexivity.
Qed.

Lemma str_in_app_r (sub a b : string) :
  str_in sub b = true -> str_in sub (a ++ b) = true.
Proof.
  intros H. apply PyStrFacts.str_in_split in H. destruct H as (pre & post & ->).
  apply PyStrFacts.str_in_split. exists (a ++ pre)%string, post.
  rewrite !PyStrFacts.append_assoc. reflexivity.
Qed.

(** A loop that appends one piece of text for each entry: the text written
    holds the piece of every entry. *)
Lemma written_holds_piece (step : string -> string * string -> string)
    (piece : string * string -> string) :
  (forall written item, step written item = (written ++ piece item)%string) ->
  forall (d : deps) (written : string) (item : string * string),
    In item d -> str_in (piece item) (fold_left step d written) = true.
Proof.
  intros Hstep.
  assert (Hkeep : forall d written sub,
            str_in sub written = true ->
            str_in sub (fold_left step d written) = true).
  { induction d as [|x rest IH]; intros written sub Hs; [exact Hs|].
    cbn [fold_left]. apply IH. rewrite Hstep. apply str_in_app_l. exact Hs. }
  induction d as [|x rest IH]; intros written item Hin; [destruct Hin|].
  cbn [fold_left]. destruct Hin as [->|Hin].
  - apply Hkeep. rewrite Hstep. apply str_in_app_r.
    apply PyStrFacts.str_in_prefix.
    rewrite <- (PyStrFacts.prefix_app (piece item) EmptyString) at 1.
    f_equal. induction (piece item) as [|c t IHt]; cbn; congruence.
  - apply IH. exact Hin.
Qed.

(** X16.  For the target language python, a converted file that holds
    [import json] or [import asyncio] puts the line [json==builtin] or
    [asyncio==builtin] in the text written to [requirements.txt]: modules
    of the standard library are written as requirements. *)
Theorem python_builtin_modules_are_written_as_requirements
    (json_dump : deps -> string) (target_language : string)
    (converted_files : list RecoveryResult) (target_framework : option string)
    (file_data : RecoveryResult) (module : string) :
  lower target_language = "python" ->
  In file_data converted_files ->
  In module ["json"; "asyncio"] ->
  str_in ("import " ++ module) (content file_data) = true ->
  let dependencies :=
    generate_dependencies target_language converted_files target_framework in
  fst (dependencies_file json_dump target_language dependencies) = "requirements.txt"
  /\ str_in (module ++ "==builtin" ++ nl)
            (snd (dependencies_file json_dump target_language dependencies)) = true.
Proof.
  intros Hl Hf Hm Hc dependencies.
  assert (Hin : In (module, "builtin") dependencies).
  { apply found_entries_are_kept with (file_data := file_data); [exact Hf|].
    unfold _analyze_file_dependencies. rewrite Hl.
    change (String.eqb "python" "python") with true. cbv iota.
    cbn [In] in Hm. destruct Hm as [<-|[<-|[]]].
    - change (str_in "import json" (content file_data) = true) in Hc.
      rewrite Hc.
      destruct (str_in "import requests" (content file_data)
                || str_in "from requests" (content file_data));
      destruct (str_in "import asyncio" (content file_data));
      vm_compute; tauto.
    - change (str_in "import asyncio" (content file_data) = true) in Hc.
      rewrite Hc.
      destruct (str_in "import requests" (content file_data)
                || str_in "from requests" (content file_data));
      destruct (str_in "import json" (content file_data));
      vm_compute; tauto. }
  unfold dependencies_file, _get_dependencies_filename. rewrite Hl.
  split; [reflexivity|].
  change (snd (?a, ?b)) with b.
  match goal with
  | |- str_in _ (if ?c then _ else _) = true =>
      change c with false; cbv iota
  end.
  match goal with
  | |- str_in _ (if ?c then _ else _) = true =>
      change c with true; cbv iota
  end.
  exact (@written_holds_piece
           (fun written item => written ++ fst item ++ "==" ++ snd item ++ nl)%string
           (fun item => fst item ++ "==" ++ snd item ++ nl)%string
           (fun _ _ => eq_refl) dependencies EmptyString (module, "builtin") Hin).
Qed.

Lemma python_builtin_modules_are_written_as_requirements_witness :
  let file_data :=
    {| filename := JString "load.py"; content := "import json" ++ nl;
       dependencies := JObject []; notes := JString EmptyString |} in
  let dependencies := generate_dependencies "Python" [file_data] None in
  lower "Python" = "python"
  /\ snd (dependencies_file (fun _ => EmptyString) "Python" dependencies)
     = "requests==2.31.0" ++ nl ++ "pydantic==2.5.0" ++ nl ++ "json==builtin" ++ nl
  /\ str_in ("json" ++ "==builtin" ++ nl)
            (snd (dependencies_file (fun _ => EmptyString) "Python" dependencies))
     = true.
Proof.
  intros file_data dependencies.
  split; [reflexivity|]. split; [vm_compute; reflexivity|].
  refine (proj2 (@python_builtin_modules_are_written_as_requirements
                   (fun _ => EmptyString) "Python" [file_data] None file_data
                   "json" eq_refl _ _ _)).
  - left. reflexivity.
  - left. reflexivity.
  - vm_compute. reflexivity.
Defined.

Lemma written_not_empty (step : string -> string * string -> string)
    (piece : string * string -> string) :
  (forall written item, step written item = (written ++ piece item)%string) ->
  (forall item, piece item <> EmptyString) ->
  forall (d : deps) (written : string),
    d <> [] -> fold_left step d written <> EmptyString.
Proof.
  intros Hstep Hpiece d written Hd E.
  destruct d as [|x rest]; [exact (Hd eq_refl)|].
  pose proof (@written_holds_piece step piece Hstep (x :: rest) written x
                (or_introl eq_refl)) as H.
  rewrite E in H. cbn [str_in] in H. rewrite orb_false_r in H.
  apply (Hpiece x). destruct (piece x); [reflexivity | discriminate H].
Qed.

Lemma app_not_empty (a b : string) : b <> EmptyString -> (a ++ b)%string <> EmptyString.
Proof. intros Hb. destruct a; [exact Hb | discriminate]. Qed.

Ltac closed_tests :=
  repeat match goal with
  | |- context [endswith ?a ?b] =>
      let v := eval vm_compute in (endswith a b) in
      change (endswith a b) with v
  | |- context [String.eqb ?a ?b] =>
      let v := eval vm_compute in (String.eqb a b) in
      change (String.eqb a b) with v
  end; cbv iota.

(** X17.  Go is the one target language whose dependencies are written
    nowhere: its dependencies file is [go.mod] and the text written to it
    is empty whatever the dependencies are, while for every other
    language a dictionary that is not empty gives a text that is not
    empty (the text of [json.dump] being not empty). *)
Theorem only_go_dependencies_are_written_nowhere (json_dump : deps -> string)
    (target_language : string) (dependencies : deps) :
  dependencies <> [] ->
  json_dump dependencies <> EmptyString ->
  (snd (dependencies_file json_dump target_language dependencies) = EmptyString
   <-> lower target_language = "go")
  /\ (lower target_language = "go" ->
      fst (dependencies_file json_dump target_language dependencies) = "go.mod").
Proof.
  intros Hd Hj.
  assert (Hlines :
            fold_left
              (fun written item =>
                 written ++ fst item ++ "==" ++ snd item ++ nl)%string
              dependencies EmptyString <> EmptyString).
  { apply (@written_not_empty _
             (fun item => fst item ++ "==" ++ snd item ++ nl)%string);
      [reflexivity | | exact Hd].
    intros item. apply app_not_empty. discriminate. }
  assert (Htoml :
            fold_left
              (fun written item =>
                 written ++ fst item ++ " = " ++ dq ++ snd item ++ dq ++ nl)%string
              dependencies ("[dependencies]" ++ nl) <> EmptyString).
  { apply (@written_not_empty _
             (fun item => fst item ++ " = " ++ dq ++ snd item ++ dq ++ nl)%string);
      [reflexivity | | exact Hd].
    intros item. apply app_not_empty. discriminate. }
  assert (Hpom : _generate_spring_boot_pom_xml dependencies <> EmptyString).
  { unfold _generate_spring_boot_pom_xml. apply app_not_empty. discriminate. }
  unfold dependencies_file, _get_dependencies_filename. cbn [lookup fst snd].
  destruct (String.eqb (lower target_language) "python") eqn:E1.
  { apply String.eqb_eq in E1. rewrite E1. closed_tests.
    split; [split; [intros H; destruct (Hlines H) | discriminate] | discriminate]. }
  destruct (String.eqb (lower target_language) "java") eqn:E2.
  { apply String.eqb_eq in E2. rewrite E2. closed_tests.
    split; [split; [intros H; destruct (Hpom H) | discriminate] | discriminate]. }
  destruct (String.eqb (lower target_language) "javascript") eqn:E3.
  { apply String.eqb_eq in E3. rewrite E3. closed_tests.
    split; [split; [intros H; destruct (Hj H) | discriminate] | discriminate]. }
  destruct (String.eqb (lower target_language) "typescript") eqn:E4.
  { apply String.eqb_eq in E4. rewrite E4. closed_tests.
    split; [split; [intros H; destruct (Hj H) | discriminate] | discriminate]. }
  destruct (String.eqb (lower target_language) "go") eqn:E5.
  { apply String.eqb_eq in E5. rewrite E5. closed_tests.
    split; [split; reflexivity | reflexivity]. }
  apply String.eqb_neq in E5.
  destruct (String.eqb (lower target_language) "rust") eqn:E6.
  { closed_tests.
    split; [split; [intros H; destruct (Htoml H) | intros H; destruct (E5 H)]
           | intros H; destruct (E5 H)]. }
  closed_tests.
  split; [split; [intros H; destruct (Hlines H) | intros H; destruct (E5 H)]
         | intros H; destruct (E5 H)].
Qed.

Lemma only_go_dependencies_are_written_nowhere_witness :
  let dependencies := generate_dependencies "Go" [] None in
  dependencies <> []
  /\ (fun _ : deps => "{}") dependencies <> EmptyString
  /\ dependencies_file (fun _ => "{}") "Go" dependencies = ("go.mod", EmptyString).
Proof.
  intros dependencies.
  assert (H1 : dependencies <> []) by discriminate.
  assert (H2 : (fun _ : deps => "{}") dependencies <> EmptyString) by discriminate.
  split; [exact H1|]. split; [exact H2|].
  destruct (@only_go_dependencies_are_written_nowhere (fun _ => "{}") "Go"
              dependencies H1 H2) as [Htext Hname].
  rewrite (surjective_pairing (dependencies_file (fun _ => "{}") "Go" dependencies)).
  rewrite (proj2 Htext eq_refl), (Hname eq_refl). reflexivity.
Defined.

(** X18.  In the [pom.xml] text every dependency has its block.  A name
    that starts with [spring-boot] is written under the group
    [org.springframework.boot] without its version; every other name,
    whatever it is, is written under the group [org.junit.jupiter] with
    its version and the scope [test]. *)
Theorem pom_has_a_block_for_every_dependency (dependencies : deps)
    (dep version : string) :
  In (dep, version) dependencies ->
  str_in
    (if startswith dep "spring-boot" then
       join nl
         [ EmptyString;
           "        <dependency>";
           "            <groupId>org.springframework.boot</groupId>";
           "            <artifactId>" ++ dep ++ "</artifactId>";
           "        </dependency>" ]
     else
       join nl
         [ EmptyString;
           "        <dependency>";
           "            <groupId>org.junit.jupiter</groupId>";
           "            <artifactId>" ++ dep ++ "</artifactId>";
           "            <version>" ++ version ++ "</version>";
           "            <scope>test</scope>";
           "        </dependency>" ])
    (_generate_spring_boot_pom_xml dependencies) = true.
Proof.
  intros Hin. unfold _generate_spring_boot_pom_xml. apply str_in_app_l.
  match goal with
  | |- str_in _ (fold_left ?step _ ?head) = true =>
      refine (@written_holds_piece step
                (fun item =>
                   if startswith (fst item) "spring-boot" then
                     join nl
                       [ EmptyString;
                         "        <dependency>";
                         "            <groupId>org.springframework.boot</groupId>";
                         "            <artifactId>" ++ fst item ++ "</artifactId>";
                         "        </dependency>" ]
                   else
                     join nl
                       [ EmptyString;
                         "        <dependency>";
                         "            <groupId>org.junit.jupiter</groupId>";
                         "            <artifactId>" ++ fst item ++ "</artifactId>";
                         "            <version>" ++ snd item ++ "</version>";
                         "            <scope>test</scope>";
                         "        </dependency>" ])%string
                _ dependencies head (dep, version) Hin)
  end.
  intros written item. cbv beta.
  destruct (startswith (fst item) "spring-boot"); reflexivity.
Qed.

Lemma pom_has_a_block_for_every_dependency_witness :
  let dependencies := generate_dependencies "java" [] (Some "spring_boot") in
  In ("slf4j-api", "2.0.7") dependencies
  /\ str_in
       (join nl
          [ EmptyString;
            "        <dependency>";
            "            <groupId>org.junit.jupiter</groupId>";
            "            <artifactId>slf4j-api</artifactId>";
            "            <version>2.0.7</version>";
            "            <scope>test</scope>";
            "        </dependency>" ])
       (_generate_spring_boot_pom_xml dependencies) = true.
Proof.
  intros dependencies.
  assert (H : In ("slf4j-api", "2.0.7") dependencies) by (vm_compute; tauto).
  split; [exact H|].
  exact (@pom_has_a_block_for_every_dependency dependencies "slf4j-api" "2.0.7" H).
Defined.

(** X29.  Called without a target framework, as the convert endpoint
    calls it, [generate_dependencies] gives a dictionary in which no name
    starts with [spring-boot], whatever the target language and the
    converted files are: the Spring Boot starters are defaults of java
    with the framework spring or spring_boot only, and the analysis of
    the files never adds one. *)
Theorem dependencies_without_framework_have_no_spring_starter
    (target_language : string) (converted_files : list RecoveryResult)
    (dep version : string) :
  In (dep, version) (generate_dependencies target_language converted_files None) ->
  startswith dep "spring-boot" = false.
Proof.
  intros H. apply generated_entries_origin in H.
  destruct H as [H | (file_data & _ & H)]; revert H.
  - unfold _get_default_dependencies. cbn [is_spring]. rewrite andb_false_r.
    cbn [lookup].
    repeat match goal with
    | |- context [String.eqb (lower target_language) ?k] =>
        destruct (String.eqb (lower target_language) k)
    end;
    intros H; closed_entries H; reflexivity.
  - unfold _analyze_file_dependencies.
    destruct (String.eqb (lower target_language) "python").
    { destruct (str_in "import requests" (content file_data)
                || str_in "from requests" (content file_data));
      destruct (str_in "import json" (content file_data));
      destruct (str_in "import asyncio" (content file_data));
      intros H; closed_entries H; reflexivity. }
    destruct (String.eqb (lower target_language) "javascript").
    { destruct (str_in "require(" (content file_data)
                || str_in "import " (content file_data));
      destruct (str_in "axios" (content file_data));
      destruct (str_in "lodash" (content file_data));
      intros H; closed_entries H; reflexivity. }
    destruct (String.eqb (lower target_language) "java").
    { destruct (str_in "import java.util" (content file_data));
      destruct (str_in "import org.junit" (content file_data));
      intros H; closed_entries H; reflexivity. }
    intros [].
Qed.

Lemma dependencies_without_framework_have_no_spring_starter_witness :
  In ("junit", "5.9.2") (generate_dependencies "java" [] None)
  /\ In ("spring-boot-starter-web", "3.2.0")
        (generate_dependencies "java" [] (Some "spring_boot"))
  /\ startswith "junit" "spring-boot" = false.
Proof.
  assert (H : In ("junit", "5.9.2") (generate_dependencies "java" [] None))
    by (vm_compute; tauto).
  split; [exact H|]. split; [vm_compute; tauto|].
  exact (@dependencies_without_framework_have_no_spring_starter "java" []
           "junit" "5.9.2" H).
Defined.

End ConverterFacts.

(* ===================================================================== *)
(** * The converter: target paths and file names *)
(* ===================================================================== *)

Module PathFacts.

Import PyStr Json CodeConverter.
Local Open Scope string_scope.
Local Open Scope Z_scope.

(** ** [os.path.basename] *)

Lemma rfind_from_absent (c : ascii) (s : string) (i : Z) :
  count s c = 0 -> rfind_from i c s = -1.
Proof.
  revert i. induction s as [|d s IH]; intros i H; [reflexivity|].
  cbn [count] in H. cbn [rfind_from].
  pose proof (LineFacts.count_nonneg s c) as Hs.
  destruct (Ascii.eqb d c); [lia|].
  rewrite IH by lia. reflexivity.
Qed.

Lemma rfind_from_last (c : ascii) (a f : string) (i : Z) :
  0 <= i -> count f c = 0 ->
  rfind_from i c (a ++ String c f) = i + Z.of_nat (String.length a).
Proof.
  revert i. induction a as [|d a IH]; intros i Hi Hf.
  - cbn [String.append rfind_from String.length].
    rewrite (@rfind_from_absent c f (i + 1) Hf).
    change (0 <=? -1) with false. cbv iota.
    rewrite Ascii.eqb_refl. lia.
  - cbn [String.append rfind_from String.length].
    rewrite IH by lia.
    destruct (0 <=? i + 1 + Z.of_nat (String.length a)) eqn:E.
    + lia.
    + apply Z.leb_gt in E. lia.
Qed.

Lemma take_all (s : string) : take (String.length s) s = s.
Proof. induction s as [|c s IH]; cbn [take String.length]; congruence. Qed.

(** The base name of a path without a slash is the path. *)
Lemma basename_plain (p : string) : count p "/" = 0 -> basename p = p.
Proof.
  intros H. unfold basename, rfind, PyStr.slice, clamp.
  rewrite (@rfind_from_absent "/" p 0 H).
  change (-1 + 1 <? 0) with false. cbv iota.
  destruct (Z.of_nat (String.length p) <? 0) eqn:E; [apply Z.ltb_lt in E; lia|].
  replace (Z.to_nat (Z.min (-1 + 1) (Z.of_nat (String.length p)))) with O by lia.
  replace (Z.to_nat (Z.min (Z.of_nat (String.length p)) (Z.of_nat (String.length p))
                     - Z.min (-1 + 1) (Z.of_nat (String.length p))))
    with (String.length p) by lia.
  cbn [drop]. apply take_all.
Qed.

(** The base name of [a/f], for [f] without a slash, is [f]. *)
Lemma basename_after_slash (a f : string) :
  count f "/" = 0 -> basename (a ++ String "/" f) = f.
Proof.
  intros H. unfold basename, rfind, PyStr.slice, clamp.
  rewrite (@rfind_from_last "/" a f 0 (Z.le_refl 0) H).
  rewrite RepairFacts.length_app. cbn [String.length].
  set (n := String.length a). set (m := String.length f).
  destruct (0 + Z.of_nat n + 1 <? 0) eqn:E1; [apply Z.ltb_lt in E1; lia|].
  destruct (Z.of_nat (n + S m) <? 0) eqn:E2; [apply Z.ltb_lt in E2; lia|].
  replace (Z.to_nat (Z.min (0 + Z.of_nat n + 1) (Z.of_nat (n + S m))))
    with (String.length (a ++ "/")).
  2:{ rewrite RepairFacts.length_app. cbn [String.length]. lia. }
  replace (Z.to_nat (Z.min (Z.of_nat (n + S m)) (Z.of_nat (n + S m))
                     - Z.min (0 + Z.of_nat n + 1) (Z.of_nat (n + S m))))
    with m by lia.
  replace (a ++ String "/" f) with ((a ++ "/") ++ f).
  2:{ rewrite PyStrFacts.append_assoc. reflexivity. }
  rewrite RepairFacts.drop_app. apply take_all.
Qed.

(** A text without [c], or the text before the last [c] and the text
    after it. *)
Lemma last_occurrence (c : ascii) (p : string) :
  count p c = 0
  \/ exists a f, p = a ++ String c f /\ count f c = 0.
Proof.
  induction p as [|d p IH].
  - left. reflexivity.
  - destruct IH as [H0 | (a & f & -> & Hf)].
    + cbn [count]. destruct (Ascii.eqb d c) eqn:E.
      * right. apply Ascii.eqb_eq in E. subst d.
        exists EmptyString, p. split; [reflexivity | exact H0].
      * left. lia.
    + right. exists (String d a), f. split; [reflexivity | exact Hf].
Qed.

(** A base name holds no slash. *)
Lemma basename_has_no_slash (p : string) : count (basename p) "/" = 0.
Proof.
  destruct (last_occurrence "/" p) as [H0 | (a & f & -> & Hf)].
  - rewrite (@basename_plain p H0). exact H0.
  - rewrite (@basename_after_slash a f Hf). exact Hf.
Qed.

(** The base name of a base name under a directory. *)
Lemma basename_under (d p : string) :
  basename (d ++ String "/" (basename p)) = basename p.
Proof. apply basename_after_slash, basename_has_no_slash. Qed.

(** ** The framework directory *)

Lemma framework_directory_shape (target_language target_framework original_path : string) :
  target_framework <> EmptyString -> target_framework <> "none" ->
  exists directory,
    _get_framework_directory_structure target_language target_framework
      original_path
    = directory ++ "/" ++ basename original_path.
Proof.
  intros H1 H2. unfold _get_framework_directory_structure.
  apply String.eqb_neq in H1, H2. rewrite H1, H2. cbn [orb].
  repeat match goal with
  | |- context [if ?b then _ else _] => destruct b
  end;
  first
    [ exists "src"; reflexivity
    | exists "django_app"; reflexivity
    | exists "flask_app"; reflexivity
    | exists "fastapi_app"; reflexivity
    | exists "src/components"; reflexivity
    | exists "src/app"; reflexivity
    | exists "app"; reflexivity
    | exists ("src/main/java/com/example/"
              ++ lower (fst (splitext (basename original_path))));
      rewrite PyStrFacts.append_assoc; reflexivity ].
Qed.

(** X19.  With a framework other than the empty text and [none],
    [_get_framework_directory_structure] returns a directory, a slash and
    the base name of the original path: the file keeps the name and the
    extension it had in the source language, whatever the target language
    is, and its own directories are dropped. *)
Theorem framework_directory_keeps_the_file_name
    (target_language target_framework original_path : string) :
  target_framework <> EmptyString -> target_framework <> "none" ->
  (exists directory,
     _get_framework_directory_structure target_language target_framework
       original_path
     = directory ++ "/" ++ basename original_path)
  /\ basename (_get_framework_directory_structure target_language
                 target_framework original_path)
     = basename original_path.
Proof.
  intros H1 H2.
  destruct (@framework_directory_shape target_language target_framework
              original_path H1 H2) as [directory E].
  split; [exists directory; exact E|].
  rewrite E. exact (@basename_under directory original_path).
Qed.

Lemma framework_directory_keeps_the_file_name_witness :
  "django" <> EmptyString /\ "django" <> "none"
  /\ _get_framework_directory_structure "python" "django" "legacy/web/Login.java"
     = "django_app/Login.java"
  /\ basename (_get_framework_directory_structure "python" "django"
                 "legacy/web/Login.java")
     = basename "legacy/web/Login.java".
Proof.
  assert (H1 : "django" <> EmptyString) by discriminate.
  assert (H2 : "django" <> "none") by discriminate.
  split; [exact H1|]. split; [exact H2|]. split; [vm_compute; reflexivity|].
  exact (proj2 (@framework_directory_keeps_the_file_name "python" "django"
                  "legacy/web/Login.java" H1 H2)).
Defined.

(** ** The file name of a recovered conversion *)

Lemma finish_conversion_file_name (json_data : option json)
    (target_language : language) (original_file_path fw : string)
    (r : RecoveryResult) :
  fw <> EmptyString ->
  snd (finish_conversion json_data target_language original_file_path (Some fw))
  = Ok (Some r) ->
  filename r
  = JString (_get_framework_directory_structure target_language fw
               original_file_path).
Proof.
  intros Hfw. apply String.eqb_neq in Hfw.
  unfold finish_conversion. rewrite Hfw.
  destruct json_data as [v|]; [|discriminate].
  destruct v; try (destruct (truthy _); discriminate).
  destruct (truthy (JObject _)); [|discriminate].
  destruct (content_text _) as [c|e]; [|discriminate].
  cbn [lift io_bind].
  destruct (str_in (bs ++ "n") c);
    cbn [print ret io_bind app];
    match goal with
    | |- context [String.eqb (strip ?t) EmptyString] =>
        destruct (String.eqb (strip t) EmptyString)
    end;
    cbn [print ret io_bind app snd]; intros H; try discriminate;
    injection H as <-; reflexivity.
Qed.

Lemma framework_directory_base_name (target_language fw original_path : string) :
  fw <> EmptyString ->
  basename (_get_framework_directory_structure target_language fw original_path)
  = basename original_path.
Proof.
  intros Hfw. destruct (String.eqb fw "none") eqn:E.
  - unfold _get_framework_directory_structure. rewrite E, orb_true_r.
    reflexivity.
  - apply String.eqb_neq in E.
    destruct (@framework_directory_shape target_language fw original_path Hfw E)
      as [directory ->].
    exact (@basename_under directory original_path).
Qed.

Lemma recovered_file_name (ai_response : string)
    (target_language : language) (original_file_path fw : string)
    (r : RecoveryResult) :
  fw <> EmptyString ->
  snd (_parse_single_file_conversion ai_response target_language
         original_file_path (Some fw)) = Ok (Some r) ->
  filename r
  = JString (_get_framework_directory_structure target_language fw
               original_file_path).
Proof.
  intros Hfw. unfold _parse_single_file_conversion.
  destruct (recover_json_data ai_response target_language original_file_path)
    as [log [json_data|e]].
  - cbn [io_bind].
    pose proof (@finish_conversion_file_name json_data target_language
                  original_file_path fw r Hfw) as Hfin.
    destruct (finish_conversion json_data target_language original_file_path
                (Some fw)) as [log' [o|e]].
    + cbn [io_try snd]. exact Hfin.
    + cbn. discriminate.
  - cbn. discriminate.
Qed.

(** X20.  When a target framework is given and is not the empty text, a
    file that [_parse_single_file_conversion] returns is named by
    [_get_framework_directory_structure] from the path of the source
    file: the file name of the model's answer is not used, and the base
    name of the returned name is the base name of the source file, with
    the extension of the source language.  This holds for the framework
    [none] too, where the name is the source path itself. *)
Theorem framework_path_replaces_the_model_file_name (ai_response : string)
    (target_language : language) (original_file_path fw : string)
    (r : RecoveryResult) :
  fw <> EmptyString ->
  snd (_parse_single_file_conversion ai_response target_language
         original_file_path (Some fw)) = Ok (Some r) ->
  filename r
  = JString (_get_framework_directory_structure target_language fw
               original_file_path)
  /\ basename (_get_framework_directory_structure target_language fw
                 original_file_path)
     = basename original_file_path.
Proof.
  intros Hfw H. split.
  - exact (@recovered_file_name ai_response target_language original_file_path
             fw r Hfw H).
  - exact (@framework_directory_base_name _ _ _ Hfw).
Qed.

Lemma framework_path_replaces_the_model_file_name_witness :
  let ai_response := quoted "{'filename':'login.py','content':'x = 1'}" in
  exists r,
    "none" <> EmptyString
    /\ snd (_parse_single_file_conversion ai_response python
              "legacy/web/Login.java" (Some "none")) = Ok (Some r)
    /\ filename r = JString "legacy/web/Login.java".
Proof.
  intros ai_response.
  assert (H1 : "none" <> EmptyString) by discriminate.
  eexists. split; [exact H1|].
  assert (H2 : snd (_parse_single_file_conversion ai_response python
                      "legacy/web/Login.java" (Some "none"))
               = Ok (Some {| filename := JString "legacy/web/Login.java";
                             content := "x = 1";
                             dependencies := JObject [];
                             notes := JString EmptyString |}))
    by (vm_compute; reflexivity).
  split; [exact H2|].
  exact (proj1 (@framework_path_replaces_the_model_file_name ai_response python
                  "legacy/web/Login.java" "none" _ H1 H2)).
Defined.

(** ** The target file of the prompt *)

Lemma str_in_join_line (before : list string) (x y : string) (rest : list string) :
  str_in (x ++ nl) (join nl (before ++ x :: y :: rest)%list) = true.
Proof.
  induction before as [|b before IH].
  - cbn [app]. rewrite SpanFacts.join_cons.
    apply PyStrFacts.str_in_split. exists EmptyString, (join nl (y :: rest)).
    cbn [String.append]. rewrite PyStrFacts.append_assoc. reflexivity.
  - cbn [app].
    destruct (before ++ x :: y :: rest)%list as [|z zs] eqn:E.
    + destruct before; discriminate E.
    + rewrite SpanFacts.join_cons.
      apply ConverterFacts.str_in_app_r, ConverterFacts.str_in_app_r.
      exact IH.
Qed.

(** X21.  The file name that [_create_single_file_conversion_prompt]
    gives the model as the target file.  Without a named framework it is
    the stem of the source file followed at once by the extension word of
    the target language, with no dot between the two; with a framework
    other than [none] it is the base name of the source file, with the
    extension of the source language. *)
Theorem prompt_target_file_name
    (source_code source_language target_language file_path : string)
    (source_framework target_framework : option string) :
  str_in
    ("Target file: "
     ++ (if named_framework target_framework then basename file_path
         else fst (splitext (basename file_path))
              ++ _get_file_extension target_language)
     ++ nl)
    (_create_single_file_conversion_prompt source_code source_language
       target_language file_path source_framework target_framework) = true.
Proof.
  unfold _create_single_file_conversion_prompt, prompt_target.
  destruct (named_framework target_framework) eqn:En.
  - destruct target_framework as [fw|]; [|discriminate En].
    cbn [named_framework] in En. apply andb_true_iff in En.
    destruct En as [E1 _]. apply negb_true_iff, String.eqb_neq in E1.
    cbn [py_str]. rewrite (@framework_directory_base_name _ _ _ E1).
    exact (@str_in_join_line [_; _; _; _]
             ("Target file: " ++ basename file_path) _ _).
  - exact (@str_in_join_line [_; _; _; _]
             ("Target file: " ++ fst (splitext (basename file_path))
              ++ _get_file_extension target_language) _ _).
Qed.

End PathFacts.

(* ===================================================================== *)
(** * The converter: from the parsed files to the result *)
(* ===================================================================== *)

Module PipelineFacts.

Import PyStr Json CodeConverter.
Local Open Scope string_scope.
Local Open Scope nat_scope.

(** ** The text that is sent for a file *)

Section WithCollaborators.

Context {collaborators : ASTParser.Collaborators}.

(** X22.  For a record that [parse_file] returns with a text that is not
    empty, [_prepare_single_file_code] gives the text that was read from
    the file, whatever the source language is and whatever the extractor
    found: the imports, classes and functions of the record are not
    used. *)
Theorem prepared_code_is_the_text_read (file_path language source_language : string)
    (r : ASTParser.StructuralRecord) :
  ASTParser.parse_file file_path language = Ok (Some r) ->
  ASTParser.full_source_code r <> EmptyString ->
  ASTParser.read_text file_path = Ok (_prepare_single_file_code r source_language).
Proof.
  intros Hp Hne.
  rewrite (@ExtractorFacts.parse_file_keeps_the_text_read collaborators
             file_path language r Hp).
  unfold _prepare_single_file_code.
  apply String.eqb_neq in Hne. rewrite Hne. reflexivity.
Qed.

End WithCollaborators.

Lemma prepared_code_is_the_text_read_witness :
  let files : ASTParser.Collaborators :=
    {| ASTParser.py_tree := unit;
       ASTParser.python_grammar := fun _ => Ok tt;
       ASTParser.python_members := fun _ _ => Ok ASTParser.no_members;
       ASTParser.classify_lines := fun _ _ _ => Ok ASTParser.no_members;
       ASTParser.getsize := fun _ => Ok 6%Z;
       ASTParser.read_text := fun _ => Ok ("x = 1" ++ nl) |} in
  exists r,
    @ASTParser.parse_file files "app/job.py" "python" = Ok (Some r)
    /\ ASTParser.full_source_code r <> EmptyString
    /\ _prepare_single_file_code r "cobol" = "x = 1" ++ nl.
Proof.
  intros files. eexists.
  assert (H1 : @ASTParser.parse_file files "app/job.py" "python"
               = Ok (Some (@ASTParser.record_of "app/job.py" "python"
                             ASTParser.no_members ("x = 1" ++ nl))))
    by (vm_compute; reflexivity).
  assert (H2 : ASTParser.full_source_code
                 (@ASTParser.record_of "app/job.py" "python"
                    ASTParser.no_members ("x = 1" ++ nl)) <> EmptyString)
    by discriminate.
  split; [exact H1|]. split; [exact H2|].
  exact (f_equal (fun x => match x with Ok text => text | Raise _ => EmptyString end)
           (eq_sym (@prepared_code_is_the_text_read files "app/job.py" "python"
                      "cobol" _ H1 H2))).
Defined.

(** ** The startup file *)

Lemma existing_startup_files_named (target_language : string)
    (files : list RecoveryResult) (names : list string) :
  map filename files = map JString names ->
  existing_startup_files target_language files
  = Ok (filter (is_startup_file target_language) (map lower names)).
Proof.
  revert names. induction files as [|f rest IH]; intros [|n names] H;
    try discriminate H.
  - reflexivity.
  - cbn [map] in H. injection H as Hf Hrest.
    cbn [existing_startup_files]. unfold filename_lower. rewrite Hf.
    rewrite (IH names Hrest). cbn [map filter].
    destruct (is_startup_file target_language (lower n)); reflexivity.
Qed.

Lemma existing_startup_files_not_named (target_language : string)
    (files : list RecoveryResult) (f : RecoveryResult) :
  In f files -> (forall s, filename f <> JString s) ->
  existing_startup_files target_language files = Raise AttributeError.
Proof.
  intros Hin Hn. induction files as [|a rest IH]; [destruct Hin|].
  cbn [existing_startup_files].
  destruct Hin as [->|Hin].
  - unfold filename_lower. destruct (filename f) eqn:E; try reflexivity.
    exfalso. exact (Hn _ eq_refl).
  - rewrite (IH Hin). unfold filename_lower.
    destruct (filename a); reflexivity.
Qed.

(** Every file name is a text, or one is not. *)
Lemma names_are_text_or_not (files : list RecoveryResult) :
  (exists names, map filename files = map JString names)
  \/ (exists f, In f files /\ forall s, filename f <> JString s).
Proof.
  induction files as [|a rest IH].
  - left. exists []. reflexivity.
  - destruct (filename a) eqn:E;
      try (right; exists a; split; [left; reflexivity|];
           intros s0; rewrite E; discriminate).
    destruct IH as [[names Hn] | (f & Hin & Hf)].
    + left. exists (s :: names). cbn [map]. rewrite E, Hn. reflexivity.
    + right. exists f. split; [right; exact Hin | exact Hf].
Qed.

Lemma filter_nil_existsb {A : Type} (p : A -> bool) (l : list A) :
  filter p l = [] <-> existsb p l = false.
Proof.
  induction l as [|x l IH]; cbn [filter existsb]; [tauto|].
  destruct (p x); cbn [orb]; [split; discriminate | exact IH].
Qed.

Section WithService.

Context {service : Service}.

Lemma startup_files_shape (calls : nat) (target_language : language)
    (target_framework : option string) (files : list RecoveryResult)
    (names : list string) :
  map filename files = map JString names ->
  exists startup_files,
    _create_startup_files calls target_language target_framework files
    = Ok ((if existsb (is_startup_file target_language) (map lower names)
           then calls
           else match _get_startup_file_info target_language target_framework with
                | Some _ => S calls
                | None => calls
                end),
          startup_files)
    /\ length startup_files <= 1
    /\ (existsb (is_startup_file target_language) (map lower names) = true ->
        startup_files = [])
    /\ (_get_startup_file_info target_language target_framework = None ->
        startup_files = []).
Proof.
  intros Hn. unfold _create_startup_files.
  rewrite (@existing_startup_files_named target_language files names Hn).
  destruct (filter (is_startup_file target_language) (map lower names))
    as [|x xs] eqn:Ef.
  - apply filter_nil_existsb in Ef. rewrite Ef.
    destruct (_get_startup_file_info target_language target_framework)
      as [[startup_name template]|].
    + destruct (_chat_with_azure calls _) as [ai_response|e].
      * destruct (snd (_parse_single_file_conversion _ _ _ _)) as [[p|]|e].
        -- eexists. split; [reflexivity|]. split; [cbn; lia|].
           split; discriminate.
        -- exists []. split; [reflexivity|]. split; [cbn; lia|].
           split; reflexivity.
        -- exists []. split; [reflexivity|]. split; [cbn; lia|].
           split; reflexivity.
      * exists []. split; [reflexivity|]. split; [cbn; lia|].
        split; reflexivity.
    + exists []. split; [reflexivity|]. split; [cbn; lia|].
      split; reflexivity.
  - destruct (existsb (is_startup_file target_language) (map lower names)) eqn:Ee.
    + exists []. split; [reflexivity|]. split; [cbn; lia|].
      split; reflexivity.
    + apply filter_nil_existsb in Ee. rewrite Ee in Ef. discriminate Ef.
Qed.

(** X23.  When the file names of the converted files are texts,
    [_create_startup_files] returns at most one file and does not raise.
    It makes no request when one of the names, lowered, is a startup name
    of the target language, and none when the language has no startup
    file; otherwise it makes exactly one request, whether or not a file
    comes out of it. *)
Theorem startup_file_is_requested_at_most_once (calls : nat)
    (target_language : language) (target_framework : option string)
    (files : list RecoveryResult) (names : list string) :
  map filename files = map JString names ->
  exists startup_files,
    _create_startup_files calls target_language target_framework files
    = Ok ((if existsb (is_startup_file target_language) (map lower names)
           then calls
           else match _get_startup_file_info target_language target_framework with
                | Some _ => S calls
                | None => calls
                end),
          startup_files)
    /\ length startup_files <= 1
    /\ (existsb (is_startup_file target_language) (map lower names) = true ->
        startup_files = [])
    /\ (_get_startup_file_info target_language target_framework = None ->
        startup_files = []).
Proof. apply startup_files_shape. Qed.

(** ** The loop over the parsed files *)

Lemma convert_files_requests (ast_data : list ASTParser.StructuralRecord)
    (source_language : string) (target_language : language)
    (source_framework target_framework : option string) :
  forall calls,
    fst (convert_files calls ast_data source_language target_language
           source_framework target_framework)
    = calls + length ast_data.
Proof.
  induction ast_data as [|d rest IH]; intros calls; cbn [convert_files].
  - cbn. lia.
  - destruct (_chat_with_azure calls _) as [converted_code|e].
    + specialize (IH (S calls)).
      destruct (convert_files (S calls) rest source_language target_language
                  source_framework target_framework) as [calls' files].
      cbn [fst] in IH. cbn [length].
      destruct (snd (_parse_single_file_conversion _ _ _ _)) as [[p|]|e];
        cbn [fst]; lia.
    + rewrite IH. cbn [length]. lia.
Qed.

Lemma convert_files_length (ast_data : list ASTParser.StructuralRecord)
    (source_language : string) (target_language : language)
    (source_framework target_framework : option string) :
  forall calls,
    length (snd (convert_files calls ast_data source_language target_language
                   source_framework target_framework))
    <= length ast_data.
Proof.
  induction ast_data as [|d rest IH]; intros calls; cbn [convert_files].
  - cbn. lia.
  - destruct (_chat_with_azure calls _) as [converted_code|e].
    + specialize (IH (S calls)).
      destruct (convert_files (S calls) rest source_language target_language
                  source_framework target_framework) as [calls' files].
      cbn [snd] in IH. cbn [length].
      destruct (snd (_parse_single_file_conversion _ _ _ _)) as [[p|]|e];
        cbn [snd length]; lia.
    + specialize (IH (S calls)). cbn [length]. lia.
Qed.

(** Each converted file is what the recovery parser made of an answer for
    one of the parsed files. *)
Lemma convert_files_origin (ast_data : list ASTParser.StructuralRecord)
    (source_language : string) (target_language : language)
    (source_framework target_framework : option string) (f : RecoveryResult) :
  forall calls,
    In f (snd (convert_files calls ast_data source_language target_language
                 source_framework target_framework)) ->
    exists d ai_response,
      In d ast_data
      /\ snd (_parse_single_file_conversion ai_response target_language
                (ASTParser.file_path d) target_framework) = Ok (Some f).
Proof.
  induction ast_data as [|d rest IH]; intros calls; cbn [convert_files].
  - intros [].
  - destruct (_chat_with_azure calls _) as [converted_code|e].
    + specialize (IH (S calls)).
      destruct (convert_files (S calls) rest source_language target_language
                  source_framework target_framework) as [calls' files].
      cbn [snd] in IH.
      destruct (snd (_parse_single_file_conversion converted_code target_language
                       (ASTParser.file_path d) target_framework))
        as [[p|]|e] eqn:Ep; cbn [snd].
      * intros [<-|Hin].
        -- exists d, converted_code. split; [left; reflexivity | exact Ep].
        -- destruct (IH Hin) as (d' & a & Hd & Ha).
           exists d', a. split; [right; exact Hd | exact Ha].
      * intros Hin. destruct (IH Hin) as (d' & a & Hd & Ha).
        exists d', a. split; [right; exact Hd | exact Ha].
      * intros Hin. destruct (IH Hin) as (d' & a & Hd & Ha).
        exists d', a. split; [right; exact Hd | exact Ha].
    + intros Hin. destruct (IH (S calls) Hin) as (d' & a & Hd & Ha).
      exists d', a. split; [right; exact Hd | exact Ha].
Qed.

(** ** [convert_code] *)

Lemma startup_check_raises (calls : nat) (target_language : language)
    (target_framework : option string) (files : list RecoveryResult)
    (f : RecoveryResult) :
  In f files -> (forall s, filename f <> JString s) ->
  _create_startup_files calls target_language target_framework files
  = Raise AttributeError.
Proof.
  intros Hin Hn. unfold _create_startup_files.
  rewrite (@existing_startup_files_not_named target_language files f Hin Hn).
  reflexivity.
Qed.

(** X24.  [convert_code] raises for two reasons only.  For a pair of
    languages that is not supported it raises [ValueError] before any
    request is made.  For a supported pair it raises [AttributeError],
    after one request for each parsed file, when the file name of one of
    the converted files is not a text (the startup check calls [lower] on
    it outside the [try] of the loop); when every file name is a text it
    returns a result. *)
Theorem convert_code_raises_for_two_reasons
    (ast_data : list ASTParser.StructuralRecord) (source_language : string)
    (target_language : language)
    (source_framework target_framework : option string) :
  let files :=
    snd (convert_files 0 ast_data source_language target_language
           source_framework target_framework) in
  (_is_conversion_supported source_language target_language = false ->
   convert_code ast_data source_language target_language source_framework
     target_framework = (0, Raise ValueError))
  /\ (_is_conversion_supported source_language target_language = true ->
      (exists f, In f files /\ forall s, filename f <> JString s) ->
      convert_code ast_data source_language target_language source_framework
        target_framework = (length ast_data, Raise AttributeError))
  /\ (_is_conversion_supported source_language target_language = true ->
      (exists names, map filename files = map JString names) ->
      exists calls r,
        convert_code ast_data source_language target_language source_framework
          target_framework = (calls, Ok r)).
Proof.
  intros files. unfold convert_code. split; [|split].
  - intros ->. reflexivity.
  - intros -> (f & Hin & Hn). cbn [negb]. subst files.
    pose proof (@convert_files_requests ast_data source_language target_language
                  source_framework target_framework 0) as Hc.
    destruct (convert_files 0 ast_data source_language target_language
                source_framework target_framework) as [calls converted_files].
    cbn [fst snd] in *.
    rewrite (@startup_check_raises calls target_language target_framework
               converted_files f Hin Hn).
    rewrite Hc. reflexivity.
  - intros -> [names Hn]. cbn [negb]. subst files.
    destruct (convert_files 0 ast_data source_language target_language
                source_framework target_framework) as [calls converted_files].
    cbn [snd] in Hn.
    destruct (@startup_files_shape calls target_language target_framework
                converted_files names Hn) as (startup_files & -> & _).
    eexists. eexists. reflexivity.
Qed.

(** X25.  When [convert_code] returns, it has made one request for each
    parsed file and at most one more, for the startup file; the result
    holds no more files than requests were made, and its notes give the
    number of files of the result. *)
Theorem convert_code_counts
    (ast_data : list ASTParser.StructuralRecord) (source_language : string)
    (target_language : language)
    (source_framework target_framework : option string)
    (calls : nat) (r : Conversion) :
  convert_code ast_data source_language target_language source_framework
    target_framework = (calls, Ok r) ->
  length ast_data <= calls <= length ast_data + 1
  /\ length (result_converted_files r) <= calls
  /\ length (result_converted_files r) <= length ast_data + 1
  /\ conversion_notes r
     = "Converted " ++ str_of_nat (length (result_converted_files r))
       ++ " files from " ++ source_language ++ " to " ++ target_language.
Proof.
  unfold convert_code.
  destruct (_is_conversion_supported source_language target_language);
    cbn [negb]; [|discriminate].
  pose proof (@convert_files_requests ast_data source_language target_language
                source_framework target_framework 0) as Hc.
  pose proof (@convert_files_length ast_data source_language target_language
                source_framework target_framework 0) as Hl.
  destruct (convert_files 0 ast_data source_language target_language
              source_framework target_framework) as [calls0 converted_files].
  cbn [fst snd] in Hc, Hl.
  destruct (names_are_text_or_not converted_files) as [[names Hn] | (f & Hin & Hf)].
  - destruct (@startup_files_shape calls0 target_language target_framework
                converted_files names Hn)
      as (startup_files & -> & Hlen & Hexists & Hnone).
    intros H. injection H as <- <-.
    cbn [result_converted_files conversion_notes].
    rewrite List.length_map, List.length_app.
    assert (Hs : length startup_files
                 <= (if existsb (is_startup_file target_language) (map lower names)
                     then calls0
                     else match _get_startup_file_info target_language
                                  target_framework with
                          | Some _ => S calls0
                          | None => calls0
                          end) - calls0).
    { destruct (existsb (is_startup_file target_language) (map lower names)).
      - rewrite (Hexists eq_refl). cbn. lia.
      - destruct (_get_startup_file_info target_language target_framework).
        + lia.
        + rewrite (Hnone eq_refl). cbn. lia. }
    repeat split; try reflexivity;
      destruct (existsb (is_startup_file target_language) (map lower names));
      try destruct (_get_startup_file_info target_language target_framework);
      lia.
  - rewrite (@startup_check_raises calls0 target_language target_framework
               converted_files f Hin Hf).
    discriminate.
Qed.

(** X26.  A model that fails every request does not make [convert_code]
    fail: for a supported pair of languages it returns a result with no
    file, the default dependencies and the notes [Converted 0 files ...],
    after one request for each parsed file and one for the startup file
    when the target language has one. *)
Theorem failed_requests_give_an_empty_result
    (ast_data : list ASTParser.StructuralRecord) (source_language : string)
    (target_language : language)
    (source_framework target_framework : option string) :
  (forall calls prompt, exists e, _chat_with_azure calls prompt = Raise e) ->
  _is_conversion_supported source_language target_language = true ->
  convert_code ast_data source_language target_language source_framework
    target_framework
  = (length ast_data
     + match _get_startup_file_info target_language target_framework with
       | Some _ => 1
       | None => 0
       end,
     Ok {| result_source_language := source_language;
           result_source_framework := source_framework;
           result_target_language := target_language;
           result_target_framework := target_framework;
           result_converted_files := [];
           result_dependencies :=
             _get_default_dependencies target_language target_framework;
           conversion_notes :=
             "Converted 0 files from " ++ source_language ++ " to "
             ++ target_language |}).
Proof.
  intros Hfail Hs. unfold convert_code. rewrite Hs. cbn [negb].
  assert (Hloop : forall calls,
            convert_files calls ast_data source_language target_language
              source_framework target_framework
            = (calls + length ast_data, [])).
  { induction ast_data as [|d rest IH]; intros calls; cbn [convert_files].
    - f_equal. cbn. lia.
    - destruct (Hfail calls
                  (_create_single_file_conversion_prompt
                     (_prepare_single_file_code d source_language)
                     source_language target_language (ASTParser.file_path d)
                     source_framework target_framework)) as [e ->].
      rewrite IH. f_equal. cbn [length]. lia. }
  rewrite Hloop. cbn [Nat.add].
  unfold _create_startup_files. cbn [existing_startup_files].
  destruct (_get_startup_file_info target_language target_framework)
    as [[startup_name template]|].
  - destruct (Hfail (length ast_data)
                (_create_startup_file_prompt target_language target_framework
                   startup_name template)) as [e ->].
    f_equal. lia.
  - f_equal. lia.
Qed.

Lemma startup_file_name (calls calls' : nat) (target_language : language)
    (fw : string) (files startup_files : list RecoveryResult)
    (f : RecoveryResult) :
  fw <> EmptyString ->
  _create_startup_files calls target_language (Some fw) files
  = Ok (calls', startup_files) ->
  In f startup_files ->
  exists startup_name template,
    _get_startup_file_info target_language (Some fw)
    = Some (startup_name, template)
    /\ filename f
       = JString
           (if String.eqb target_language "java" && is_spring (Some fw)
            then "src/main/java/Main.java"
            else _get_framework_directory_structure target_language fw
                   ("startup_" ++ startup_name)).
Proof.
  intros Hfw. unfold _create_startup_files.
  generalize (String.eqb target_language "java" && is_spring (Some fw)).
  intros spring.
  destruct (existing_startup_files target_language files) as [[|x xs]|e];
    try discriminate;
    try (intros H; injection H as <- <-; intros Hin; exact (match Hin with end)).
  destruct (_get_startup_file_info target_language (Some fw))
    as [[startup_name template]|];
    try (intros H; injection H as <- <-; intros Hin; exact (match Hin with end)).
  destruct (_chat_with_azure calls _) as [ai_response|e];
    try (intros H; injection H as <- <-; intros Hin; exact (match Hin with end)).
  destruct (snd (_parse_single_file_conversion ai_response target_language
                   ("startup_" ++ startup_name) (Some fw)))
    as [[p|]|e] eqn:Ep;
    try (intros H; injection H as <- <-; intros Hin; exact (match Hin with end)).
  intros H. injection H as <- <-. intros [<-|[]].
  exists startup_name, template. split; [reflexivity|].
  destruct spring.
  - reflexivity.
  - exact (@PathFacts.recovered_file_name ai_response target_language
             ("startup_" ++ startup_name) fw p Hfw Ep).
Qed.

(** X27.  With a target framework that is not the empty text, every file
    of the result of [convert_code] is named from a source path: a
    converted file by [_get_framework_directory_structure] from the path
    of one of the parsed files, the startup file from [startup_] and the
    startup name of the language, or [src/main/java/Main.java] for java
    with spring or spring_boot.  No name comes from the model's answer. *)
Theorem converted_files_are_named_after_their_sources
    (ast_data : list ASTParser.StructuralRecord) (source_language : string)
    (target_language : language) (source_framework : option string)
    (fw : string) (calls : nat) (r : Conversion) (name : json) (text : string) :
  fw <> EmptyString ->
  convert_code ast_data source_language target_language source_framework
    (Some fw) = (calls, Ok r) ->
  In (name, text) (result_converted_files r) ->
  (exists file_data,
     In file_data ast_data
     /\ name = JString (_get_framework_directory_structure target_language fw
                          (ASTParser.file_path file_data)))
  \/ (exists startup_name template,
        _get_startup_file_info target_language (Some fw)
        = Some (startup_name, template)
        /\ name
           = JString
               (if String.eqb target_language "java" && is_spring (Some fw)
                then "src/main/java/Main.java"
                else _get_framework_directory_structure target_language fw
                       ("startup_" ++ startup_name))).
Proof.
  intros Hfw. unfold convert_code.
  destruct (_is_conversion_supported source_language target_language);
    cbn [negb]; [|discriminate].
  pose proof (@convert_files_origin ast_data source_language target_language
                source_framework (Some fw)) as Horigin.
  specialize (fun f => Horigin f 0).
  destruct (convert_files 0 ast_data source_language target_language
              source_framework (Some fw)) as [calls0 converted_files].
  cbn [snd] in Horigin.
  destruct (_create_startup_files calls0 target_language (Some fw)
              converted_files) as [[calls1 startup_files]|e] eqn:Es;
    [|discriminate].
  intros H. injection H as <- <-. cbn [result_converted_files].
  intros Hin. apply List.in_map_iff in Hin.
  destruct Hin as (f & Hf & Hin). injection Hf as <- <-.
  apply List.in_app_or in Hin. destruct Hin as [Hin|Hin].
  - left. destruct (Horigin f Hin) as (d & ai_response & Hd & Hp).
    exists d. split; [exact Hd|].
    exact (@PathFacts.recovered_file_name ai_response target_language
             (ASTParser.file_path d) fw f Hfw Hp).
  - right.
    exact (@startup_file_name calls0 calls1 target_language fw converted_files
             startup_files f Hfw Es Hin).
Qed.

(** X28.  With a target framework that is not the empty text, a
    conversion between a supported pair of languages always returns a
    result: every converted file then has a text as its file name, and
    the [AttributeError] of the startup check cannot occur. *)
Theorem conversion_with_a_framework_returns
    (ast_data : list ASTParser.StructuralRecord) (source_language : string)
    (target_language : language) (source_framework : option string)
    (fw : string) :
  fw <> EmptyString ->
  _is_conversion_supported source_language target_language = true ->
  exists calls r,
    convert_code ast_data source_language target_language source_framework
      (Some fw) = (calls, Ok r).
Proof.
  intros Hfw Hs. unfold convert_code. rewrite Hs. cbn [negb].
  pose proof (@convert_files_origin ast_data source_language target_language
                source_framework (Some fw)) as Horigin.
  specialize (fun f => Horigin f 0).
  destruct (convert_files 0 ast_data source_language target_language
              source_framework (Some fw)) as [calls0 converted_files].
  cbn [snd] in Horigin.
  destruct (names_are_text_or_not converted_files)
    as [[names Hn] | (f & Hin & Hf)].
  - destruct (@startup_files_shape calls0 target_language (Some fw)
                converted_files names Hn) as (startup_files & -> & _).
    eexists. eexists. reflexivity.
  - exfalso. destruct (Horigin f Hin) as (d & ai_response & _ & Hp).
    exact (Hf _ (@PathFacts.recovered_file_name ai_response target_language
                   (ASTParser.file_path d) fw f Hfw Hp)).
Qed.

End WithService.

(** ** Examples *)

Lemma startup_file_is_requested_at_most_once_witness :
  let service := {| _chat_with_azure := fun _ _ => Raise OSError |} in
  let file_data :=
    {| filename := JString "Main.py"; content := "x = 1";
       dependencies := JObject []; notes := JString EmptyString |} in
  map filename [file_data] = map JString ["Main.py"]
  /\ @_create_startup_files service 3 python None [file_data] = Ok (3, []).
Proof.
  intros service file_data.
  assert (H : map filename [file_data] = map JString ["Main.py"]) by reflexivity.
  split; [exact H|].
  destruct (@startup_file_is_requested_at_most_once service 3 python None
              [file_data] ["Main.py"] H) as (startup_files & E & _ & Hx & _).
  rewrite E. rewrite (Hx eq_refl). reflexivity.
Defined.

Lemma convert_code_raises_for_two_reasons_witness :
  let service :=
    {| _chat_with_azure :=
         fun _ _ => Ok (quoted "{'filename':5,'content':'x = 1'}") |} in
  let ast_data :=
    [ASTParser.record_of "app/Job.java" "java" ASTParser.no_members "class Job {}"] in
  _is_conversion_supported "java" python = true
  /\ @convert_code service ast_data "java" python None None
     = (1, Raise AttributeError).
Proof.
  intros service ast_data.
  assert (Hs : _is_conversion_supported "java" python = true) by reflexivity.
  split; [exact Hs|].
  refine (proj1 (proj2 (@convert_code_raises_for_two_reasons service ast_data
                          "java" python None None)) Hs _).
  exists {| filename := JNumber "5"; content := "x = 1";
            dependencies := JObject []; notes := JString EmptyString |}.
  split; [vm_compute; left; reflexivity | discriminate].
Defined.

Lemma convert_code_counts_witness :
  let service :=
    {| _chat_with_azure :=
         fun _ _ => Ok (quoted "{'filename':'main.py','content':'x = 1'}") |} in
  let ast_data :=
    [ASTParser.record_of "app/Job.java" "java" ASTParser.no_members "class Job {}"] in
  exists r,
    @convert_code service ast_data "java" python None None = (1, Ok r)
    /\ result_converted_files r = [(JString "main.py", "x = 1")]
    /\ conversion_notes r = "Converted 1 files from java to python".
Proof.
  intros service ast_data. eexists.
  assert (H : @convert_code service ast_data "java" python None None
              = (1, Ok {| result_source_language := "java";
                          result_source_framework := None;
                          result_target_language := "python";
                          result_target_framework := None;
                          result_converted_files := [(JString "main.py", "x = 1")];
                          result_dependencies :=
                            [("requests", "2.31.0"); ("pydantic", "2.5.0")];
                          conversion_notes :=
                            "Converted 1 files from java to python" |}))
    by (vm_compute; reflexivity).
  split; [exact H|]. split; [reflexivity|].
  exact (proj2 (proj2 (proj2 (@convert_code_counts service ast_data "java" python
                                None None 1 _ H)))).
Defined.

Lemma failed_requests_give_an_empty_result_witness :
  let service := {| _chat_with_azure := fun _ _ => Raise OSError |} in
  let ast_data :=
    [ASTParser.record_of "app/Job.java" "java" ASTParser.no_members "class Job {}"] in
  (forall calls prompt, exists e, @_chat_with_azure service calls prompt = Raise e)
  /\ _is_conversion_supported "java" python = true
  /\ fst (@convert_code service ast_data "java" python None None) = 2.
Proof.
  intros service ast_data.
  assert (H1 : forall calls prompt,
             exists e, @_chat_with_azure service calls prompt = Raise e)
    by (intros calls prompt; exists OSError; reflexivity).
  assert (H2 : _is_conversion_supported "java" python = true) by reflexivity.
  split; [exact H1|]. split; [exact H2|].
  rewrite (@failed_requests_give_an_empty_result service ast_data "java" python
             None None H1 H2).
  reflexivity.
Defined.

Lemma converted_files_are_named_after_their_sources_witness :
  let service :=
    {| _chat_with_azure :=
         fun _ _ => Ok (quoted "{'filename':'job.py','content':'x = 1'}") |} in
  let ast_data :=
    [ASTParser.record_of "app/Job.java" "java" ASTParser.no_members "class Job {}"] in
  exists r,
    "django" <> EmptyString
    /\ @convert_code service ast_data "java" python None (Some "django") = (2, Ok r)
    /\ result_converted_files r
       = [(JString "django_app/Job.java", "x = 1");
          (JString "django_app/startup_main.py", "x = 1")]
    /\ ((exists file_data,
           In file_data ast_data
           /\ JString "django_app/Job.java"
              = JString (_get_framework_directory_structure python "django"
                           (ASTParser.file_path file_data)))
        \/ (exists startup_name template,
              _get_startup_file_info python (Some "django")
              = Some (startup_name, template)
              /\ JString "django_app/Job.java"
                 = JString
                     (if String.eqb python "java" && is_spring (Some "django")
                      then "src/main/java/Main.java"
                      else _get_framework_directory_structure python "django"
                             ("startup_" ++ startup_name)))).
Proof.
  intros service ast_data. eexists.
  assert (H1 : "django" <> EmptyString) by discriminate.
  assert (H2 : @convert_code service ast_data "java" python None (Some "django")
               = (2, Ok {| result_source_language := "java";
                           result_source_framework := None;
                           result_target_language := "python";
                           result_target_framework := Some "django";
                           result_converted_files :=
                             [(JString "django_app/Job.java", "x = 1");
                              (JString "django_app/startup_main.py", "x = 1")];
                           result_dependencies :=
                             [("requests", "2.31.0"); ("pydantic", "2.5.0")];
                           conversion_notes :=
                             "Converted 2 files from java to python" |}))
    by (vm_compute; reflexivity).
  split; [exact H1|]. split; [exact H2|]. split; [reflexivity|].
  apply (@converted_files_are_named_after_their_sources service ast_data "java"
           python None "django" 2 _ (JString "django_app/Job.java") "x = 1" H1 H2).
  left. reflexivity.
Defined.

Lemma conversion_with_a_framework_returns_witness :
  let service :=
    {| _chat_with_azure :=
         fun _ _ => Ok (quoted "{'filename':5,'content':'x = 1'}") |} in
  let ast_data :=
    [ASTParser.record_of "app/Job.java" "java" ASTParser.no_members "class Job {}"] in
  "none" <> EmptyString
  /\ _is_conversion_supported "java" python = true
  /\ exists calls r,
       @convert_code service ast_data "java" python None (Some "none")
       = (calls, Ok r).
Proof.
  intros service ast_data.
  assert (H1 : "none" <> EmptyString) by discriminate.
  assert (H2 : _is_conversion_supported "java" python = true) by reflexivity.
  split; [exact H1|]. split; [exact H2|].
  exact (@conversion_with_a_framework_returns service ast_data "java" python
           None "none" H1 H2).
Defined.

End PipelineFacts.

(* ===================================================================== *)
(** * The framework table *)
(* ===================================================================== *)

Module FrameworkFacts.

Import PyStr FrameworkConfig.
Local Open Scope string_scope.

(** The list of a language is empty or one of the lists of the table. *)
Lemma frameworks_listed (language : string) :
  get_frameworks_for_language language = []
  \/ In (get_frameworks_for_language language) (map snd FRAMEWORK_CONFIG).
Proof.
  unfold get_frameworks_for_language.
  generalize (lower language). intros l.
  induction FRAMEWORK_CONFIG as [|[k v] rest IH]; cbn [CodeConverter.lookup map snd].
  - left. reflexivity.
  - destruct (String.eqb l k).
    + right. left. reflexivity.
    + destruct IH as [IH|IH]; [left; exact IH | right; right; exact IH].
Qed.

(** In every list of the table the first entry with the name of an entry
    has its label: no name is listed twice with two labels. *)
Lemma table_labels (frameworks : list Framework) (f : Framework) :
  In frameworks (map snd FRAMEWORK_CONFIG) -> In f frameworks ->
  label_of frameworks (name f) = label f.
Proof.
  intros Hl. cbn [FRAMEWORK_CONFIG map snd In] in Hl.
  repeat match type of Hl with
  | _ \/ _ => destruct Hl as [Hl|Hl]
  | False => destruct Hl
  end; subst frameworks; intros Hf; cbn [In] in Hf;
  repeat match type of Hf with
  | _ \/ _ => destruct Hf as [Hf|Hf]
  | False => destruct Hf
  end; subst f; vm_compute; reflexivity.
Qed.

Lemma label_of_unlisted (frameworks : list Framework) (framework : string) :
  existsb (fun f => String.eqb (name f) framework) frameworks = false ->
  label_of frameworks framework = framework.
Proof.
  induction frameworks as [|f rest IH]; cbn [existsb label_of]; [reflexivity|].
  destruct (String.eqb (name f) framework); cbn [orb]; [discriminate | exact IH].
Qed.

(** X30.  [get_framework_label] gives every framework that is listed for
    a language the label of its own entry, and such a framework is valid
    for the language; a framework that is not valid for the language, or
    any framework of a language without a list, comes back unchanged as
    its own label. *)
Theorem framework_label_lookup (language : string) :
  (forall f,
     In f (get_frameworks_for_language language) ->
     is_valid_framework language (name f) = true
     /\ get_framework_label language (name f) = label f)
  /\ (forall framework,
        is_valid_framework language framework = false ->
        get_framework_label language framework = framework).
Proof.
  split.
  - intros f Hf. split.
    + unfold is_valid_framework. apply List.existsb_exists.
      exists f. split; [exact Hf | apply String.eqb_refl].
    + unfold get_framework_label.
      destruct (frameworks_listed language) as [E|Hl].
      * rewrite E in Hf. destruct Hf.
      * exact (@table_labels _ f Hl Hf).
  - intros framework. unfold is_valid_framework, get_framework_label.
    apply label_of_unlisted.
Qed.

End FrameworkFacts.
